(** * Hurdy Gurdy: the Vulkan engine layer ([src/hg_vulkan_engine.cpp])

    A shallow embedding of the device selection, frame pacing, buffer and
    image code of [hg_vulkan_engine.cpp], and the properties its
    specification states about them.

    The Vulkan driver, VMA and GLFW are outside the program.  Every answer
    they give to a call is an input of the model: the record [Driver] holds
    one field per entry point the code calls, and the state the code can
    observe afterwards (live allocations, buffer bytes, image layouts, the
    batches handed to the queue) is the record [Gpu]. *)

From Stdlib Require Import ZArith Lia.
From stdpp Require Import base option list gmap strings.

Local Open Scope Z_scope.

(** ** Handles, results and error tags *)

(** Vulkan, VMA and GLFW handles are opaque pointers; [nullptr] is [0]. *)
Definition Handle := nat.
Definition nullptr : Handle := 0%nat.

Definition not_null (h : Handle) : bool := negb (Nat.eqb h nullptr).

(** The [vk::Result] codes the code can tell apart or that matter to the
    frame loop. *)
Inductive VkResult :=
| VK_SUCCESS
| VK_NOT_READY
| VK_TIMEOUT
| VK_SUBOPTIMAL_KHR
| VK_ERROR_OUT_OF_DATE_KHR
| VK_ERROR_SURFACE_LOST_KHR
| VK_ERROR_DEVICE_LOST
| VK_ERROR_OUT_OF_HOST_MEMORY
| VK_ERROR_OUT_OF_DEVICE_MEMORY
| VK_ERROR_MEMORY_MAP_FAILED
| VK_ERROR_INITIALIZATION_FAILED.

#[global] Instance VkResult_eq_dec : EqDecision VkResult.
Proof. solve_decision. Defined.

(** [result != vk::Result::eSuccess] *)
Definition failed (r : VkResult) : bool := bool_decide (r ≠ VK_SUCCESS).

(** The tags of [hg::Err] that [hg_vulkan_engine.cpp] returns. *)
Inductive Err :=
| GlfwFailure
| CouldNotInitializeGlfw
| VulkanFailure
| VulkanExtensionsUnavailable
| CouldNotCreateVkInstance
| CouldNotCreateVkDebugUtilsMessenger
| VkPhysicalDevicesUnavailable
| VkPhysicalDevicesUnsuitable
| VkQueueFamilyUnavailable
| VkQueueUnavailable
| CouldNotCreateVkDevice
| CouldNotCreateVmaAllocator
| CouldNotCreateVkCommandPool
| CouldNotAllocateVkCommandBuffers
| CouldNotCreateVkFence
| CouldNotCreateVkSemaphore
| CouldNotCreateVkSwapchain
| CouldNotWaitForVkQueue
| VkSwapchainImagesUnavailable
| InvalidWindowSize
| CouldNotWaitForVkFence
| CouldNotAcquireVkSwapchainImage
| CouldNotBeginVkCommandBuffer
| CouldNotEndVkCommandBuffer
| CouldNotSubmitVkCommandBuffer
| CouldNotPresentVkSwapchainImage
| CouldNotCreateGpuBuffer
| CouldNotWriteGpuBuffer
| CouldNotCreateGpuImage
| CouldNotCreateGpuImageView
| CouldNotWriteGpuImage
| CouldNotGenerateMipmaps
| ImageFileNotFound.

#[global] Instance Err_eq_dec : EqDecision Err.
Proof. solve_decision. Defined.

(** [hg::Result<T>]: a value or an error tag. *)
Inductive Result (T : Type) : Type :=
| ok (v : T)
| err (e : Err).
Arguments ok {T} v.
Arguments err {T} e.

Definition has_err {T} (r : Result T) : bool :=
  match r with ok _ => false | err _ => true end.

(** What a call of a function yields: it returns a [Result], or a failed
    [ASSERT] / [ERROR] ends the process. *)
Inductive Outcome (T : Type) : Type :=
| Returned (r : Result T)
| Fatal.
Arguments Returned {T} r.
Arguments Fatal {T}.

(** ** Function bodies

    A C++ function body threads the mutable state [S] it works on through
    its statements; a statement falls through to the next one ([Next]),
    leaves the function with a [return] ([Leave]) or fails an assertion
    ([Abort]). *)
Inductive Step (R A : Type) : Type :=
| Next (a : A)
| Leave (r : Result R)
| Abort.
Arguments Next {R A} a.
Arguments Leave {R A} r.
Arguments Abort {R A}.

Definition Body (S R A : Type) : Type := S → Step R A * S.

#[global] Instance Body_ret {S R} : MRet (Body S R) :=
  λ A a s, (Next a, s).

#[global] Instance Body_bind {S R} : MBind (Body S R) :=
  λ A B f m s,
    match m s with
    | (Next a, s') => f a s'
    | (Leave r, s') => (Leave r, s')
    | (Abort, s') => (Abort, s')
    end.

(** [return r;] *)
Definition Return {S R A} (r : Result R) : Body S R A := λ s, (Leave r, s).

(** Modelled from the spec: the macros [ASSERT] and [ERROR] of [hg_utils.h],
    which is not part of the sources at hand.  The specification calls a
    violated precondition a "fatal assertion, never recovered": the call
    does not return.

    [ASSERT(cond);] *)
Definition ASSERT {S R} (cond : bool) : Body S R unit :=
  λ s, (if cond then Next tt else Abort, s).

(** [ERROR("...")]: unconditional fatal error. *)
Definition ERROR {S R A} : Body S R A := λ s, (Abort, s).

(** [if (cond) stmt;] *)
Definition when {S R} (cond : bool) (stmt : Body S R unit) : Body S R unit :=
  if cond then stmt else mret tt.

Definition get {S R} : Body S R S := λ s, (Next s, s).
Definition modify {S R} (f : S → S) : Body S R unit := λ s, (Next tt, f s).

(** A function: a body all of whose paths end in [return]. *)
Definition Fn (S R : Type) : Type := S → Outcome R * S.

Definition fn {S R} (body : Body S R Empty_set) : Fn S R :=
  λ s,
    match body s with
    | (Next a, s') => match a with end
    | (Leave r, s') => (Returned r, s')
    | (Abort, s') => (Fatal, s')
    end.

(** Calling a function from a body: the callee's fatal assertion is the
    caller's. *)
Definition call {S R T} (f : Fn S T) : Body S R (Result T) :=
  λ s,
    match f s with
    | (Returned r, s') => (Next r, s')
    | (Fatal, s') => (Abort, s')
    end.

(** Modelled from the spec: the [defer(stmt)] macro of [hg_utils.h], which is
    not part of the sources at hand.  The specification has the deferred
    statement run "on every exit path (success or failure) before
    returning": it runs when the enclosing scope [rest] is left, by falling
    through or by [return].  A fatal assertion ends the process and runs
    nothing. *)
Definition defer {S R A} (stmt : S → S) (rest : Body S R A) : Body S R A :=
  λ s,
    match rest s with
    | (Abort, s') => (Abort, s')
    | (st, s') => (st, stmt s')
    end.

(** ** Device selection *)

(** [vk::QueueFlagBits] *)
Definition eGraphics : Z := 1.
Definition eCompute : Z := 2.
Definition eTransfer : Z := 4.

Record QueueFamilyProperties := {
  queueFlags : Z;
  queueCount : Z;
}.

Record PhysicalDeviceFeatures := {
  sampleRateShading : bool;
  samplerAnisotropy : bool;
}.

(** What the driver reports for one physical device. *)
Record PhysicalDevice := {
  gpu_handle : Handle;
  getFeatures : PhysicalDeviceFeatures;
  enumerateDeviceExtensionProperties : VkResult * list string;
  getQueueFamilyProperties : list QueueFamilyProperties;
}.

(** [DeviceExtensions]: [VK_KHR_SWAPCHAIN_EXTENSION_NAME],
    [VK_EXT_SHADER_OBJECT_EXTENSION_NAME] and
    [VK_EXT_DESCRIPTOR_INDEXING_EXTENSION_NAME]. *)
Definition DeviceExtensions : list string :=
  ["VK_KHR_swapchain"; "VK_EXT_shader_object"; "VK_EXT_descriptor_indexing"]%string.

(** C's [strcmp] on NUL-terminated strings: zero when the strings are equal
    up to their terminator, otherwise the difference of the first two bytes
    that differ.  The end of a [string] and a NUL byte both terminate. *)
Fixpoint strcmp (a b : string) : Z :=
  match a, b with
  | EmptyString, EmptyString => 0
  | EmptyString, String d _ => - Z.of_N (Ascii.N_of_ascii d)
  | String c _, EmptyString => Z.of_N (Ascii.N_of_ascii c)
  | String c a', String d b' =>
      if Ascii.eqb c d
      then if Ascii.eqb c Ascii.zero then 0 else strcmp a' b'
      else Z.of_N (Ascii.N_of_ascii c) - Z.of_N (Ascii.N_of_ascii d)
  end.

(** Conversion of an [int] or of a flag mask to [bool]: non-zero is true. *)
Definition to_bool (x : Z) : bool := negb (x =? 0).

(** The predicate of the [find_if] in [find_queue_family]:
    [static_cast<bool>(family.queueFlags & (eGraphics | eCompute))]. *)
Definition queue_family_pred (family : QueueFamilyProperties) : bool :=
  to_bool (Z.land (queueFlags family) (Z.lor eGraphics eCompute)).

(** [std::ranges::find_if] as the index of the first match. *)
Fixpoint find_if {A} (p : A → bool) (l : list A) : option nat :=
  match l with
  | [] => None
  | x :: l' => if p x then Some 0%nat else S <$> find_if p l'
  end.

Definition find_queue_family (gpu : PhysicalDevice) : Outcome Z :=
  if negb (not_null (gpu_handle gpu)) then Fatal
  else
    let queue_families := getQueueFamilyProperties gpu in
    match find_if queue_family_pred queue_families with
    | None => Returned (err VkQueueFamilyUnavailable)
    | Some i => Returned (ok (Z.of_nat i))
    end.

(** The extension test of [find_gpu]: [all_of] the required names,
    [any_of] the enumerated ones, with the lambda
    [return strcmp(required, extension.extensionName);] converted to [bool]. *)
Definition extensions_pass (extensions : list string) : bool :=
  forallb (λ required,
    existsb (λ extension, to_bool (strcmp required extension)) extensions)
    DeviceExtensions.

(** The loop of [find_gpu] over the enumerated devices. *)
Fixpoint find_gpu_loop (gpus : list PhysicalDevice) : Outcome PhysicalDevice :=
  match gpus with
  | [] => Returned (err VkPhysicalDevicesUnsuitable)
  | gpu :: rest =>
      let features := getFeatures gpu in
      if negb (sampleRateShading features) || negb (samplerAnisotropy features)
      then find_gpu_loop rest
      else
        let extensions := enumerateDeviceExtensionProperties gpu in
        if failed (fst extensions) then Returned (err VulkanFailure)
        else if negb (extensions_pass (snd extensions)) then find_gpu_loop rest
        else
          match find_queue_family gpu with
          | Fatal => Fatal
          | Returned (err _) => find_gpu_loop rest
          | Returned (ok _) =>
              if negb (not_null (gpu_handle gpu)) then Fatal
              else Returned (ok gpu)
          end
  end.

(** [find_gpu(engine)]: [instance] is [engine.instance], and
    [enumeratePhysicalDevices] what the instance enumerates. *)
Definition find_gpu (instance : Handle)
    (enumeratePhysicalDevices : VkResult * list PhysicalDevice)
  : Outcome PhysicalDevice :=
  if negb (not_null instance) then Fatal
  else if failed (fst enumeratePhysicalDevices)
  then Returned (err VkPhysicalDevicesUnavailable)
  else find_gpu_loop (snd enumeratePhysicalDevices).

(** The sibling test in [check_instance_extension_availability], with the
    lambda [return strcmp(required, extension.extensionName) == 0;]. *)
Definition check_instance_extension_availability
    (enumerateInstanceExtensionProperties : VkResult * list string)
    (required_extensions : list string) : Outcome bool :=
  if bool_decide (required_extensions = []) then Fatal
  else
    let extensions := enumerateInstanceExtensionProperties in
    if failed (fst extensions) then Returned (err VulkanFailure)
    else
      Returned (ok (forallb (λ required,
        existsb (λ extension, strcmp required extension =? 0) (snd extensions))
        required_extensions)).

(** ** The driver *)

Record Extent3D := { width : Z; height : Z; depth : Z }.

(** What the asset loader [ImageData::load] of [hg_load.h] decodes: the
    width and height in texels and the pixels, four bytes per texel. *)
Record ImageData := {
  img_width : Z;
  img_height : Z;
  pixels : list Byte.byte;
}.

(** One field per entry point of Vulkan, VMA, GLFW and the asset loader that
    the modelled functions call: the answer the platform gives to that call.
    [createCommandPool] is called twice by [Engine::create] and is indexed by
    the ordinal of the call.  [init_instance] is the outcome of the instance
    set-up of lines 80 to 112, whose steps the properties below do not look
    into.  [filter_linear_supported] tells whether [getFormatProperties]
    reports linear filtering for the format asked about.  An entry point
    called more than once in a run answers the same each time; a run in
    which every call succeeds, the kind the properties of image creation
    are about, is not restricted by this. *)
Record Driver := {
  glfwInit : bool;
  init_instance : Result Handle;
  createDebugUtilsMessengerEXT : VkResult * Handle;
  enumeratePhysicalDevices : VkResult * list PhysicalDevice;
  createDevice : VkResult * Handle;
  getQueue : Handle;
  vmaCreateAllocator : VkResult * Handle;
  createCommandPool : nat → VkResult * Handle;
  waitForFences : VkResult;
  resetFences : VkResult;
  acquireNextImageKHR : VkResult * Z;
  CommandBuffer_begin : VkResult;
  CommandBuffer_end : VkResult;
  Queue_submit : VkResult;
  presentKHR : VkResult;
  allocateCommandBuffers : VkResult;
  createFence : VkResult;
  vmaCreateBuffer : VkResult;
  vmaCopyMemoryToAllocation : VkResult;
  vmaCreateImage : VkResult;
  createImageView : VkResult;
  filter_linear_supported : bool;
  ImageData_load : string → Result ImageData;
}.

(** ** The device context *)

Definition UINT32_MAX : Z := 4294967295.
Definition INT32_MAX : Z := 2147483647.

Record Engine := {
  instance : Handle;
  debug_messenger : Handle;
  gpu : option PhysicalDevice;
  device : Handle;
  allocator : Handle;
  queue_family_index : Z;
  queue : Handle;
  command_pool : Handle;
  single_time_command_pool : Handle;
}.

Definition init_device (drv : Driver) (engine : Engine) : Outcome Handle :=
  if negb (bool_decide (is_Some (gpu engine))) then Fatal
  else if queue_family_index engine =? UINT32_MAX then Fatal
  else
    let device := createDevice drv in
    if failed (fst device) then Returned (err CouldNotCreateVkDevice)
    else if negb (not_null (snd device)) then Fatal
    else Returned (ok (snd device)).

Definition init_allocator (drv : Driver) (engine : Engine) : Outcome Handle :=
  if negb (not_null (instance engine)) then Fatal
  else if negb (bool_decide (is_Some (gpu engine))) then Fatal
  else if negb (not_null (device engine)) then Fatal
  else
    let result := vmaCreateAllocator drv in
    if failed (fst result) then Returned (err CouldNotCreateVmaAllocator)
    else Returned (ok (snd result)).

(** Lifting a function that touches no state into a body. *)
Definition pure_call {S R T} (o : Outcome T) : Body S R (Result T) :=
  λ s, match o with
       | Returned r => (Next r, s)
       | Fatal => (Abort, s)
       end.

(** [Engine::create()]; the state is the flag [s_engine_initialized]. *)
Definition Engine_create (drv : Driver) : Fn bool Engine := fn (
  s_engine_initialized ← get;
  when s_engine_initialized ERROR;;
  when (negb (glfwInit drv)) (Return (err CouldNotInitializeGlfw));;
  match init_instance drv with
  | err e => Return (err e)
  | ok instance_ =>
  let messenger := createDebugUtilsMessengerEXT drv in
  when (failed (fst messenger)) (Return (err CouldNotCreateVkDebugUtilsMessenger));;
  gpu_ ← pure_call (find_gpu instance_ (enumeratePhysicalDevices drv));
  match gpu_ with
  | err e => Return (err e)
  | ok gpu_ =>
  queue_family ← pure_call (find_queue_family gpu_);
  match queue_family with
  | err e => Return (err e)
  | ok queue_family =>
  let engine := {| instance := instance_; debug_messenger := snd messenger;
                   gpu := Some gpu_; device := nullptr; allocator := nullptr;
                   queue_family_index := queue_family; queue := nullptr;
                   command_pool := nullptr;
                   single_time_command_pool := nullptr |} in
  device_ ← pure_call (init_device drv engine);
  match device_ with
  | err e => Return (err e)
  | ok device_ =>
  let queue_ := getQueue drv in
  when (negb (not_null queue_)) (Return (err VkQueueUnavailable));;
  let engine := {| instance := instance_; debug_messenger := snd messenger;
                   gpu := Some gpu_; device := device_; allocator := nullptr;
                   queue_family_index := queue_family; queue := queue_;
                   command_pool := nullptr;
                   single_time_command_pool := nullptr |} in
  allocator_ ← pure_call (init_allocator drv engine);
  match allocator_ with
  | err e => Return (err e)
  | ok allocator_ =>
  let pool := createCommandPool drv 0%nat in
  when (failed (fst pool)) (Return (err CouldNotCreateVkCommandPool));;
  let transient_pool := createCommandPool drv 1%nat in
  when (failed (fst transient_pool)) (Return (err CouldNotCreateVkCommandPool));;
  modify (λ _, true);;
  ASSERT (not_null instance_);;
  ASSERT (not_null (snd messenger));;
  ASSERT (not_null (gpu_handle gpu_));;
  ASSERT (not_null device_);;
  ASSERT (not_null allocator_);;
  ASSERT (negb (queue_family =? UINT32_MAX));;
  ASSERT (not_null queue_);;
  ASSERT (not_null (snd pool));;
  ASSERT (not_null (snd transient_pool));;
  Return (ok {| instance := instance_; debug_messenger := snd messenger;
                gpu := Some gpu_; device := device_; allocator := allocator_;
                queue_family_index := queue_family; queue := queue_;
                command_pool := snd pool;
                single_time_command_pool := snd transient_pool |})
  end end end end end).

(** ** The presentation surface and its frame loop *)

Record Extent2D := { extent_width : Z; extent_height : Z }.

(** The fields of [Window] that [begin_frame] and [end_frame] read or write.
    The per-slot arrays hold [MaxFramesInFlight] handles each. *)
Record Window := {
  m_swapchain : Handle;
  m_extent : Extent2D;
  m_command_buffers : list Handle;
  m_frame_finished_fences : list Handle;
  m_image_available_semaphores : list Handle;
  m_ready_to_present_semaphores : list Handle;
  m_current_frame_index : Z;
  m_current_image_index : Z;
  m_recording : bool;
}.

Definition set_current_image_index (i : Z) (w : Window) : Window :=
  {| m_swapchain := m_swapchain w; m_extent := m_extent w;
     m_command_buffers := m_command_buffers w;
     m_frame_finished_fences := m_frame_finished_fences w;
     m_image_available_semaphores := m_image_available_semaphores w;
     m_ready_to_present_semaphores := m_ready_to_present_semaphores w;
     m_current_frame_index := m_current_frame_index w;
     m_current_image_index := i;
     m_recording := m_recording w |}.

Definition set_recording (b : bool) (w : Window) : Window :=
  {| m_swapchain := m_swapchain w; m_extent := m_extent w;
     m_command_buffers := m_command_buffers w;
     m_frame_finished_fences := m_frame_finished_fences w;
     m_image_available_semaphores := m_image_available_semaphores w;
     m_ready_to_present_semaphores := m_ready_to_present_semaphores w;
     m_current_frame_index := m_current_frame_index w;
     m_current_image_index := m_current_image_index w;
     m_recording := b |}.

Definition set_current_frame_index (i : Z) (w : Window) : Window :=
  {| m_swapchain := m_swapchain w; m_extent := m_extent w;
     m_command_buffers := m_command_buffers w;
     m_frame_finished_fences := m_frame_finished_fences w;
     m_image_available_semaphores := m_image_available_semaphores w;
     m_ready_to_present_semaphores := m_ready_to_present_semaphores w;
     m_current_frame_index := i;
     m_current_image_index := m_current_image_index w;
     m_recording := m_recording w |}.

(** Modelled from the spec: the slot accessors of [Window], declared in
    [hg_vulkan_engine.h], which is not part of the sources at hand.  The
    specification gives every frame slot "one command buffer, one frame
    finished fence, one image available semaphore, one ready to present
    semaphore" and the window a "current frame-slot index": an accessor
    reads its array at [m_current_frame_index].  An index outside the array
    reads [nullptr] here. *)
Definition slot (handles : list Handle) (w : Window) : Handle :=
  default nullptr (handles !! Z.to_nat (m_current_frame_index w)).

Definition current_cmd (w : Window) : Handle := slot (m_command_buffers w) w.
Definition is_frame_finished (w : Window) : Handle :=
  slot (m_frame_finished_fences w) w.
Definition is_image_available (w : Window) : Handle :=
  slot (m_image_available_semaphores w) w.
Definition is_ready_to_present (w : Window) : Handle :=
  slot (m_ready_to_present_semaphores w) w.

Section Frames.
(** [MaxFramesInFlight] is a constant of [hg_vulkan_engine.h]; the
    specification names 2 and 3 as its values. *)
Variable MaxFramesInFlight : Z.

(** [Window::begin_frame].  The viewport, scissor and rasterization state
    commands recorded after [begin] return nothing and touch no field of
    the window; they are not part of the model. *)
Definition begin_frame (drv : Driver) (engine : Engine) : Fn Window Handle := fn (
  w ← get;
  ASSERT (negb (m_recording w));;
  ASSERT (not_null (current_cmd w));;
  ASSERT (not_null (is_frame_finished w));;
  ASSERT (not_null (is_image_available w));;
  ASSERT (not_null (device engine));;
  let wait_result := waitForFences drv in
  when (failed wait_result) (Return (err CouldNotWaitForVkFence));;
  let reset_result := resetFences drv in
  when (failed reset_result) (Return (err VulkanFailure));;
  let acquire_result := acquireNextImageKHR drv in
  when (failed (fst acquire_result))
    (Return (err CouldNotAcquireVkSwapchainImage));;
  modify (set_current_image_index (snd acquire_result));;
  let begin_result := CommandBuffer_begin drv in
  when (failed begin_result) (Return (err CouldNotBeginVkCommandBuffer));;
  modify (set_recording true);;
  w ← get;
  Return (ok (current_cmd w))).

(** [Window::end_frame].  [m_current_frame_index] stays below
    [MaxFramesInFlight], so the sum [m_current_frame_index + 1] does not
    wrap in any integer type that holds [MaxFramesInFlight]. *)
Definition end_frame (drv : Driver) (engine : Engine) : Fn Window unit := fn (
  w ← get;
  ASSERT (m_recording w);;
  ASSERT (not_null (m_swapchain w));;
  ASSERT (not_null (current_cmd w));;
  ASSERT (not_null (is_image_available w));;
  ASSERT (not_null (is_ready_to_present w));;
  ASSERT (not_null (device engine));;
  let end_result := CommandBuffer_end drv in
  when (failed end_result) (Return (err CouldNotEndVkCommandBuffer));;
  modify (set_recording false);;
  let submit_result := Queue_submit drv in
  when (failed submit_result) (Return (err CouldNotSubmitVkCommandBuffer));;
  let present_result := presentKHR drv in
  when (bool_decide (present_result = VK_ERROR_OUT_OF_DATE_KHR))
    (Return (err InvalidWindowSize));;
  when (failed present_result) (Return (err CouldNotPresentVkSwapchainImage));;
  modify (λ w, set_current_frame_index
                 ((m_current_frame_index w + 1) `rem` MaxFramesInFlight) w);;
  Return (ok tt)).

(** One [begin_frame] / [end_frame] cycle of the render loop: [Some] of the
    window afterwards when both calls returned success. *)
Definition frame_cycle (drv : Driver) (engine : Engine) (w : Window)
  : option Window :=
  match begin_frame drv engine w with
  | (Returned (ok _), w1) =>
      match end_frame drv engine w1 with
      | (Returned (ok _), w2) => Some w2
      | _ => None
      end
  | _ => None
  end.

(** Consecutive cycles, one driver behaviour per frame. *)
Fixpoint frame_cycles (drvs : list Driver) (engine : Engine) (w : Window)
  : option Window :=
  match drvs with
  | [] => Some w
  | drv :: drvs' =>
      match frame_cycle drv engine w with
      | Some w' => frame_cycles drvs' engine w'
      | None => None
      end
  end.
End Frames.

(** The window as [Window::create] leaves it and the frame loop keeps it:
    every slot has its objects and the slot index is in range. *)
Definition all_not_null (handles : list Handle) : bool :=
  forallb not_null handles.

Record window_ok (N : Z) (w : Window) : Prop := {
  ok_swapchain : not_null (m_swapchain w) = true;
  ok_cmds : all_not_null (m_command_buffers w) = true;
  ok_fences : all_not_null (m_frame_finished_fences w) = true;
  ok_available : all_not_null (m_image_available_semaphores w) = true;
  ok_present : all_not_null (m_ready_to_present_semaphores w) = true;
  ok_cmds_len : Z.of_nat (length (m_command_buffers w)) = N;
  ok_fences_len : Z.of_nat (length (m_frame_finished_fences w)) = N;
  ok_available_len : Z.of_nat (length (m_image_available_semaphores w)) = N;
  ok_present_len : Z.of_nat (length (m_ready_to_present_semaphores w)) = N;
  ok_index : 0 ≤ m_current_frame_index w < N;
}.

(** Every call the frame loop makes to the driver succeeds. *)
Definition frame_driver_ok (drv : Driver) : Prop :=
  waitForFences drv = VK_SUCCESS ∧ resetFences drv = VK_SUCCESS ∧
  fst (acquireNextImageKHR drv) = VK_SUCCESS ∧
  CommandBuffer_begin drv = VK_SUCCESS ∧ CommandBuffer_end drv = VK_SUCCESS ∧
  Queue_submit drv = VK_SUCCESS ∧ presentKHR drv = VK_SUCCESS.

(** ** Device memory as the code can observe it *)

Inductive ImageLayout :=
| eUndefined
| eGeneral
| eColorAttachmentOptimal
| eDepthStencilAttachmentOptimal
| eShaderReadOnlyOptimal
| eTransferSrcOptimal
| eTransferDstOptimal
| ePresentSrcKHR.

#[global] Instance ImageLayout_eq_dec : EqDecision ImageLayout.
Proof. solve_decision. Defined.

Inductive PipelineStage := StageNone | StageTransfer | StageFragmentShader.
Inductive Access := AccessNone | AccessTransferRead | AccessTransferWrite
                  | AccessShaderRead.
Inductive Filter := FilterNearest | FilterLinear.

(** [vk::ImageAspectFlagBits] *)
Definition eColor : Z := 1.

(** [vk::Offset3D] with its fields [x], [y] and [z]. *)
Record Offset3D := { off_x : Z; off_y : Z; off_z : Z }.

(** [vk::ImageSubresourceRange], fields in declaration order. *)
Record ImageSubresourceRange := {
  aspectMask : Z;
  baseMipLevel : Z;
  levelCount : Z;
  baseArrayLayer : Z;
  layerCount : Z;
}.

(** [vk::ImageSubresourceLayers], fields in declaration order. *)
Record ImageSubresourceLayers := {
  layers_aspectMask : Z;
  mipLevel : Z;
  layers_baseArrayLayer : Z;
  layers_layerCount : Z;
}.

(** [vk::BufferCopy]: its constructor takes [srcOffset], [dstOffset] and
    [size], in that order. *)
Record BufferCopy := { srcOffset : Z; dstOffset : Z; copy_size : Z }.

Record BufferImageCopy2 := {
  imageSubresource : ImageSubresourceLayers;
  imageExtent : Extent3D;
}.

Record ImageCopy2 := {
  copy_srcSubresource : ImageSubresourceLayers;
  copy_srcOffset : Offset3D;
  copy_dstSubresource : ImageSubresourceLayers;
  copy_extent : Extent3D;
}.

(** [vk::ImageBlit2]; [srcOffsets[0]] and [dstOffsets[0]] stay at the origin. *)
Record ImageBlit2 := {
  blit_srcSubresource : ImageSubresourceLayers;
  srcOffsets1 : Offset3D;
  blit_dstSubresource : ImageSubresourceLayers;
  dstOffsets1 : Offset3D;
}.

(** A synchronization scope: pipeline stage, access mask, layout. *)
Record SyncScope := {
  stage : PipelineStage;
  access : Access;
  layout : ImageLayout;
}.

Record ImageBarrier := {
  barrier_image : Handle;
  subresourceRange : ImageSubresourceRange;
  barrier_src : SyncScope;
  barrier_dst : SyncScope;
}.

(** The commands the modelled code records. *)
Inductive Cmd :=
| pipelineBarrier2 (barriers : list ImageBarrier)
| copyBuffer (src dst : Handle) (regions : list BufferCopy)
| copyBufferToImage2 (srcBuffer dstImage : Handle) (dstImageLayout : ImageLayout)
    (regions : list BufferImageCopy2)
| copyImage2 (srcImage : Handle) (srcImageLayout : ImageLayout)
    (dstImage : Handle) (dstImageLayout : ImageLayout) (regions : list ImageCopy2)
| blitImage2 (srcImage : Handle) (srcImageLayout : ImageLayout)
    (dstImage : Handle) (dstImageLayout : ImageLayout) (regions : list ImageBlit2)
    (filter : Filter).

(** An image as created: its create info and the layout of each
    subresource, keyed by (mip level, array layer).  A subresource without
    an entry is in the undefined layout, as every subresource is after
    creation.  Texel contents are not tracked. *)
Record ImageInfo := {
  imageType : Z;
  info_extent : Extent3D;
  mipLevels : Z;
  arrayLayers : Z;
  cube_compatible : bool;
  layouts : gmap (nat * nat) ImageLayout;
}.

Definition layout_of (info : ImageInfo) (mip layer : nat) : ImageLayout :=
  default eUndefined (layouts info !! (mip, layer)).

Inductive ImageViewType := e1D | e2D | e3D | eCube.

Record ViewInfo := {
  view_image : Handle;
  viewType : ImageViewType;
  view_subresourceRange : ImageSubresourceRange;
}.

(** The observable device state: the live VMA buffers with their bytes, the
    live images and image views, the live command buffers with what has
    been recorded into them, the batches the queue has executed (oldest
    first), and the next fresh handle. *)
Record Gpu := {
  buffers : gmap Handle (list Byte.byte);
  images : gmap Handle ImageInfo;
  views : gmap Handle ViewInfo;
  command_buffers : gmap Handle (list Cmd);
  submitted : list (list Cmd);
  next_handle : Handle;
}.

Definition set_buffers (f : gmap Handle (list Byte.byte) → gmap Handle (list Byte.byte))
    (g : Gpu) : Gpu :=
  {| buffers := f (buffers g); images := images g; views := views g;
     command_buffers := command_buffers g; submitted := submitted g;
     next_handle := next_handle g |}.

Definition set_images (f : gmap Handle ImageInfo → gmap Handle ImageInfo)
    (g : Gpu) : Gpu :=
  {| buffers := buffers g; images := f (images g); views := views g;
     command_buffers := command_buffers g; submitted := submitted g;
     next_handle := next_handle g |}.

Definition set_views (f : gmap Handle ViewInfo → gmap Handle ViewInfo)
    (g : Gpu) : Gpu :=
  {| buffers := buffers g; images := images g; views := f (views g);
     command_buffers := command_buffers g; submitted := submitted g;
     next_handle := next_handle g |}.

Definition set_command_buffers (f : gmap Handle (list Cmd) → gmap Handle (list Cmd))
    (g : Gpu) : Gpu :=
  {| buffers := buffers g; images := images g; views := views g;
     command_buffers := f (command_buffers g); submitted := submitted g;
     next_handle := next_handle g |}.

Definition set_submitted (f : list (list Cmd) → list (list Cmd)) (g : Gpu) : Gpu :=
  {| buffers := buffers g; images := images g; views := views g;
     command_buffers := command_buffers g; submitted := f (submitted g);
     next_handle := next_handle g |}.

(** A fresh, non-null handle. *)
Definition fresh_handle {R} : Body Gpu R Handle :=
  λ g, (Next (next_handle g),
        {| buffers := buffers g; images := images g; views := views g;
           command_buffers := command_buffers g; submitted := submitted g;
           next_handle := S (next_handle g) |}).

(** *** Bytes *)

(** Overwrite [mem] from [offset] on with [bytes].  A range that leaves the
    allocation is undefined behaviour in VMA and Vulkan; the model leaves
    the allocation as it is. *)
Definition write_bytes (offset : Z) (bytes mem : list Byte.byte) : list Byte.byte :=
  if bool_decide (0 ≤ offset ∧ offset + Z.of_nat (length bytes) ≤ Z.of_nat (length mem))
  then take (Z.to_nat offset) mem ++ bytes
       ++ drop (Z.to_nat offset + length bytes) mem
  else mem.

(** The [n] bytes of [mem] from [offset] on. *)
Definition read_bytes (offset n : Z) (mem : list Byte.byte) : list Byte.byte :=
  take (Z.to_nat n) (drop (Z.to_nat offset) mem).

(** *** What the queue does with a batch *)

(** The subresources (mip level, array layer) of a range. *)
Definition subresources (r : ImageSubresourceRange) : list (nat * nat) :=
  m ← seq (Z.to_nat (baseMipLevel r)) (Z.to_nat (levelCount r));
  l ← seq (Z.to_nat (baseArrayLayer r)) (Z.to_nat (layerCount r));
  [(m, l)].

(** An image barrier moves the subresources of its range to the layout of
    its destination scope. *)
Definition transition (b : ImageBarrier) (info : ImageInfo) : ImageInfo :=
  {| imageType := imageType info; info_extent := info_extent info;
     mipLevels := mipLevels info; arrayLayers := arrayLayers info;
     cube_compatible := cube_compatible info;
     layouts := foldr (λ k m, <[k := layout (barrier_dst b)]> m) (layouts info)
                  (subresources (subresourceRange b)) |}.

(** One region of a buffer copy.  A region outside either buffer is
    undefined behaviour; the model copies nothing then. *)
Definition copy_region (src dst : Handle) (r : BufferCopy)
    (bufs : gmap Handle (list Byte.byte)) : gmap Handle (list Byte.byte) :=
  match bufs !! src, bufs !! dst with
  | Some s, Some d =>
      if bool_decide (0 ≤ srcOffset r ∧ 0 ≤ copy_size r ∧
                      srcOffset r + copy_size r ≤ Z.of_nat (length s))
      then <[dst := write_bytes (dstOffset r)
                      (read_bytes (srcOffset r) (copy_size r) s) d]> bufs
      else bufs
  | _, _ => bufs
  end.

Definition exec_cmd (g : Gpu) (c : Cmd) : Gpu :=
  match c with
  | pipelineBarrier2 barriers =>
      foldl (λ g b, set_images (alter (transition b) (barrier_image b)) g) g barriers
  | copyBuffer src dst regions =>
      foldl (λ g r, set_buffers (copy_region src dst r) g) g regions
  | copyBufferToImage2 _ _ _ _ => g
  | copyImage2 _ _ _ _ _ => g
  | blitImage2 _ _ _ _ _ _ => g
  end.

(** [queue.submit] of a command buffer that succeeds: the queue executes
    what was recorded, in order, and the batch joins the log. *)
Definition execute (cmd : Handle) (g : Gpu) : Gpu :=
  let batch := default [] (command_buffers g !! cmd) in
  set_submitted (λ log, log ++ [batch]) (foldl exec_cmd g batch).

(** Recording one command into a command buffer. *)
Definition record (cmd : Handle) (c : Cmd) (g : Gpu) : Gpu :=
  set_command_buffers (alter (λ cs, cs ++ [c]) cmd) g.

(** ** The single-time command helper *)

Definition begin_single_time_commands (drv : Driver) (engine : Engine)
  : Fn Gpu Handle := fn (
  ASSERT (not_null (device engine));;
  ASSERT (not_null (single_time_command_pool engine));;
  let cmd_result := allocateCommandBuffers drv in
  when (failed cmd_result) (Return (err CouldNotAllocateVkCommandBuffers));;
  cmd ← fresh_handle;
  modify (set_command_buffers <[cmd := []]>);;
  let begin_result := CommandBuffer_begin drv in
  when (failed begin_result) (Return (err CouldNotBeginVkCommandBuffer));;
  ASSERT (not_null cmd);;
  Return (ok cmd)).

(** The fence of [end_single_time_commands] is created, waited for and
    destroyed (by [defer]) within the call; fences are not part of [Gpu]. *)
Definition end_single_time_commands (drv : Driver) (engine : Engine)
    (cmd : Handle) : Fn Gpu unit := fn (
  ASSERT (not_null (device engine));;
  ASSERT (not_null (single_time_command_pool engine));;
  ASSERT (not_null cmd);;
  let end_result := CommandBuffer_end drv in
  when (failed end_result) (Return (err CouldNotEndVkCommandBuffer));;
  let fence := createFence drv in
  when (failed fence) (Return (err CouldNotCreateVkFence));;
  let submit_result := Queue_submit drv in
  when (failed submit_result) (Return (err CouldNotSubmitVkCommandBuffer));;
  modify (execute cmd);;
  let wait_result := waitForFences drv in
  when (failed wait_result) (Return (err CouldNotWaitForVkFence));;
  modify (set_command_buffers (delete cmd));;
  Return (ok tt)).

(** Modelled from the spec: [submit_single_time_commands], a template of
    [hg_vulkan_engine.h], which is not part of the sources at hand.  The
    specification has it execute "a single closure of GPU commands
    synchronously: allocate, record, submit, wait, free": it begins a
    single-time command buffer, lets [commands] record into it and ends it,
    handing on the error of either step. *)
Definition submit_single_time_commands (drv : Driver) (engine : Engine)
    (commands : Handle → list Cmd) : Fn Gpu unit := fn (
  cmd ← call (begin_single_time_commands drv engine);
  match cmd with
  | err e => Return (err e)
  | ok cmd =>
      modify (λ g, foldl (λ g c, record cmd c g) g (commands cmd));;
      result ← call (end_single_time_commands drv engine cmd);
      Return result
  end).

(** ** Typed GPU buffers *)

Inductive MemoryType := RandomAccess | Staging | DeviceLocal.

#[global] Instance MemoryType_eq_dec : EqDecision MemoryType.
Proof. solve_decision. Defined.

(** [vk::BufferUsageFlagBits] *)
Definition eTransferSrc : Z := 1.
Definition eTransferDst : Z := 2.

(** [GpuBuffer::Config]: size, usage, memory type. *)
Record BufferConfig := {
  cfg_size : Z;
  cfg_usage : Z;
  cfg_memory_type : MemoryType;
}.

(** [GpuBuffer].  VMA hands out the buffer and its allocation together; the
    model gives both the same handle, the key of the buffer in [buffers]. *)
Record GpuBuffer := {
  allocation : Handle;
  buffer : Handle;
  memory_type : MemoryType;
}.

(** [vmaCreateBuffer] that succeeds: a new buffer of [size] bytes.  Its
    content is unspecified; the model fills it with zero bytes. *)
Definition new_buffer (h : Handle) (size : Z) (g : Gpu) : Gpu :=
  set_buffers <[h := replicate (Z.to_nat size) Byte.x00]> g.

(** [vmaDestroyBuffer(allocator, buffer, allocation)] *)
Definition vmaDestroyBuffer (buffer : Handle) (g : Gpu) : Gpu :=
  set_buffers (delete buffer) g.

(** [vmaCopyMemoryToAllocation(allocator, data, allocation, offset, size)]
    that succeeds: the first [size] bytes of [data] land in the mapped
    allocation from [offset] on. *)
Definition copy_memory_to_allocation (data : list Byte.byte)
    (allocation : Handle) (offset size : Z) (g : Gpu) : Gpu :=
  set_buffers (alter (write_bytes offset (take (Z.to_nat size) data)) allocation) g.

(** ** Typed GPU images *)

Inductive Format := FormatUndefined | eR8G8B8A8Srgb | eR8G8B8A8Unorm | eD32Sfloat.

#[global] Instance Format_eq_dec : EqDecision Format.
Proof. solve_decision. Defined.

(** [vk::ImageUsageFlagBits]; the transfer bits have the values of the
    buffer usage bits [eTransferSrc] and [eTransferDst]. *)
Definition eSampled : Z := 4.

(** [VkImageType] and the arithmetic the code does on it. *)
Definition VK_IMAGE_TYPE_1D : Z := 0.
Definition VK_IMAGE_TYPE_2D : Z := 1.
Definition VK_IMAGE_TYPE_3D : Z := 2.

(** [StagingGpuImage::Config]: extent, format, usage, sample count, mip
    levels. *)
Record StagingConfig := {
  staging_extent : Extent3D;
  staging_format : Format;
  staging_usage : Z;
  staging_sample_count : Z;
  staging_mip_levels : Z;
}.

Record StagingGpuImage := {
  staging_allocation : Handle;
  staging_image : Handle;
}.

(** [StagingGpuImage::Data]: pointer, alignment, extent. *)
Record Data := {
  ptr : option (list Byte.byte);
  alignment : Z;
  data_extent : Extent3D;
}.

(** [GpuImage::Config] *)
Record ImageConfig := {
  image_extent : Extent3D;
  image_format : Format;
  image_usage : Z;
  aspect_flags : Z;
  image_layout : ImageLayout;
  sample_count : Z;
  mip_levels : Z;
}.

Record GpuImage := {
  image_allocation : Handle;
  image : Handle;
  view : Handle;
}.

(** [vmaCreateImage] that succeeds: a new image, every subresource in the
    undefined layout. *)
Definition new_image (h : Handle) (type : Z) (extent : Extent3D)
    (levels layers : Z) (cube : bool) (g : Gpu) : Gpu :=
  set_images <[h := {| imageType := type; info_extent := extent;
                       mipLevels := levels; arrayLayers := layers;
                       cube_compatible := cube; layouts := ∅ |}]> g.

(** [createImageView] that succeeds. *)
Definition new_view (h : Handle) (image : Handle) (type : ImageViewType)
    (range : ImageSubresourceRange) (g : Gpu) : Gpu :=
  set_views <[h := {| view_image := image; viewType := type;
                      view_subresourceRange := range |}]> g.

(** Modelled from the spec: the class [BarrierBuilder] of
    [hg_vulkan_engine.h], which is not part of the sources at hand.  The
    specification has it accumulate "a mutable sequence of per-image
    synchronization descriptors"; [add_image_barrier] "appends a new
    pending descriptor", [set_image_src] and [set_image_dst] "fill in the
    most-recently-added descriptor's source/destination fields (defaults:
    undefined layout, no stage/access)", and [build_and_run] "issues
    exactly one batched pipeline-barrier command covering all accumulated
    descriptors". *)
Definition BarrierBuilder : list ImageBarrier := [].

Definition no_scope : SyncScope :=
  {| stage := StageNone; access := AccessNone; layout := eUndefined |}.

Definition add_image_barrier (image : Handle) (range : ImageSubresourceRange)
    (pending : list ImageBarrier) : list ImageBarrier :=
  pending ++ [{| barrier_image := image; subresourceRange := range;
                 barrier_src := no_scope; barrier_dst := no_scope |}].

Definition on_last (f : ImageBarrier → ImageBarrier) (pending : list ImageBarrier)
  : list ImageBarrier :=
  match reverse pending with
  | [] => []
  | b :: earlier => reverse earlier ++ [f b]
  end.

Definition set_image_src (st : PipelineStage) (ac : Access) (lay : ImageLayout)
  : list ImageBarrier → list ImageBarrier :=
  on_last (λ b, {| barrier_image := barrier_image b;
                   subresourceRange := subresourceRange b;
                   barrier_src := {| stage := st; access := ac; layout := lay |};
                   barrier_dst := barrier_dst b |}).

Definition set_image_dst (st : PipelineStage) (ac : Access) (lay : ImageLayout)
  : list ImageBarrier → list ImageBarrier :=
  on_last (λ b, {| barrier_image := barrier_image b;
                   subresourceRange := subresourceRange b;
                   barrier_src := barrier_src b;
                   barrier_dst := {| stage := st; access := ac; layout := lay |} |}).

Definition build_and_run (pending : list ImageBarrier) : list Cmd :=
  [pipelineBarrier2 pending].

(** One use of the builder on one image: [add_image_barrier], then
    [set_image_src] when the source gives a source scope ([Some]), then
    [set_image_dst] and [build_and_run]. *)
Definition barrier (image : Handle) (range : ImageSubresourceRange)
    (src : option SyncScope) (dst : SyncScope) : list Cmd :=
  let pending := add_image_barrier image range BarrierBuilder in
  let pending :=
    match src with
    | Some src => set_image_src (stage src) (access src) (layout src) pending
    | None => pending
    end in
  build_and_run (set_image_dst (stage dst) (access dst) (layout dst) pending).

(** Modelled from the spec: [StagingGpuImage::destroy], defined in
    [hg_vulkan_engine.h], which is not part of the sources at hand; it
    releases the image and its allocation. *)
Definition StagingGpuImage_destroy (self : StagingGpuImage) (g : Gpu) : Gpu :=
  set_images (delete (staging_image self)) g.

(** The halving step of the mip loop on one axis:
    [if (mip_offset.x > 1) mip_offset.x /= 2;]. *)
Definition halve (v : Z) : Z := if 1 <? v then v `quot` 2 else v.

Definition halve_offset (o : Offset3D) : Offset3D :=
  {| off_x := halve (off_x o); off_y := halve (off_y o); off_z := halve (off_z o) |}.

(** The body of the loop of [generate_mipmaps_result], [n] iterations from
    [level] on. *)
Fixpoint mip_loop (image : Handle) (n : nat) (level : Z) (mip_offset : Offset3D)
  : list Cmd :=
  match n with
  | O => []
  | S n' =>
      let next_offset := halve_offset mip_offset in
      barrier image
        {| aspectMask := eColor; baseMipLevel := level + 1; levelCount := 1;
           baseArrayLayer := 0; layerCount := 1 |}
        None
        {| stage := StageTransfer; access := AccessTransferWrite;
           layout := eTransferDstOptimal |}
      ++ [blitImage2 image eTransferSrcOptimal image eTransferDstOptimal
            [{| blit_srcSubresource :=
                  {| layers_aspectMask := eColor; mipLevel := level;
                     layers_baseArrayLayer := 0; layers_layerCount := 1 |};
                srcOffsets1 := mip_offset;
                blit_dstSubresource :=
                  {| layers_aspectMask := eColor; mipLevel := level + 1;
                     layers_baseArrayLayer := 0; layers_layerCount := 1 |};
                dstOffsets1 := next_offset |}]
            FilterLinear]
      ++ barrier image
           {| aspectMask := eColor; baseMipLevel := level + 1; levelCount := 1;
              baseArrayLayer := 0; layerCount := 1 |}
           (Some {| stage := StageTransfer; access := AccessTransferWrite;
              layout := eTransferDstOptimal |})
           {| stage := StageTransfer; access := AccessTransferRead;
              layout := eTransferSrcOptimal |}
      ++ mip_loop image n' (level + 1) next_offset
  end.

Section Resources.
(** What the headers that are not part of the sources at hand decide:
    - [err_of_ok]: what [Result::err()] of [hg_utils.h] does on a result
      that holds a value, [None] for a fatal assertion and [Some e] for
      the tag it returns;
    - [to_u32] and [to_i32]: the integer conversions of [hg_utils.h];
    - [default_sample_count], [default_mip_levels] and
      [default_subresource]: the default member initializers of
      [StagingGpuImage::Config] and the default argument of
      [StagingGpuImage::write], from [hg_vulkan_engine.h]. *)
Variable err_of_ok : option Err.
Variable to_u32 : Z → Z.
Variable to_i32 : Z → Z.
Variable default_sample_count : Z.
Variable default_mip_levels : Z.
Variable default_subresource : ImageSubresourceRange.

(** [return result.err();] *)
Definition Return_err {S R A T} (result : Result T) : Body S R A :=
  match result with
  | err e => Return (err e)
  | ok _ =>
      match err_of_ok with
      | Some e => Return (err e)
      | None => ERROR
      end
  end.

(** [GpuBuffer::create_result].  The three memory types are the only
    values of the enumeration, so the final [ERROR] branch of the source
    is unreachable and the allocation hints, which the model does not
    track, need no case distinction. *)
Definition GpuBuffer_create_result (drv : Driver) (engine : Engine)
    (config : BufferConfig) : Fn Gpu GpuBuffer := fn (
  ASSERT (not_null (allocator engine));;
  ASSERT (negb (cfg_size config =? 0));;
  ASSERT (negb (cfg_usage config =? 0));;
  let buffer_result := vmaCreateBuffer drv in
  when (failed buffer_result) (Return (err CouldNotCreateGpuBuffer));;
  h ← fresh_handle;
  modify (new_buffer h (cfg_size config));;
  ASSERT (not_null h);;
  ASSERT (not_null h);;
  Return (ok {| allocation := h; buffer := h;
                memory_type := cfg_memory_type config |})).

(** [GpuBuffer::write_result]; [data] is [None] for a null pointer. *)
Definition GpuBuffer_write_result (drv : Driver) (engine : Engine)
    (self : GpuBuffer) (data : option (list Byte.byte)) (size offset : Z)
  : Fn Gpu unit := fn (
  ASSERT (not_null (allocator engine));;
  ASSERT (not_null (allocation self));;
  ASSERT (not_null (buffer self));;
  ASSERT (bool_decide (is_Some data));;
  ASSERT (negb (size =? 0));;
  when (bool_decide (memory_type self = Staging)) (ASSERT (offset =? 0));;
  let bytes := default [] data in
  if bool_decide (memory_type self = RandomAccess)
     || bool_decide (memory_type self = Staging)
  then
    let copy_result := vmaCopyMemoryToAllocation drv in
    when (negb (failed copy_result))
      (modify (copy_memory_to_allocation bytes (allocation self) offset size));;
    when (failed copy_result) (Return (err CouldNotWriteGpuBuffer));;
    Return (ok tt)
  else
    ASSERT (bool_decide (memory_type self = DeviceLocal));;
    staging_buffer ← call (GpuBuffer_create_result drv engine
      {| cfg_size := size; cfg_usage := eTransferSrc; cfg_memory_type := Staging |});
    match staging_buffer with
    | err e => Return_err staging_buffer
    | ok staging =>
        defer (vmaDestroyBuffer (buffer staging)) (
          let copy_result := vmaCopyMemoryToAllocation drv in
          when (negb (failed copy_result))
            (modify (copy_memory_to_allocation bytes (allocation staging) 0 size));;
          when (failed copy_result) (Return_err staging_buffer);;
          submit ← call (submit_single_time_commands drv engine (λ cmd,
            [copyBuffer (buffer staging) (buffer self)
               [{| srcOffset := offset; dstOffset := 0; copy_size := size |}]]));
          when (has_err submit) (Return (err CouldNotWriteGpuBuffer));;
          Return (ok tt))
    end).

(** [StagingGpuImage::create] *)
Definition StagingGpuImage_create (drv : Driver) (engine : Engine)
    (config : StagingConfig) : Fn Gpu StagingGpuImage := fn (
  ASSERT (not_null (device engine));;
  ASSERT (not_null (allocator engine));;
  ASSERT (0 <? width (staging_extent config));;
  ASSERT (0 <? height (staging_extent config));;
  ASSERT (0 <? depth (staging_extent config));;
  ASSERT (bool_decide (staging_format config ≠ FormatUndefined));;
  ASSERT (negb (staging_usage config =? 0));;
  ASSERT (negb (staging_sample_count config =? 0));;
  ASSERT (0 <? staging_mip_levels config);;
  let dimensions := VK_IMAGE_TYPE_3D in
  let dimensions :=
    if depth (staging_extent config) =? 1
    then let dimensions := dimensions - 1 in
         if height (staging_extent config) =? 1 then dimensions - 1
         else dimensions
    else dimensions in
  let image_result := vmaCreateImage drv in
  when (failed image_result) (Return (err CouldNotCreateGpuImage));;
  h ← fresh_handle;
  modify (new_image h dimensions (staging_extent config)
            (staging_mip_levels config) 1 false);;
  ASSERT (not_null h);;
  ASSERT (not_null h);;
  Return (ok {| staging_allocation := h; staging_image := h |})).

(** The commands [StagingGpuImage::write] records. *)
Definition staging_write_commands (self : StagingGpuImage) (staging : GpuBuffer)
    (data : Data) (final_layout : ImageLayout)
    (subresource : ImageSubresourceRange) (cmd : Handle) : list Cmd :=
  barrier (staging_image self) subresource None
    {| stage := StageTransfer; access := AccessTransferWrite;
       layout := eTransferDstOptimal |}
  ++ [copyBufferToImage2 (buffer staging) (staging_image self)
        eTransferDstOptimal
        [{| imageSubresource :=
              {| layers_aspectMask := aspectMask subresource; mipLevel := 0;
                 layers_baseArrayLayer := 0; layers_layerCount := 1 |};
            imageExtent := data_extent data |}]]
  ++ barrier (staging_image self) subresource
       (Some {| stage := StageTransfer; access := AccessTransferWrite;
          layout := eTransferDstOptimal |})
       {| stage := StageNone; access := AccessNone; layout := final_layout |}.

(** [StagingGpuImage::write].  The byte count is the product of the three
    [u32] extents, which wraps at 32 bits, times the alignment. *)
Definition StagingGpuImage_write (drv : Driver) (engine : Engine)
    (self : StagingGpuImage) (data : Data) (final_layout : ImageLayout)
    (subresource : ImageSubresourceRange) : Fn Gpu unit := fn (
  ASSERT (not_null (allocator engine));;
  ASSERT (not_null (staging_allocation self));;
  ASSERT (not_null (staging_image self));;
  ASSERT (bool_decide (is_Some (ptr data)));;
  ASSERT (0 <? alignment data);;
  ASSERT (0 <? width (data_extent data));;
  ASSERT (0 <? height (data_extent data));;
  ASSERT (0 <? depth (data_extent data));;
  let size := (width (data_extent data) * height (data_extent data)
               * depth (data_extent data)) `mod` 2 ^ 32 * alignment data in
  staging_buffer ← call (GpuBuffer_create_result drv engine
    {| cfg_size := size; cfg_usage := eTransferSrc; cfg_memory_type := Staging |});
  match staging_buffer with
  | err e => Return_err staging_buffer
  | ok staging =>
      defer (vmaDestroyBuffer (buffer staging)) (
        staging_write ← call (GpuBuffer_write_result drv engine staging
                                (ptr data) size 0);
        match staging_write with
        | err e => Return_err staging_write
        | ok _ =>
            submit_result ← call (submit_single_time_commands drv engine
              (staging_write_commands self staging data final_layout subresource));
            when (has_err submit_result) (Return (err CouldNotWriteGpuImage));;
            Return (ok tt)
        end)
  end).

(** The view type [GpuImage::create_result] infers from the extent. *)
Definition infer_view_type (extent : Extent3D) : ImageViewType :=
  if depth extent =? 1
  then if height extent =? 1 then e1D else e2D
  else e3D.

(** [GpuImage::create_result] *)
Definition GpuImage_create_result (drv : Driver) (engine : Engine)
    (config : ImageConfig) : Fn Gpu GpuImage := fn (
  ASSERT (not_null (device engine));;
  ASSERT (not_null (allocator engine));;
  ASSERT (0 <? width (image_extent config));;
  ASSERT (0 <? height (image_extent config));;
  ASSERT (0 <? depth (image_extent config));;
  ASSERT (bool_decide (image_format config ≠ FormatUndefined));;
  ASSERT (negb (image_usage config =? 0));;
  ASSERT (negb (aspect_flags config =? 0));;
  ASSERT (negb (sample_count config =? 0));;
  ASSERT (0 <? mip_levels config);;
  staging ← call (StagingGpuImage_create drv engine
    {| staging_extent := image_extent config;
       staging_format := image_format config;
       staging_usage := image_usage config;
       staging_sample_count := sample_count config;
       staging_mip_levels := mip_levels config |});
  match staging with
  | err _ => Return (err CouldNotCreateGpuImage)
  | ok staging =>
      let dimensions := infer_view_type (image_extent config) in
      let view_result := createImageView drv in
      when (failed view_result) (Return (err CouldNotCreateGpuImageView));;
      view_ ← fresh_handle;
      modify (new_view view_ (staging_image staging) dimensions
                {| aspectMask := aspect_flags config; baseMipLevel := 0;
                   levelCount := mip_levels config; baseArrayLayer := 0;
                   layerCount := 1 |});;
      (if bool_decide (image_layout config ≠ eUndefined)
       then
         submit_result ← call (submit_single_time_commands drv engine (λ cmd,
           barrier (staging_image staging)
             {| aspectMask := eColor; baseMipLevel := 0; levelCount := 1;
                baseArrayLayer := 0; layerCount := 1 |}
             None
             {| stage := StageNone; access := AccessNone;
                layout := image_layout config |}));
         when (has_err submit_result) (Return (err CouldNotCreateGpuImage))
       else mret tt);;
      ASSERT (not_null (staging_allocation staging));;
      ASSERT (not_null (staging_image staging));;
      ASSERT (not_null view_);;
      Return (ok {| image_allocation := staging_allocation staging;
                    image := staging_image staging; view := view_ |})
  end).






(** The commands [GpuImage::generate_mipmaps_result] records. *)
Definition generate_mipmaps_commands (self : GpuImage) (mip_levels : Z)
    (extent : Extent3D) (final_layout : ImageLayout) (cmd : Handle) : list Cmd :=
  let mip_offset := {| off_x := to_i32 (width extent);
                       off_y := to_i32 (height extent);
                       off_z := to_i32 (depth extent) |} in
  barrier (image self)
    {| aspectMask := eColor; baseMipLevel := 0; levelCount := 1;
       baseArrayLayer := 0; layerCount := 1 |}
    None
    {| stage := StageTransfer; access := AccessTransferRead;
       layout := eTransferSrcOptimal |}
  ++ mip_loop (image self) (Z.to_nat (mip_levels - 1)) 0 mip_offset
  ++ barrier (image self)
       {| aspectMask := eColor; baseMipLevel := 0; levelCount := mip_levels;
          baseArrayLayer := 0; layerCount := 1 |}
       (Some {| stage := StageTransfer; access := AccessTransferRead;
          layout := eTransferSrcOptimal |})
       {| stage := StageNone; access := AccessNone; layout := final_layout |}.

(** [GpuImage::generate_mipmaps_result] *)
Definition GpuImage_generate_mipmaps_result (drv : Driver) (engine : Engine)
    (self : GpuImage) (mip_levels : Z) (extent : Extent3D) (format : Format)
    (final_layout : ImageLayout) : Fn Gpu unit := fn (
  ASSERT (bool_decide (is_Some (gpu engine)));;
  ASSERT (not_null (image self));;
  ASSERT (1 <? mip_levels);;
  ASSERT (0 <? width extent);;
  ASSERT (0 <? height extent);;
  ASSERT (0 <? depth extent);;
  ASSERT (bool_decide (format ≠ FormatUndefined));;
  ASSERT (bool_decide (final_layout ≠ eUndefined));;
  when (negb (filter_linear_supported drv)) (Return (err CouldNotGenerateMipmaps));;
  submit_result ← call (submit_single_time_commands drv engine
    (generate_mipmaps_commands self mip_levels extent final_layout));
  when (has_err submit_result) (Return (err CouldNotGenerateMipmaps));;
  Return (ok tt)).
End Resources.

(** ** Scenarios of the frame loop *)

(** A driver for the frame loop, given the answers to the seven calls of a
    frame; every other call succeeds. *)
Definition frame_driver (wait reset acquire begin_ end_ submit present : VkResult)
  : Driver :=
  {| glfwInit := true; init_instance := ok 1%nat;
     createDebugUtilsMessengerEXT := (VK_SUCCESS, 2%nat);
     enumeratePhysicalDevices := (VK_SUCCESS, []);
     createDevice := (VK_SUCCESS, 3%nat); getQueue := 4%nat;
     vmaCreateAllocator := (VK_SUCCESS, 5%nat);
     createCommandPool := λ n, (VK_SUCCESS, (6 + n)%nat);
     waitForFences := wait; resetFences := reset;
     acquireNextImageKHR := (acquire, 0);
     CommandBuffer_begin := begin_; CommandBuffer_end := end_;
     Queue_submit := submit; presentKHR := present;
     allocateCommandBuffers := VK_SUCCESS; createFence := VK_SUCCESS;
     vmaCreateBuffer := VK_SUCCESS; vmaCopyMemoryToAllocation := VK_SUCCESS;
     vmaCreateImage := VK_SUCCESS; createImageView := VK_SUCCESS;
     filter_linear_supported := true;
     ImageData_load := λ _, err ImageFileNotFound |}.

Definition driver_all_ok : Driver :=
  frame_driver VK_SUCCESS VK_SUCCESS VK_SUCCESS VK_SUCCESS VK_SUCCESS
    VK_SUCCESS VK_SUCCESS.

(** An engine with every handle in place. *)
Definition engine_up : Engine :=
  {| instance := 1%nat; debug_messenger := 2%nat; gpu := None;
     device := 3%nat; allocator := 5%nat; queue_family_index := 0;
     queue := 4%nat; command_pool := 6%nat;
     single_time_command_pool := 7%nat |}.

(** A window with two frames in flight, at slot [i]. *)
Definition window2 (i : Z) (recording : bool) : Window :=
  {| m_swapchain := 10%nat; m_extent := {| extent_width := 1920; extent_height := 1080 |};
     m_command_buffers := [11; 12]%nat;
     m_frame_finished_fences := [13; 14]%nat;
     m_image_available_semaphores := [15; 16]%nat;
     m_ready_to_present_semaphores := [17; 18]%nat;
     m_current_frame_index := i; m_current_image_index := 0;
     m_recording := recording |}.

(** ** Scenarios of the resource code *)

(** A driver for the resource code, given the answers of buffer creation,
    of the mapped copy and of the queue submission; every other call
    succeeds. *)
Definition resource_driver (create copy submit : VkResult) : Driver :=
  {| glfwInit := true; init_instance := ok 1%nat;
     createDebugUtilsMessengerEXT := (VK_SUCCESS, 2%nat);
     enumeratePhysicalDevices := (VK_SUCCESS, []);
     createDevice := (VK_SUCCESS, 3%nat); getQueue := 4%nat;
     vmaCreateAllocator := (VK_SUCCESS, 5%nat);
     createCommandPool := λ n, (VK_SUCCESS, (6 + n)%nat);
     waitForFences := VK_SUCCESS; resetFences := VK_SUCCESS;
     acquireNextImageKHR := (VK_SUCCESS, 0);
     CommandBuffer_begin := VK_SUCCESS; CommandBuffer_end := VK_SUCCESS;
     Queue_submit := submit; presentKHR := VK_SUCCESS;
     allocateCommandBuffers := VK_SUCCESS; createFence := VK_SUCCESS;
     vmaCreateBuffer := create; vmaCopyMemoryToAllocation := copy;
     vmaCreateImage := VK_SUCCESS; createImageView := VK_SUCCESS;
     filter_linear_supported := true;
     ImageData_load := λ _, err ImageFileNotFound |}.

(** A device on which one buffer of [n] zero bytes lives, with handle 20. *)
Definition gpu_one_buffer (n : nat) : Gpu :=
  {| buffers := {[ 20%nat := replicate n Byte.x00 ]}; images := ∅; views := ∅;
     command_buffers := ∅; submitted := []; next_handle := 21%nat |}.

Definition buffer20 (tier : MemoryType) : GpuBuffer :=
  {| allocation := 20%nat; buffer := 20%nat; memory_type := tier |}.

(** ** Scenarios of device selection *)

Definition features_ok : PhysicalDeviceFeatures :=
  {| sampleRateShading := true; samplerAnisotropy := true |}.

(** A device with the two required features and a graphics, compute and
    transfer queue, whose only device extension is [VK_KHR_maintenance1]. *)
Definition gpu_bare : PhysicalDevice :=
  {| gpu_handle := 30%nat; getFeatures := features_ok;
     enumerateDeviceExtensionProperties :=
       (VK_SUCCESS, ["VK_KHR_maintenance1"%string]);
     getQueueFamilyProperties := [{| queueFlags := 7; queueCount := 1 |}] |}.

(** A device with the required features and extensions whose first queue
    family is compute and transfer only; the second one has graphics too. *)
Definition gpu_compute_first : PhysicalDevice :=
  {| gpu_handle := 31%nat; getFeatures := features_ok;
     enumerateDeviceExtensionProperties := (VK_SUCCESS, DeviceExtensions);
     getQueueFamilyProperties :=
       [{| queueFlags := 6; queueCount := 2 |};
        {| queueFlags := 7; queueCount := 1 |}] |}.

(** A platform that enumerates [gpus]; every call succeeds. *)
Definition device_driver (gpus : list PhysicalDevice) : Driver :=
  {| glfwInit := true; init_instance := ok 1%nat;
     createDebugUtilsMessengerEXT := (VK_SUCCESS, 2%nat);
     enumeratePhysicalDevices := (VK_SUCCESS, gpus);
     createDevice := (VK_SUCCESS, 3%nat); getQueue := 4%nat;
     vmaCreateAllocator := (VK_SUCCESS, 5%nat);
     createCommandPool := λ n, (VK_SUCCESS, (6 + n)%nat);
     waitForFences := VK_SUCCESS; resetFences := VK_SUCCESS;
     acquireNextImageKHR := (VK_SUCCESS, 0);
     CommandBuffer_begin := VK_SUCCESS; CommandBuffer_end := VK_SUCCESS;
     Queue_submit := VK_SUCCESS; presentKHR := VK_SUCCESS;
     allocateCommandBuffers := VK_SUCCESS; createFence := VK_SUCCESS;
     vmaCreateBuffer := VK_SUCCESS; vmaCopyMemoryToAllocation := VK_SUCCESS;
     vmaCreateImage := VK_SUCCESS; createImageView := VK_SUCCESS;
     filter_linear_supported := true;
     ImageData_load := λ _, err ImageFileNotFound |}.

(** ** Vocabulary of the properties *)

(** The bytes of a live buffer. *)
Definition bytes_of (g : Gpu) (h : Handle) : list Byte.byte :=
  default [] (buffers g !! h).

(** The preconditions [write_result] asserts on the engine and the buffer. *)
Definition write_pre (engine : Engine) (self : GpuBuffer) (size : Z) : Prop :=
  not_null (allocator engine) = true ∧ not_null (allocation self) = true ∧
  not_null (buffer self) = true ∧ size ≠ 0.

(** Handles are handed out in increasing order: every live buffer is older
    than the next fresh handle, which is not null. *)
Definition gpu_wf (g : Gpu) : Prop :=
  (0 < next_handle g)%nat ∧
  ∀ h, is_Some (buffers g !! h) → (h < next_handle g)%nat.

(** The copy command that [write_result] records for a DeviceLocal buffer. *)
Definition device_local_copy (staging : Handle) (self : GpuBuffer)
    (size offset : Z) (cmd : Handle) : list Cmd :=
  [copyBuffer staging (buffer self)
     [{| srcOffset := offset; dstOffset := 0; copy_size := size |}]].

(** The device after a fresh handle has been taken. *)
Definition bump (g : Gpu) : Gpu :=
  {| buffers := buffers g; images := images g; views := views g;
     command_buffers := command_buffers g; submitted := submitted g;
     next_handle := S (next_handle g) |}.

(** Every call the DeviceLocal write path makes to the driver succeeds. *)
Definition resource_driver_ok (drv : Driver) : Prop :=
  vmaCreateBuffer drv = VK_SUCCESS ∧ vmaCopyMemoryToAllocation drv = VK_SUCCESS ∧
  allocateCommandBuffers drv = VK_SUCCESS ∧ CommandBuffer_begin drv = VK_SUCCESS ∧
  CommandBuffer_end drv = VK_SUCCESS ∧ createFence drv = VK_SUCCESS ∧
  Queue_submit drv = VK_SUCCESS ∧ waitForFences drv = VK_SUCCESS.

(** A name without NUL byte, as every C string is up to its terminator. *)
Fixpoint nul_free (s : string) : Prop :=
  match s with
  | EmptyString => True
  | String c s' => c ≠ Ascii.zero ∧ nul_free s'
  end.

(** The queue family supports graphics, compute. *)
Definition has_graphics (family : QueueFamilyProperties) : bool :=
  Z.testbit (queueFlags family) 0.
Definition has_compute (family : QueueFamilyProperties) : bool :=
  Z.testbit (queueFlags family) 1.

(** The dimension of mip level [i] of an axis of length [v], in the words of
    the specification: halved by integer division from one level to the
    next, with a floor of 1. *)
Fixpoint mip_dimension (v : Z) (i : nat) : Z :=
  match i with
  | O => v
  | S i' => Z.max 1 (mip_dimension v i' / 2)
  end.

Definition mip_extent (extent : Extent3D) (i : nat) : Offset3D :=
  {| off_x := mip_dimension (width extent) i;
     off_y := mip_dimension (height extent) i;
     off_z := mip_dimension (depth extent) i |}.

(** The blit regions among recorded commands, in order. *)
Definition blits_of (cmds : list Cmd) : list ImageBlit2 :=
  c ← cmds;
  match c with
  | blitImage2 _ _ _ _ regions _ => regions
  | _ => []
  end.

(** The image-copy regions among recorded commands, in order. *)
Definition image_copies_of (cmds : list Cmd) : list ImageCopy2 :=
  c ← cmds;
  match c with
  | copyImage2 _ _ _ _ regions => regions
  | _ => []
  end.

(** The image barriers among recorded commands, in order. *)
Definition barriers_of (cmds : list Cmd) : list ImageBarrier :=
  c ← cmds;
  match c with
  | pipelineBarrier2 barriers => barriers
  | _ => []
  end.

(** The integer conversions of [hg_utils.h] keep a value that fits. *)
Definition keeps_i32 (to_i32 : Z → Z) : Prop :=
  ∀ v, 0 ≤ v ≤ INT32_MAX → to_i32 v = v.

(** An engine on a device, with every handle in place. *)
Definition engine_on (device_ : PhysicalDevice) : Engine :=
  {| instance := 1%nat; debug_messenger := 2%nat; gpu := Some device_;
     device := 3%nat; allocator := 5%nat; queue_family_index := 0;
     queue := 4%nat; command_pool := 6%nat;
     single_time_command_pool := 7%nat |}.

(** A device on which nothing lives yet. *)
Definition gpu_fresh : Gpu :=
  {| buffers := ∅; images := ∅; views := ∅; command_buffers := ∅;
     submitted := []; next_handle := 40%nat |}.

(** The device after the single-time helper went through with [commands]:
    the command buffer was allocated with the next fresh handle, recorded,
    executed and freed. *)
Definition after_submit (commands : Handle → list Cmd) (g : Gpu) : Gpu :=
  let cmd := next_handle g in
  set_command_buffers (delete cmd)
    (execute cmd
       (foldl (λ g c, record cmd c g)
          (set_command_buffers <[cmd := []]> (bump g)) (commands cmd))).

(** The effect of barriers on the images. *)
Definition apply_barriers (barriers : list ImageBarrier)
    (imgs : gmap Handle ImageInfo) : gmap Handle ImageInfo :=
  foldl (λ imgs b, alter (transition b) (barrier_image b) imgs) imgs barriers.

(** The image the mip chain scenarios work on. *)
Definition image50 : GpuImage :=
  {| image_allocation := 50%nat; image := 50%nat; view := 51%nat |}.

Definition extent_17_5_1 : Extent3D := {| width := 17; height := 5; depth := 1 |}.

(** The barrier [GpuImage::create_result] issues for an initial layout. *)
Definition initial_layout_barrier (image : Handle) (layout_ : ImageLayout)
  : ImageBarrier :=
  {| barrier_image := image;
     subresourceRange := {| aspectMask := eColor; baseMipLevel := 0;
                            levelCount := 1; baseArrayLayer := 0;
                            layerCount := 1 |};
     barrier_src := no_scope;
     barrier_dst := {| stage := StageNone; access := AccessNone;
                       layout := layout_ |} |}.

(** A sampled colour texture of 256 by 256 texels with four mip levels,
    asked for in the shader-read layout. *)
Definition texture_config : ImageConfig :=
  {| image_extent := {| width := 256; height := 256; depth := 1 |};
     image_format := eR8G8B8A8Srgb; image_usage := Z.lor eSampled eTransferDst;
     aspect_flags := eColor; image_layout := eShaderReadOnlyOptimal;
     sample_count := 1; mip_levels := 4 |}.




(** A cross layout of 8 by 6 texels of four bytes, cells of 2 by 2. *)
Definition cross_image : ImageData :=
  {| img_width := 8; img_height := 6;
     pixels := replicate 192 Byte.x80 |}.


Definition whole_colour_image : ImageSubresourceRange :=
  {| aspectMask := eColor; baseMipLevel := 0; levelCount := 1;
     baseArrayLayer := 0; layerCount := 1 |}.

(** Every call the single-time command helper makes to the driver
    succeeds. *)
Definition submit_driver_ok (drv : Driver) : Prop :=
  allocateCommandBuffers drv = VK_SUCCESS ∧ CommandBuffer_begin drv = VK_SUCCESS ∧
  CommandBuffer_end drv = VK_SUCCESS ∧ createFence drv = VK_SUCCESS ∧
  Queue_submit drv = VK_SUCCESS ∧ waitForFences drv = VK_SUCCESS.

(** What [generate_mipmaps_result] asserts of the engine, of the image and
    of the format and layout passed, and what the single-time helper
    asserts of the engine. *)
Definition mipmaps_pre (engine : Engine) (self : GpuImage) (format : Format)
    (final_layout : ImageLayout) : Prop :=
  is_Some (gpu engine) ∧ not_null (device engine) = true ∧
  not_null (single_time_command_pool engine) = true ∧
  not_null (image self) = true ∧
  format ≠ FormatUndefined ∧ final_layout ≠ eUndefined.

(** A blit command reads and writes [image], from the transfer-source
    layout to the transfer-destination layout, with linear filtering. *)
Definition blit_on (image : Handle) (c : Cmd) : Prop :=
  match c with
  | blitImage2 src src_layout dst dst_layout _ filter_ =>
      src = image ∧ src_layout = eTransferSrcOptimal ∧
      dst = image ∧ dst_layout = eTransferDstOptimal ∧ filter_ = FilterLinear
  | _ => True
  end.

(** The value a [static_cast<i32>] gives: the argument modulo [2 ^ 32], in
    the range of a signed 32-bit integer. *)
Definition wrap_i32 (v : Z) : Z := (v + 2 ^ 31) `mod` 2 ^ 32 - 2 ^ 31.

(** An extent whose width is [2 ^ 31], one more than [INT32_MAX]. *)
Definition extent_wide : Extent3D :=
  {| width := 2147483648; height := 1; depth := 1 |}.

(** * More of the engine layer

    The rest of [hg_vulkan_engine.cpp] that can be embedded on the same
    terms, and the vocabulary of the properties proved about it further
    down. *)

(** ** Layouts at execution time *)

(** The layout of array layer [layer] of mip level [level] of an image; the
    layers and levels of commands are [u32] values. *)
Definition layout_at (imgs : gmap Handle ImageInfo) (image : Handle)
    (level layer : Z) : ImageLayout :=
  match imgs !! image with
  | Some info => layout_of info (Z.to_nat level) (Z.to_nat layer)
  | None => eUndefined
  end.

(** The images after the queue executed [cmds]. *)
Definition images_after (cmds : list Cmd) (imgs : gmap Handle ImageInfo)
  : gmap Handle ImageInfo :=
  apply_barriers (barriers_of cmds) imgs.

(** A barrier is sound on the current layouts when the layout it names as
    source is the undefined one (the content is given up) or the layout
    every subresource of its range is in. *)
Definition barrier_sound (imgs : gmap Handle ImageInfo) (b : ImageBarrier) : Prop :=
  layout (barrier_src b) = eUndefined ∨
  ∀ level layer : nat, (level, layer) ∈ subresources (subresourceRange b) →
    layout_at imgs (barrier_image b) (Z.of_nat level) (Z.of_nat layer)
    = layout (barrier_src b).

(** A blit region is sound when the source and destination subresources are
    in the layouts the command names for them. *)
Definition blit_sound (imgs : gmap Handle ImageInfo) (src : Handle)
    (src_layout : ImageLayout) (dst : Handle) (dst_layout : ImageLayout)
    (r : ImageBlit2) : Prop :=
  layout_at imgs src (mipLevel (blit_srcSubresource r))
    (layers_baseArrayLayer (blit_srcSubresource r)) = src_layout ∧
  layout_at imgs dst (mipLevel (blit_dstSubresource r))
    (layers_baseArrayLayer (blit_dstSubresource r)) = dst_layout.

(** An image copy region is sound when the source and destination
    subresources are in the layouts the command names for them. *)
Definition copy_sound (imgs : gmap Handle ImageInfo) (src : Handle)
    (src_layout : ImageLayout) (dst : Handle) (dst_layout : ImageLayout)
    (r : ImageCopy2) : Prop :=
  layout_at imgs src (mipLevel (copy_srcSubresource r))
    (layers_baseArrayLayer (copy_srcSubresource r)) = src_layout ∧
  layout_at imgs dst (mipLevel (copy_dstSubresource r))
    (layers_baseArrayLayer (copy_dstSubresource r)) = dst_layout.

(** One command is sound on the layouts it finds. *)
Definition cmd_sound (imgs : gmap Handle ImageInfo) (c : Cmd) : Prop :=
  match c with
  | pipelineBarrier2 barriers => Forall (barrier_sound imgs) barriers
  | blitImage2 src src_layout dst dst_layout regions _ =>
      Forall (blit_sound imgs src src_layout dst dst_layout) regions
  | copyImage2 src src_layout dst dst_layout regions =>
      Forall (copy_sound imgs src src_layout dst dst_layout) regions
  | copyBufferToImage2 _ dst dst_layout regions =>
      Forall (λ r, layout_at imgs dst (mipLevel (imageSubresource r))
                     (layers_baseArrayLayer (imageSubresource r)) = dst_layout)
        regions
  | copyBuffer _ _ _ => True
  end.

(** Every command of a batch is sound on the layouts the commands before it
    leave. *)
Fixpoint layouts_sound (imgs : gmap Handle ImageInfo) (cmds : list Cmd) : Prop :=
  match cmds with
  | [] => True
  | c :: cmds' => cmd_sound imgs c ∧ layouts_sound (images_after [c] imgs) cmds'
  end.

(** A device with one image of [levels] mip levels, handle 50, every level
    in the undefined layout. *)
Definition gpu_one_image (levels : Z) : Gpu :=
  {| buffers := ∅;
     images := {[ 50%nat := {| imageType := VK_IMAGE_TYPE_2D;
                               info_extent := extent_17_5_1;
                               mipLevels := levels; arrayLayers := 1;
                               cube_compatible := false; layouts := ∅ |} ]};
     views := ∅; command_buffers := ∅; submitted := []; next_handle := 60%nat |}.

(** The buffer-to-image copies among recorded commands, in order, each with
    the image it writes. *)
Definition buffer_image_copies_of (cmds : list Cmd)
  : list (Handle * BufferImageCopy2) :=
  c ← cmds;
  match c with
  | copyBufferToImage2 _ dst _ regions => (λ r, (dst, r)) <$> regions
  | _ => []
  end.

(** A staging image of handle 50 in [gpu_one_image]. *)
Definition staging50 : StagingGpuImage :=
  {| staging_allocation := 50%nat; staging_image := 50%nat |}.

(** Four texels of four bytes, as pixel data of an extent of 2 by 2. *)
Definition four_texels : Data :=
  {| ptr := Some (replicate 16 Byte.x80); alignment := 4;
     data_extent := {| width := 2; height := 2; depth := 1 |} |}.

(** ** What the loop of [find_gpu] does with one device *)

(** The two features [find_gpu] asks of a device. *)
Definition has_required_features (gpu : PhysicalDevice) : bool :=
  sampleRateShading (getFeatures gpu) && samplerAnisotropy (getFeatures gpu).

(** The loop goes on to the next device: this one lacks a feature, or its
    extensions were enumerated and fail the extension test, or they pass it
    and [find_queue_family] finds no family on the device. *)
Definition passed_over (gpu : PhysicalDevice) : bool :=
  negb (has_required_features gpu)
  || negb (failed (fst (enumerateDeviceExtensionProperties gpu)))
     && (negb (extensions_pass (snd (enumerateDeviceExtensionProperties gpu)))
         || match find_queue_family gpu with
            | Returned (err _) => true
            | _ => false
            end).

(** The loop stops at this device and returns it. *)
Definition taken (gpu : PhysicalDevice) : bool :=
  has_required_features gpu
  && negb (failed (fst (enumerateDeviceExtensionProperties gpu)))
  && extensions_pass (snd (enumerateDeviceExtensionProperties gpu))
  && match find_queue_family gpu with
     | Returned (ok _) => true
     | _ => false
     end.

(** The loop stops at this device with [VulkanFailure]: the device has the
    features and the enumeration of its extensions failed. *)
Definition enumeration_fails (gpu : PhysicalDevice) : bool :=
  has_required_features gpu
  && failed (fst (enumerateDeviceExtensionProperties gpu)).

(** A device without sample-rate shading that is otherwise like
    [gpu_compute_first]. *)
Definition gpu_no_shading : PhysicalDevice :=
  {| gpu_handle := 32%nat;
     getFeatures := {| sampleRateShading := false; samplerAnisotropy := true |};
     enumerateDeviceExtensionProperties := (VK_SUCCESS, DeviceExtensions);
     getQueueFamilyProperties := [{| queueFlags := 7; queueCount := 1 |}] |}.

(** A device with the features whose extensions cannot be enumerated. *)
Definition gpu_lost : PhysicalDevice :=
  {| gpu_handle := 33%nat; getFeatures := features_ok;
     enumerateDeviceExtensionProperties := (VK_ERROR_DEVICE_LOST, []);
     getQueueFamilyProperties := [{| queueFlags := 7; queueCount := 1 |}] |}.

(** The errors [Engine::create] produces itself, apart from the ones it
    passes on from [init_instance]. *)
Definition Engine_create_errors : list Err :=
  [CouldNotInitializeGlfw; CouldNotCreateVkDebugUtilsMessenger;
   VkPhysicalDevicesUnavailable; VkPhysicalDevicesUnsuitable; VulkanFailure;
   CouldNotCreateVkDevice; VkQueueUnavailable; CouldNotCreateVmaAllocator;
   CouldNotCreateVkCommandPool].

(** ** The instance and the end of the engine *)

Module InstanceSetup.

(** What GLFW and the Vulkan loader answer to the calls of
    [init_instance]: [glfwGetRequiredInstanceExtensions] gives the array of
    names or [nullptr]. *)
Record Platform := {
  glfwGetRequiredInstanceExtensions : option (list string);
  enumerateInstanceExtensionProperties : VkResult * list string;
  createInstance : VkResult * Handle;
}.

(** The layers and extensions of a [vk::InstanceCreateInfo]; the counts
    passed beside them are the lengths of the two arrays. *)
Record InstanceCreateInfo := {
  ppEnabledLayerNames : list string;
  ppEnabledExtensionNames : list string;
}.

Section Build.
(** Whether the build defines [NDEBUG]. *)
Variable NDEBUG : bool.

Definition ValidationLayers : list string :=
  if NDEBUG then [] else ["VK_LAYER_KHRONOS_validation"%string].

(** [VK_EXT_DEBUG_UTILS_EXTENSION_NAME] *)
Definition VK_EXT_DEBUG_UTILS_EXTENSION_NAME : string := "VK_EXT_debug_utils".

(** [get_required_instance_extensions] *)
Definition get_required_instance_extensions (platform : Platform)
  : Result (list string) :=
  match glfwGetRequiredInstanceExtensions platform with
  | None => err GlfwFailure
  | Some glfw_extensions =>
      ok (glfw_extensions
          ++ (if NDEBUG then [] else [VK_EXT_DEBUG_UTILS_EXTENSION_NAME]))
  end.

(** [init_instance]; the state is the list of the instances asked of
    [vk::createInstance], oldest first. *)
Definition init_instance (platform : Platform)
  : Fn (list InstanceCreateInfo) Handle := fn (
  let required_extensions := get_required_instance_extensions platform in
  match required_extensions with
  | err e => Return (err e)
  | ok required_extensions =>
  extensions_available ← pure_call (check_instance_extension_availability
    (enumerateInstanceExtensionProperties platform) required_extensions);
  match extensions_available with
  | err e => Return (err e)
  | ok extensions_available =>
  when (negb extensions_available) (Return (err VulkanExtensionsUnavailable));;
  modify (λ asked, asked ++ [{| ppEnabledLayerNames := ValidationLayers;
                                ppEnabledExtensionNames := required_extensions |}]);;
  let instance := createInstance platform in
  when (failed (fst instance)) (Return (err CouldNotCreateVkInstance));;
  ASSERT (not_null (snd instance));;
  Return (ok (snd instance))
  end end).
End Build.

(** A platform on which GLFW needs two extensions and the loader has
    them and the debug utilities. *)
Definition desktop : Platform :=
  {| glfwGetRequiredInstanceExtensions :=
       Some ["VK_KHR_surface"; "VK_KHR_xcb_surface"]%string;
     enumerateInstanceExtensionProperties :=
       (VK_SUCCESS, ["VK_KHR_surface"; "VK_KHR_xcb_surface";
                     "VK_EXT_debug_utils"; "VK_KHR_display"]%string);
     createInstance := (VK_SUCCESS, 1%nat) |}.

(** The same platform without the debug utilities. *)
Definition desktop_without_debug_utils : Platform :=
  {| glfwGetRequiredInstanceExtensions :=
       Some ["VK_KHR_surface"; "VK_KHR_xcb_surface"]%string;
     enumerateInstanceExtensionProperties :=
       (VK_SUCCESS, ["VK_KHR_surface"; "VK_KHR_xcb_surface"]%string);
     createInstance := (VK_SUCCESS, 1%nat) |}.

End InstanceSetup.

(** The calls by which [Engine::destroy] releases what the engine holds. *)
Inductive Release :=
| destroyCommandPool (pool : Handle)
| vmaDestroyAllocator (allocator_ : Handle)
| Device_destroy (device_ : Handle)
| destroyDebugUtilsMessengerEXT (messenger : Handle)
| Instance_destroy (instance_ : Handle).

(** The flag [s_engine_initialized] and the releases made so far, oldest
    first. *)
Record Process := {
  s_engine_initialized : bool;
  released : list Release;
}.

Definition release (r : Release) (p : Process) : Process :=
  {| s_engine_initialized := s_engine_initialized p;
     released := released p ++ [r] |}.

Definition set_engine_initialized (b : bool) (p : Process) : Process :=
  {| s_engine_initialized := b; released := released p |}.

(** [Engine::destroy] *)
Definition Engine_destroy (engine : Engine) : Fn Process unit := fn (
  p ← get;
  when (negb (s_engine_initialized p)) ERROR;;
  ASSERT (not_null (single_time_command_pool engine));;
  modify (release (destroyCommandPool (single_time_command_pool engine)));;
  ASSERT (not_null (command_pool engine));;
  modify (release (destroyCommandPool (command_pool engine)));;
  ASSERT (not_null (allocator engine));;
  modify (release (vmaDestroyAllocator (allocator engine)));;
  ASSERT (not_null (device engine));;
  modify (release (Device_destroy (device engine)));;
  ASSERT (not_null (debug_messenger engine));;
  modify (release (destroyDebugUtilsMessengerEXT (debug_messenger engine)));;
  ASSERT (not_null (instance engine));;
  modify (release (Instance_destroy (instance engine)));;
  modify (set_engine_initialized false);;
  Return (ok tt)).

(** [Engine::create] on the process: it works on the flag and releases
    nothing. *)
Definition Engine_create_in (drv : Driver) (p : Process)
  : Outcome Engine * Process :=
  let r := Engine_create drv (s_engine_initialized p) in
  (fst r, set_engine_initialized (snd r) p).

(** ** Image creation: vocabulary *)

(** The image type and the view type of an extent: an extent of depth 1
    is two-dimensional, and one-dimensional when its height is 1 too. *)
Definition dimensionality (extent : Extent3D) : Z * ImageViewType :=
  if depth extent =? 1
  then if height extent =? 1 then (VK_IMAGE_TYPE_1D, e1D)
       else (VK_IMAGE_TYPE_2D, e2D)
  else (VK_IMAGE_TYPE_3D, e3D).

(** Every live image is older than the next fresh handle. *)
Definition images_wf (g : Gpu) : Prop :=
  ∀ h, is_Some (images g !! h) → (h < next_handle g)%nat.

(** A platform on which image views cannot be created; every other call
    succeeds. *)
Definition driver_no_views : Driver :=
  {| glfwInit := true; init_instance := ok 1%nat;
     createDebugUtilsMessengerEXT := (VK_SUCCESS, 2%nat);
     enumeratePhysicalDevices := (VK_SUCCESS, []);
     createDevice := (VK_SUCCESS, 3%nat); getQueue := 4%nat;
     vmaCreateAllocator := (VK_SUCCESS, 5%nat);
     createCommandPool := λ n, (VK_SUCCESS, (6 + n)%nat);
     waitForFences := VK_SUCCESS; resetFences := VK_SUCCESS;
     acquireNextImageKHR := (VK_SUCCESS, 0);
     CommandBuffer_begin := VK_SUCCESS; CommandBuffer_end := VK_SUCCESS;
     Queue_submit := VK_SUCCESS; presentKHR := VK_SUCCESS;
     allocateCommandBuffers := VK_SUCCESS; createFence := VK_SUCCESS;
     vmaCreateBuffer := VK_SUCCESS; vmaCopyMemoryToAllocation := VK_SUCCESS;
     vmaCreateImage := VK_SUCCESS;
     createImageView := VK_ERROR_OUT_OF_DEVICE_MEMORY;
     filter_linear_supported := true;
     ImageData_load := λ _, ok cross_image |}.

(** * Properties *)

(** ** Control-flow lemmas *)

Lemma failed_false r : failed r = false ↔ r = VK_SUCCESS.
Proof. unfold failed. destruct r; compute; split; congruence. Qed.

Lemma failed_true r : failed r = true ↔ r ≠ VK_SUCCESS.
Proof. unfold failed. destruct r; compute; split; congruence. Qed.

Lemma slot_not_null N handles w :
  all_not_null handles = true →
  Z.of_nat (length handles) = N →
  0 ≤ m_current_frame_index w < N →
  not_null (slot handles w) = true.
Proof.
  intros Hall Hlen Hidx. unfold slot.
  destruct (handles !! Z.to_nat (m_current_frame_index w)) as [h|] eqn:E.
  - simpl. unfold all_not_null in Hall. rewrite forallb_forall in Hall.
    apply Hall. apply list_elem_of_In. eapply list_elem_of_lookup_2. exact E.
  - apply lookup_ge_None in E. lia.
Qed.

Ltac unfold_body :=
  unfold fn, mbind, Body_bind, mret, Body_ret, get, ASSERT, ERROR, when,
    Return, modify, call, pure_call, defer.

(** Decide the comparisons of two constructors that are left in the goal. *)
Ltac eval_decide :=
  repeat match goal with
  | |- context [bool_decide (?a = ?b)] =>
      let v := eval vm_compute in (bool_decide (a = b)) in
      match v with
      | true => change (bool_decide (a = b)) with true
      | false => change (bool_decide (a = b)) with false
      end
  end.

(** ** The frame loop *)

Lemma window2_ok i b : 0 ≤ i < 2 → window_ok 2 (window2 i b).
Proof. intros Hi. split; try reflexivity. exact Hi. Qed.

Section FrameProperties.
Variable N : Z.
Hypothesis N_pos : 0 < N.

Lemma begin_frame_eq drv engine w :
  window_ok N w → m_recording w = false → not_null (device engine) = true →
  begin_frame drv engine w =
    if failed (waitForFences drv) then (Returned (err CouldNotWaitForVkFence), w)
    else if failed (resetFences drv) then (Returned (err VulkanFailure), w)
    else if failed (fst (acquireNextImageKHR drv))
    then (Returned (err CouldNotAcquireVkSwapchainImage), w)
    else if failed (CommandBuffer_begin drv)
    then (Returned (err CouldNotBeginVkCommandBuffer),
          set_current_image_index (snd (acquireNextImageKHR drv)) w)
    else (Returned (ok (current_cmd w)),
          set_recording true
            (set_current_image_index (snd (acquireNextImageKHR drv)) w)).
Proof.
  intros [] Hidle Hdev. unfold begin_frame. unfold_body.
  rewrite Hidle. cbn.
  unfold current_cmd, is_frame_finished, is_image_available.
  rewrite !(slot_not_null N) by assumption. rewrite Hdev. cbn.
  destruct (failed (waitForFences drv)); cbn; [done|].
  destruct (failed (resetFences drv)); cbn; [done|].
  destruct (failed (fst (acquireNextImageKHR drv))); cbn; [done|].
  destruct (failed (CommandBuffer_begin drv)); cbn; done.
Qed.

Lemma end_frame_eq drv engine w :
  window_ok N w → m_recording w = true → not_null (device engine) = true →
  end_frame N drv engine w =
    if failed (CommandBuffer_end drv)
    then (Returned (err CouldNotEndVkCommandBuffer), w)
    else if failed (Queue_submit drv)
    then (Returned (err CouldNotSubmitVkCommandBuffer), set_recording false w)
    else if bool_decide (presentKHR drv = VK_ERROR_OUT_OF_DATE_KHR)
    then (Returned (err InvalidWindowSize), set_recording false w)
    else if failed (presentKHR drv)
    then (Returned (err CouldNotPresentVkSwapchainImage), set_recording false w)
    else (Returned (ok tt),
          set_current_frame_index ((m_current_frame_index w + 1) `rem` N)
            (set_recording false w)).
Proof.
  intros [] Hrec Hdev. unfold end_frame. unfold_body.
  rewrite Hrec. cbn.
  unfold current_cmd, is_ready_to_present, is_image_available.
  rewrite !(slot_not_null N) by assumption.
  rewrite Hdev, ok_swapchain0. cbn.
  destruct (failed (CommandBuffer_end drv)); cbn; [done|].
  destruct (failed (Queue_submit drv)); cbn; [done|].
  destruct (bool_decide (presentKHR drv = VK_ERROR_OUT_OF_DATE_KHR)); cbn; [done|].
  destruct (failed (presentKHR drv)); cbn; done.
Qed.

Lemma window_ok_set_recording b w :
  window_ok N w → window_ok N (set_recording b w).
Proof. intros []. split; assumption. Qed.

Lemma window_ok_set_image i w :
  window_ok N w → window_ok N (set_current_image_index i w).
Proof. intros []. split; assumption. Qed.

Lemma window_ok_set_frame i w :
  0 ≤ i < N → window_ok N w → window_ok N (set_current_frame_index i w).
Proof. intros Hi []. split; assumption. Qed.

(** A cycle whose driver calls all succeed goes through and moves the
    window to the next slot. *)
Lemma frame_cycle_ok drv engine w :
  frame_driver_ok drv →
  window_ok N w → m_recording w = false → not_null (device engine) = true →
  ∃ w', frame_cycle N drv engine w = Some w' ∧
        window_ok N w' ∧ m_recording w' = false ∧
        m_current_frame_index w' = (m_current_frame_index w + 1) mod N.
Proof.
  intros (Hw & Hr & Ha & Hb & He & Hs & Hp) Hok Hidle Hdev.
  unfold frame_cycle.
  rewrite begin_frame_eq by assumption.
  rewrite Hw, Hr, Ha, Hb. change (failed VK_SUCCESS) with false.
  cbn -[end_frame].
  rewrite end_frame_eq;
    [| by apply window_ok_set_recording, window_ok_set_image | done | done].
  rewrite He, Hs, Hp. change (failed VK_SUCCESS) with false.
  change (bool_decide (VK_SUCCESS = VK_ERROR_OUT_OF_DATE_KHR)) with false.
  cbn.
  pose proof (ok_index N w Hok) as Hi.
  assert (Hrem : (m_current_frame_index w + 1) `rem` N
                 = (m_current_frame_index w + 1) mod N).
  { apply Z.rem_mod_nonneg; lia. }
  eexists. split; [reflexivity|]. split; [|split].
  - apply window_ok_set_frame.
    + cbn. rewrite Hrem. apply Z.mod_pos_bound. lia.
    + by apply window_ok_set_recording, window_ok_set_recording,
        window_ok_set_image.
  - reflexivity.
  - cbn. exact Hrem.
Qed.

Lemma frame_cycles_ok drvs engine : ∀ w,
  Forall frame_driver_ok drvs →
  window_ok N w → m_recording w = false → not_null (device engine) = true →
  ∃ w', frame_cycles N drvs engine w = Some w' ∧
        window_ok N w' ∧ m_recording w' = false ∧
        m_current_frame_index w' =
          (m_current_frame_index w + Z.of_nat (length drvs)) mod N.
Proof.
  induction drvs as [|drv drvs IH]; intros w Hall Hok Hidle Hdev.
  - exists w. split; [reflexivity|]. split; [done|]. split; [done|].
    change (Z.of_nat (length (@nil Driver))) with 0.
    rewrite Z.add_0_r, Z.mod_small; [done|]. apply (ok_index N w Hok).
  - apply Forall_cons in Hall as [Hd Hall].
    destruct (frame_cycle_ok drv engine w Hd Hok Hidle Hdev)
      as (w1 & Hc & Hok1 & Hidle1 & Hidx1).
    destruct (IH w1 Hall Hok1 Hidle1 Hdev) as (w' & Hcs & Hok' & Hidle' & Hidx').
    exists w'. cbn [frame_cycles]. rewrite Hc.
    split; [done|]. split; [done|]. split; [done|].
    rewrite Hidx', Hidx1. rewrite Zplus_mod_idemp_l. f_equal.
    rewrite length_cons. lia.
Qed.
End FrameProperties.

(** C1, counterexample.  The claim has the slot index advance on every call
    of [end_frame], whatever the outcome.  With two frames in flight, a
    window recording at slot 0 and a presentation that answers "out of
    date", [end_frame] returns [InvalidWindowSize] and the slot index is
    still 0, not [(0 + 1) mod 2]. *)
Lemma end_frame_out_of_date_keeps_slot :
  let drv := frame_driver VK_SUCCESS VK_SUCCESS VK_SUCCESS VK_SUCCESS
               VK_SUCCESS VK_SUCCESS VK_ERROR_OUT_OF_DATE_KHR in
  let w := window2 0 true in
  fst (end_frame 2 drv engine_up w) = Returned (err InvalidWindowSize) ∧
  m_current_frame_index (snd (end_frame 2 drv engine_up w)) = 0 ∧
  m_current_frame_index (snd (end_frame 2 drv engine_up w))
    ≠ (m_current_frame_index w + 1) mod 2.
Proof. vm_compute. split; [reflexivity|]. split; [reflexivity|]. discriminate. Qed.

(** C1, as amended.  [end_frame] on a recording window returns success
    exactly when ending the command buffer, the submission and the
    presentation all succeed; on success the slot index becomes
    [(index + 1) mod N], and on every other outcome (out of date included)
    it is unchanged.  Consequently [N] consecutive [begin_frame] /
    [end_frame] cycles whose driver calls succeed all go through and bring
    the slot index back to its starting value. *)
Theorem end_frame_advances_slot_on_success
    (N : Z) (drv : Driver) (drvs : list Driver) (engine : Engine) (w : Window) :
  0 < N → window_ok N w → not_null (device engine) = true →
  (m_recording w = true →
     ∃ o w', end_frame N drv engine w = (o, w') ∧
       (o = Returned (ok tt) ↔
          CommandBuffer_end drv = VK_SUCCESS ∧ Queue_submit drv = VK_SUCCESS ∧
          presentKHR drv = VK_SUCCESS) ∧
       (o = Returned (ok tt) →
          m_current_frame_index w' = (m_current_frame_index w + 1) mod N) ∧
       (o ≠ Returned (ok tt) →
          m_current_frame_index w' = m_current_frame_index w)) ∧
  (m_recording w = false →
     Z.of_nat (length drvs) = N → Forall frame_driver_ok drvs →
     ∃ w', frame_cycles N drvs engine w = Some w' ∧
           m_current_frame_index w' = m_current_frame_index w).
Proof.
  intros HN Hok Hdev. split.
  - intros Hrec. rewrite (end_frame_eq N) by assumption.
    pose proof (ok_index N w Hok) as Hi.
    destruct (failed (CommandBuffer_end drv)) eqn:He.
    { apply failed_true in He. eexists _, _. split; [reflexivity|].
      split; [|split]; [split | |]; try discriminate; try done.
      intros (? & _); contradiction. }
    destruct (failed (Queue_submit drv)) eqn:Hs.
    { apply failed_true in Hs. eexists _, _. split; [reflexivity|].
      split; [|split]; [split | |]; try discriminate; try done.
      intros (_ & ? & _); contradiction. }
    destruct (bool_decide (presentKHR drv = VK_ERROR_OUT_OF_DATE_KHR)) eqn:Ho.
    { apply bool_decide_eq_true in Ho. eexists _, _. split; [reflexivity|].
      split; [|split]; [split | |]; try discriminate; try done.
      intros (_ & _ & Hp). rewrite Hp in Ho. discriminate. }
    destruct (failed (presentKHR drv)) eqn:Hp.
    { apply failed_true in Hp. eexists _, _. split; [reflexivity|].
      split; [|split]; [split | |]; try discriminate; try done.
      intros (_ & _ & ?); contradiction. }
    apply failed_false in He, Hs, Hp. eexists _, _. split; [reflexivity|].
    split; [|split].
    + split; done.
    + intros _. cbn. apply Z.rem_mod_nonneg; lia.
    + intros Hne. contradiction.
  - intros Hidle Hlen Hall.
    destruct (frame_cycles_ok N HN drvs engine w Hall Hok Hidle Hdev)
      as (w' & Hc & _ & _ & Hidx).
    exists w'. split; [exact Hc|].
    rewrite Hidx, Hlen. pose proof (ok_index N w Hok) as Hi.
    rewrite <- Zplus_mod_idemp_r, Z.mod_same, Z.add_0_r by lia.
    apply Z.mod_small. lia.
Qed.

(** C1, witness: two frames in flight, slot 0, every driver call succeeding. *)
Lemma end_frame_advances_slot_on_success_witness :
  (0 < 2 ∧ window_ok 2 (window2 0 false) ∧ not_null (device engine_up) = true) ∧
  ∃ w', frame_cycles 2 [driver_all_ok; driver_all_ok] engine_up (window2 0 false)
          = Some w' ∧
        m_current_frame_index w' = m_current_frame_index (window2 0 false).
Proof.
  assert (H2 : 0 < 2) by lia.
  assert (Hok : window_ok 2 (window2 0 false)) by (apply window2_ok; lia).
  split; [split; [exact H2 | split; [exact Hok | reflexivity]]|].
  apply (proj2 (end_frame_advances_slot_on_success 2 driver_all_ok
                  [driver_all_ok; driver_all_ok] engine_up (window2 0 false)
                  H2 Hok eq_refl)).
  - reflexivity.
  - reflexivity.
  - repeat constructor.
Defined.

(** C2, counterexample.  The claim has an acquisition that answers "out of
    date" not reported as an error.  On a ready window, with the fence wait
    and reset succeeding and the acquisition answering "out of date",
    [begin_frame] returns the error [CouldNotAcquireVkSwapchainImage]. *)
Lemma begin_frame_out_of_date_is_error :
  let drv := frame_driver VK_SUCCESS VK_SUCCESS VK_ERROR_OUT_OF_DATE_KHR
               VK_SUCCESS VK_SUCCESS VK_SUCCESS VK_SUCCESS in
  begin_frame drv engine_up (window2 0 false)
  = (Returned (err CouldNotAcquireVkSwapchainImage), window2 0 false).
Proof. vm_compute. reflexivity. Qed.

(** C2, as amended.  On a ready window [begin_frame] returns, and it
    returns an error exactly when one of its four driver calls does not
    answer success: the fence wait (a timeout or any other failure, tag
    [CouldNotWaitForVkFence]), the fence reset ([VulkanFailure]), the image
    acquisition (any answer but success, "out of date" and "suboptimal"
    included, [CouldNotAcquireVkSwapchainImage]) or the command-buffer begin
    ([CouldNotBeginVkCommandBuffer]); the first failing call gives the
    tag. *)
Theorem begin_frame_fails_iff
    (N : Z) (drv : Driver) (engine : Engine) (w : Window) :
  window_ok N w → m_recording w = false → not_null (device engine) = true →
  ∃ r w', begin_frame drv engine w = (Returned r, w') ∧
    (has_err r = true ↔
       waitForFences drv ≠ VK_SUCCESS ∨ resetFences drv ≠ VK_SUCCESS ∨
       fst (acquireNextImageKHR drv) ≠ VK_SUCCESS ∨
       CommandBuffer_begin drv ≠ VK_SUCCESS) ∧
    (waitForFences drv ≠ VK_SUCCESS → r = err CouldNotWaitForVkFence) ∧
    (waitForFences drv = VK_SUCCESS → resetFences drv ≠ VK_SUCCESS →
       r = err VulkanFailure) ∧
    (waitForFences drv = VK_SUCCESS → resetFences drv = VK_SUCCESS →
       fst (acquireNextImageKHR drv) ≠ VK_SUCCESS →
       r = err CouldNotAcquireVkSwapchainImage) ∧
    (waitForFences drv = VK_SUCCESS → resetFences drv = VK_SUCCESS →
       fst (acquireNextImageKHR drv) = VK_SUCCESS →
       CommandBuffer_begin drv ≠ VK_SUCCESS →
       r = err CouldNotBeginVkCommandBuffer) ∧
    (has_err r = false → r = ok (current_cmd w) ∧ m_recording w' = true).
Proof.
  intros Hok Hidle Hdev. rewrite (begin_frame_eq N) by assumption.
  destruct (failed (waitForFences drv)) eqn:Hw.
  { apply failed_true in Hw. eexists _, _. split; [reflexivity|]. cbn.
    repeat split; try done; try (intros; contradiction); auto. }
  destruct (failed (resetFences drv)) eqn:Hr.
  { apply failed_true in Hr. apply failed_false in Hw.
    eexists _, _. split; [reflexivity|]. cbn.
    repeat split; try done; try (intros; contradiction); auto. }
  destruct (failed (fst (acquireNextImageKHR drv))) eqn:Ha.
  { apply failed_true in Ha. apply failed_false in Hw, Hr.
    eexists _, _. split; [reflexivity|]. cbn.
    repeat split; try done; try (intros; contradiction); auto. }
  destruct (failed (CommandBuffer_begin drv)) eqn:Hb.
  { apply failed_true in Hb. apply failed_false in Hw, Hr, Ha.
    eexists _, _. split; [reflexivity|]. cbn.
    repeat split; try done; try (intros; contradiction); auto. }
  apply failed_false in Hw, Hr, Ha, Hb.
  eexists _, _. split; [reflexivity|]. cbn.
  repeat split; try done; try (intros; contradiction).
  intros [?|[?|[?|?]]]; contradiction.
Qed.

(** C2, witness: a ready two-slot window and a failing fence reset, the
    case the claim leaves out. *)
Lemma begin_frame_fails_iff_witness :
  ∃ r w',
    begin_frame (frame_driver VK_SUCCESS VK_ERROR_DEVICE_LOST VK_SUCCESS
                   VK_SUCCESS VK_SUCCESS VK_SUCCESS VK_SUCCESS)
      engine_up (window2 1 false) = (Returned r, w') ∧ r = err VulkanFailure.
Proof.
  destruct (begin_frame_fails_iff 2
              (frame_driver VK_SUCCESS VK_ERROR_DEVICE_LOST VK_SUCCESS
                 VK_SUCCESS VK_SUCCESS VK_SUCCESS VK_SUCCESS)
              engine_up (window2 1 false))
    as (r & w' & Heq & _ & _ & Hreset & _).
  - apply window2_ok. lia.
  - reflexivity.
  - reflexivity.
  - exists r, w'. split; [exact Heq|]. apply Hreset; [reflexivity | discriminate].
Defined.

(** ** Device selection *)

Lemma N_of_ascii_zero c : Ascii.N_of_ascii c = 0%N → c = Ascii.zero.
Proof.
  intros H. rewrite <- (Ascii.ascii_N_embedding c), H. reflexivity.
Qed.

(** On names without NUL byte, [strcmp] is zero exactly on equal names. *)
Lemma strcmp_zero_iff a : ∀ b,
  nul_free a → nul_free b → (strcmp a b = 0 ↔ a = b).
Proof.
  induction a as [|c a IH]; intros [|d b] Ha Hb; cbn.
  - done.
  - destruct Hb as [Hd _]. split; [|discriminate].
    intros H. exfalso. apply Hd, N_of_ascii_zero. lia.
  - destruct Ha as [Hc _]. split; [|discriminate].
    intros H. exfalso. apply Hc, N_of_ascii_zero. lia.
  - destruct Ha as [Hc Ha], Hb as [Hd Hb].
    destruct (Ascii.eqb c d) eqn:E.
    + apply Ascii.eqb_eq in E. subst d.
      destruct (Ascii.eqb c Ascii.zero) eqn:Ez.
      { apply Ascii.eqb_eq in Ez. contradiction. }
      rewrite (IH b Ha Hb). split; [by intros ->|by intros [= ->]].
    + apply Ascii.eqb_neq in E. split.
      * intros H. exfalso. apply E.
        rewrite <- (Ascii.ascii_N_embedding c), <- (Ascii.ascii_N_embedding d).
        f_equal. lia.
      * intros [= -> _]. contradiction.
Qed.

Lemma to_bool_true x : to_bool x = true ↔ x ≠ 0.
Proof.
  unfold to_bool. destruct (x =? 0) eqn:E; cbn.
  - apply Z.eqb_eq in E. split; [discriminate|done].
  - apply Z.eqb_neq in E. done.
Qed.

(** What the extension test of [find_gpu] lets through: a device passes
    when, for every required name, it enumerates some extension with a
    different name. *)
Lemma extensions_pass_iff extensions :
  Forall nul_free extensions →
  extensions_pass extensions = true ↔
  ∀ required, required ∈ DeviceExtensions →
    ∃ extension, extension ∈ extensions ∧ extension ≠ required.
Proof.
  intros Hnul. unfold extensions_pass.
  rewrite forallb_forall. split.
  - intros H required Hin. apply list_elem_of_In in Hin.
    specialize (H required Hin). apply existsb_exists in H as (e & He & Hcmp).
    exists e. split; [by apply list_elem_of_In|].
    apply to_bool_true in Hcmp. intros ->. apply Hcmp.
    apply strcmp_zero_iff; try done.
    all: rewrite Forall_forall in Hnul; apply Hnul; by apply list_elem_of_In.
  - intros H required Hin. apply list_elem_of_In in Hin.
    destruct (H required Hin) as (e & He & Hne).
    apply existsb_exists. exists e. split; [by apply list_elem_of_In|].
    apply to_bool_true. intros Hz. apply Hne. symmetry.
    assert (Hreq : nul_free required).
    { unfold DeviceExtensions in Hin.
      repeat (apply elem_of_cons in Hin as [->|Hin]; [cbn; repeat split; discriminate|]).
      by apply elem_of_nil in Hin. }
    apply (strcmp_zero_iff required e); try done.
    rewrite Forall_forall in Hnul. by apply Hnul.
Qed.

(** The queue family test is true as soon as one of the two bits is set. *)
Lemma queue_family_pred_iff family :
  queue_family_pred family = true ↔
  has_graphics family = true ∨ has_compute family = true.
Proof.
  unfold queue_family_pred, has_graphics, has_compute.
  rewrite to_bool_true. set (f := queueFlags family).
  change (Z.lor eGraphics eCompute) with 3.
  split.
  - intros Hne.
    destruct (Z.testbit f 0) eqn:E0; [by left|].
    destruct (Z.testbit f 1) eqn:E1; [by right|].
    exfalso. apply Hne. apply Z.bits_inj'. intros n Hn.
    rewrite Z.land_spec, Z.bits_0.
    destruct (decide (n = 0)) as [->|]; [by rewrite E0|].
    destruct (decide (n = 1)) as [->|]; [by rewrite E1|].
    rewrite (Z.bits_above_log2 3 n); [apply andb_false_r | lia |].
    change (Z.log2 3) with 1. lia.
  - intros [H|H] Hz.
    + assert (Hb : Z.testbit (Z.land f 3) 0 = true)
        by (rewrite Z.land_spec, H; reflexivity).
      rewrite Hz in Hb. discriminate.
    + assert (Hb : Z.testbit (Z.land f 3) 1 = true)
        by (rewrite Z.land_spec, H; reflexivity).
      rewrite Hz in Hb. discriminate.
Qed.

Lemma find_if_Some {A} (p : A → bool) (l : list A) : ∀ i,
  find_if p l = Some i ↔
  (∃ a, l !! i = Some a ∧ p a = true) ∧
  (∀ j b, (j < i)%nat → l !! j = Some b → p b = false).
Proof.
  induction l as [|a l IH]; intros i; cbn.
  - split; [discriminate|]. intros [(b & Hb & _) _]. discriminate.
  - destruct (p a) eqn:Ea.
    + split.
      * intros [= <-]. split; [by exists a|]. intros j b Hj. lia.
      * intros [(b & Hb & Hp) Hmin]. destruct i as [|i]; [done|].
        specialize (Hmin 0%nat a). cbn in Hmin.
        rewrite Hmin in Ea by (lia || done). discriminate.
    + destruct (find_if p l) as [k|] eqn:Ek; cbn.
      * split.
        -- intros [= <-]. destruct (proj1 (IH k) eq_refl) as [Hex Hmin].
           split; [done|].
           intros [|j] b Hj Hb; cbn in Hb; [by inversion Hb; subst|].
           apply (Hmin j b); [lia|done].
        -- intros [(b & Hb & Hp) Hmin]. destruct i as [|i]; cbn in Hb.
           { inversion Hb; subst. rewrite Hp in Ea. discriminate. }
           f_equal. assert (Hi : Some k = Some i); [|by inversion Hi].
           apply IH. split; [by exists b|].
           intros j c Hj Hc. apply (Hmin (S j) c); [lia|done].
      * split; [discriminate|].
        intros [(b & Hb & Hp) Hmin]. destruct i as [|i]; cbn in Hb.
        { inversion Hb; subst. rewrite Hp in Ea. discriminate. }
        assert (Hi : None = Some i); [|discriminate].
        apply IH. split; [by exists b|].
        intros j c Hj Hc. apply (Hmin (S j) c); [lia|done].
Qed.

Lemma find_if_None {A} (p : A → bool) (l : list A) :
  find_if p l = None ↔ ∀ a, a ∈ l → p a = false.
Proof.
  induction l as [|a l IH]; cbn.
  - split; [|done]. intros _ a Ha. by apply elem_of_nil in Ha.
  - destruct (p a) eqn:Ea.
    + split; [discriminate|]. intros H. rewrite H in Ea by left. discriminate.
    + destruct (find_if p l) eqn:Ek; cbn.
      * split; [discriminate|]. intros H.
        assert (Some n = None); [|discriminate].
        apply IH. intros b Hb. apply H. by right.
      * split; [|done]. intros _ b Hb.
        apply elem_of_cons in Hb as [->|Hb]; [done|]. by apply IH.
Qed.

(** What [find_queue_family] returns on a device: the index of the first
    family that has the graphics bit or the compute bit, and the
    queue-family-unavailable error when no family has either. *)
Lemma find_queue_family_spec gpu :
  not_null (gpu_handle gpu) = true →
  (∀ i, find_queue_family gpu = Returned (ok (Z.of_nat i)) ↔
     (∃ family, getQueueFamilyProperties gpu !! i = Some family ∧
                (has_graphics family = true ∨ has_compute family = true)) ∧
     (∀ j family, (j < i)%nat → getQueueFamilyProperties gpu !! j = Some family →
        has_graphics family = false ∧ has_compute family = false)) ∧
  (find_queue_family gpu = Returned (err VkQueueFamilyUnavailable) ↔
     ∀ family, family ∈ getQueueFamilyProperties gpu →
       has_graphics family = false ∧ has_compute family = false).
Proof.
  intros Hnn. unfold find_queue_family. rewrite Hnn. cbn.
  assert (Hneg : ∀ family, queue_family_pred family = false ↔
            has_graphics family = false ∧ has_compute family = false).
  { intros family. pose proof (queue_family_pred_iff family) as H.
    destruct (queue_family_pred family), (has_graphics family),
      (has_compute family); intuition congruence. }
  split.
  - intros i. destruct (find_if _ _) as [k|] eqn:Ek.
    + split.
      * intros [= Hk]. apply Nat2Z.inj in Hk. subst k.
        apply find_if_Some in Ek as [(f & Hf & Hp) Hmin].
        split; [exists f; split; [done|by apply queue_family_pred_iff]|].
        intros j f' Hj Hf'. apply Hneg. by apply (Hmin j).
      * intros [(f & Hf & Hp) Hmin]. do 3 f_equal.
        assert (Hi : Some k = Some i); [|by inversion Hi].
        rewrite <- Ek. apply find_if_Some.
        split; [exists f; split; [done|by apply queue_family_pred_iff]|].
        intros j f' Hj Hf'. apply Hneg. by apply (Hmin j).
    + split; [discriminate|].
      intros [(f & Hf & Hp) Hmin]. exfalso.
      rewrite find_if_None in Ek. apply queue_family_pred_iff in Hp.
      rewrite Ek in Hp; [discriminate|]. by eapply list_elem_of_lookup_2.
  - destruct (find_if _ _) as [k|] eqn:Ek.
    + split; [discriminate|]. intros H. exfalso.
      apply find_if_Some in Ek as [(f & Hf & Hp) _].
      apply list_elem_of_lookup_2 in Hf. apply H, Hneg in Hf. congruence.
    + split; [|done]. intros _ f Hf. apply Hneg.
      rewrite find_if_None in Ek. by apply Ek.
Qed.

(** C3, the code at the failing input.  The device [gpu_bare] has the two
    required features and a graphics queue and enumerates the single
    extension [VK_KHR_maintenance1], none of the three required ones.
    [find_gpu] returns it and [Engine::create] builds the engine on it: the
    lambda converts [strcmp]'s result to [bool], which is true when the two
    names differ.  The sibling test of the instance extensions, which
    compares [strcmp] with 0, rejects the same list. *)
Theorem find_gpu_selects_device_without_required_extensions :
  find_gpu 1%nat (VK_SUCCESS, [gpu_bare]) = Returned (ok gpu_bare) ∧
  (∀ required, required ∈ DeviceExtensions →
     required ∉ snd (enumerateDeviceExtensionProperties gpu_bare)) ∧
  (∃ engine, fst (Engine_create (device_driver [gpu_bare]) false)
               = Returned (ok engine) ∧ gpu engine = Some gpu_bare) ∧
  check_instance_extension_availability
    (enumerateDeviceExtensionProperties gpu_bare) DeviceExtensions
  = Returned (ok false).
Proof.
  split; [vm_compute; reflexivity|]. split; [|split].
  - intros required Hin Hex. cbn in Hex.
    apply list_elem_of_singleton in Hex. subst required.
    unfold DeviceExtensions in Hin.
    repeat (apply elem_of_cons in Hin as [Hin|Hin]; [discriminate|]).
    by apply elem_of_nil in Hin.
  - eexists. split; vm_compute; reflexivity.
  - vm_compute. reflexivity.
Qed.

(** C4, the code at the failing input.  The first queue family of
    [gpu_compute_first] has the compute and transfer bits and no graphics
    bit, the second one has graphics and compute.  [find_queue_family]
    returns index 0, and [Engine::create] takes that family: the mask test
    is converted to [bool] and holds as soon as one of the two bits is
    set. *)
Theorem find_queue_family_takes_compute_only_family :
  find_queue_family gpu_compute_first = Returned (ok 0) ∧
  (∃ family, getQueueFamilyProperties gpu_compute_first !! 0%nat = Some family ∧
             has_graphics family = false ∧ has_compute family = true) ∧
  (∃ family, getQueueFamilyProperties gpu_compute_first !! 1%nat = Some family ∧
             has_graphics family = true ∧ has_compute family = true) ∧
  (∃ engine, fst (Engine_create (device_driver [gpu_compute_first]) false)
               = Returned (ok engine) ∧ queue_family_index engine = 0).
Proof.
  split; [vm_compute; reflexivity|]. split; [|split].
  - eexists. split; [reflexivity|]. split; reflexivity.
  - eexists. split; [reflexivity|]. split; reflexivity.
  - eexists. split; vm_compute; reflexivity.
Qed.

(** ** Buffers *)

Section BufferProperties.
Variable err_of_ok : option Err.

(** The host-visible tiers: one mapped copy, straight into the
    allocation. *)
Lemma write_result_host_visible drv engine self bytes size offset g :
  write_pre engine self size →
  memory_type self ≠ DeviceLocal →
  (memory_type self = Staging → offset = 0) →
  GpuBuffer_write_result err_of_ok drv engine self (Some bytes) size offset g =
    if failed (vmaCopyMemoryToAllocation drv)
    then (Returned (err CouldNotWriteGpuBuffer), g)
    else (Returned (ok tt),
          copy_memory_to_allocation bytes (allocation self) offset size g).
Proof.
  intros (Ha & Hal & Hb & Hs) Htier Hoff.
  unfold GpuBuffer_write_result. unfold_body.
  rewrite Ha, Hal, Hb. cbn.
  apply Z.eqb_neq in Hs. rewrite Hs. cbn.
  destruct (memory_type self) eqn:E; try contradiction; cbn.
  - destruct (failed (vmaCopyMemoryToAllocation drv)); reflexivity.
  - rewrite (Hoff eq_refl). cbn.
    destruct (failed (vmaCopyMemoryToAllocation drv)); reflexivity.
Qed.

(** A Staging write at a non-zero offset never gets past the assertions. *)
Lemma write_result_staging_offset drv engine self data size offset g :
  memory_type self = Staging → offset ≠ 0 →
  fst (GpuBuffer_write_result err_of_ok drv engine self data size offset g)
  = Fatal.
Proof.
  intros Htier Hoff. unfold GpuBuffer_write_result. unfold_body.
  apply Z.eqb_neq in Hoff.
  destruct (not_null (allocator engine)); [|reflexivity].
  destruct (not_null (allocation self)); [|reflexivity].
  destruct (not_null (buffer self)); [|reflexivity].
  destruct (bool_decide (is_Some data)); [|reflexivity].
  destruct (negb (size =? 0)); [|reflexivity].
  rewrite Htier. cbn. rewrite Hoff. reflexivity.
Qed.
End BufferProperties.

(** C9.  A write to a Staging buffer asserts that the offset is 0: at any
    other offset the call ends in a fatal assertion, whatever its other
    arguments; at offset 0, and for a RandomAccess buffer at any offset, the
    call passes the assertions, makes one mapped copy straight into the
    buffer's allocation at that offset and returns success when the copy
    does. *)
Theorem staging_write_requires_offset_zero
    (err_of_ok : option Err) (drv : Driver) (engine : Engine) (self : GpuBuffer)
    (bytes : list Byte.byte) (size offset : Z) (g : Gpu) :
  write_pre engine self size →
  vmaCopyMemoryToAllocation drv = VK_SUCCESS →
  (memory_type self = Staging → offset ≠ 0 →
     fst (GpuBuffer_write_result err_of_ok drv engine self (Some bytes) size offset g)
     = Fatal) ∧
  (memory_type self = Staging →
     GpuBuffer_write_result err_of_ok drv engine self (Some bytes) size 0 g
     = (Returned (ok tt),
        copy_memory_to_allocation bytes (allocation self) 0 size g)) ∧
  (memory_type self = RandomAccess →
     GpuBuffer_write_result err_of_ok drv engine self (Some bytes) size offset g
     = (Returned (ok tt),
        copy_memory_to_allocation bytes (allocation self) offset size g)).
Proof.
  intros Hpre Hcopy. split; [|split].
  - intros Htier Hoff. by apply write_result_staging_offset.
  - intros Htier. rewrite write_result_host_visible; try done.
    + rewrite Hcopy. reflexivity.
    + rewrite Htier. discriminate.
  - intros Htier. rewrite write_result_host_visible; try done.
    + rewrite Hcopy. reflexivity.
    + rewrite Htier. discriminate.
    + rewrite Htier. discriminate.
Qed.

(** C9, witness: the scenario of the specification.  64 bytes of [0xFF]
    written into a Staging buffer of 64 bytes at offset 0 return success and
    are the content of the buffer afterwards; the same call at offset 4 ends
    in the fatal assertion. *)
Lemma staging_write_requires_offset_zero_witness :
  let drv := resource_driver VK_SUCCESS VK_SUCCESS VK_SUCCESS in
  let data := replicate 64 Byte.xff in
  let write := GpuBuffer_write_result None drv engine_up (buffer20 Staging)
                 (Some data) 64 in
  fst (write 4 (gpu_one_buffer 64)) = Fatal ∧
  fst (write 0 (gpu_one_buffer 64)) = Returned (ok tt) ∧
  bytes_of (snd (write 0 (gpu_one_buffer 64))) 20%nat = data.
Proof.
  pose proof (staging_write_requires_offset_zero None
                (resource_driver VK_SUCCESS VK_SUCCESS VK_SUCCESS) engine_up
                (buffer20 Staging) (replicate 64 Byte.xff) 64 4
                (gpu_one_buffer 64)) as H.
  destruct H as (Hfatal & Hzero & _).
  - repeat split; try reflexivity. discriminate.
  - reflexivity.
  - cbv zeta. split; [|split].
    + apply Hfatal; [reflexivity | discriminate].
    + rewrite (Hzero eq_refl). reflexivity.
    + rewrite (Hzero eq_refl). vm_compute. reflexivity.
Defined.

Section DeviceLocalProperties.
Variable err_of_ok : option Err.

(** The DeviceLocal tier, statement by statement: the staging buffer, the
    mapped copy into it, the queued copy, and the deferred release on the
    way out. *)
Lemma write_result_device_local drv engine self bytes size offset g :
  write_pre engine self size → memory_type self = DeviceLocal →
  (0 < next_handle g)%nat →
  GpuBuffer_write_result err_of_ok drv engine self (Some bytes) size offset g =
    if failed (vmaCreateBuffer drv)
    then (Returned (err CouldNotCreateGpuBuffer), g)
    else
      let h := next_handle g in
      let g1 := new_buffer h size (bump g) in
      if failed (vmaCopyMemoryToAllocation drv)
      then match err_of_ok with
           | Some e => (Returned (err e), vmaDestroyBuffer h g1)
           | None => (Fatal, g1)
           end
      else
        match submit_single_time_commands drv engine
                (device_local_copy h self size offset)
                (copy_memory_to_allocation bytes h 0 size g1) with
        | (Returned (ok _), g3) => (Returned (ok tt), vmaDestroyBuffer h g3)
        | (Returned (err _), g3) =>
            (Returned (err CouldNotWriteGpuBuffer), vmaDestroyBuffer h g3)
        | (Fatal, g3) => (Fatal, g3)
        end.
Proof.
  intros (Ha & Hal & Hb & Hs) Htier Hnext.
  unfold GpuBuffer_write_result, GpuBuffer_create_result. unfold_body.
  rewrite Ha, Hal, Hb. cbn -[submit_single_time_commands].
  apply Z.eqb_neq in Hs. rewrite Hs. cbn -[submit_single_time_commands].
  rewrite Htier. eval_decide. cbn -[submit_single_time_commands].
  unfold fresh_handle.
  destruct (failed (vmaCreateBuffer drv)); cbn -[submit_single_time_commands];
    [reflexivity|].
  assert (Hnn : not_null (next_handle g) = true).
  { unfold not_null, nullptr. destruct (next_handle g); [lia|reflexivity]. }
  rewrite Hnn. cbn -[submit_single_time_commands].
  destruct (failed (vmaCopyMemoryToAllocation drv));
    cbn -[submit_single_time_commands].
  - unfold Return_err. destruct err_of_ok; reflexivity.
  - fold (bump g). unfold device_local_copy.
    destruct (submit_single_time_commands _ _ _ _) as [[[u|e]|] g3];
      cbn; reflexivity.
Qed.
End DeviceLocalProperties.

(** *** The single-time helper and the buffers *)

Lemma submit_single_time_commands_eq drv engine commands g :
  not_null (device engine) = true →
  not_null (single_time_command_pool engine) = true →
  (0 < next_handle g)%nat →
  submit_single_time_commands drv engine commands g =
    if failed (allocateCommandBuffers drv)
    then (Returned (err CouldNotAllocateVkCommandBuffers), g)
    else
      let cmd := next_handle g in
      let g1 := set_command_buffers <[cmd := []]> (bump g) in
      if failed (CommandBuffer_begin drv)
      then (Returned (err CouldNotBeginVkCommandBuffer), g1)
      else
        let g2 := foldl (λ g c, record cmd c g) g1 (commands cmd) in
        if failed (CommandBuffer_end drv)
        then (Returned (err CouldNotEndVkCommandBuffer), g2)
        else if failed (createFence drv)
        then (Returned (err CouldNotCreateVkFence), g2)
        else if failed (Queue_submit drv)
        then (Returned (err CouldNotSubmitVkCommandBuffer), g2)
        else
          let g3 := execute cmd g2 in
          if failed (waitForFences drv)
          then (Returned (err CouldNotWaitForVkFence), g3)
          else (Returned (ok tt), set_command_buffers (delete cmd) g3).
Proof.
  intros Hdev Hpool Hnext.
  assert (Hnn : not_null (next_handle g) = true).
  { unfold not_null, nullptr. destruct (next_handle g); [lia|reflexivity]. }
  unfold submit_single_time_commands, begin_single_time_commands,
    end_single_time_commands, fresh_handle. unfold_body.
  rewrite Hdev, Hpool. cbn.
  destruct (failed (allocateCommandBuffers drv)); cbn; [reflexivity|].
  destruct (failed (CommandBuffer_begin drv)); cbn; [reflexivity|].
  rewrite !Hnn. cbn.
  destruct (failed (CommandBuffer_end drv)); cbn; [reflexivity|].
  destruct (failed (createFence drv)); cbn; [reflexivity|].
  destruct (failed (Queue_submit drv)); cbn; [reflexivity|].
  destruct (failed (waitForFences drv)); cbn; reflexivity.
Qed.

Lemma record_all_buffers cmd cs : ∀ g,
  buffers (foldl (λ g c, record cmd c g) g cs) = buffers g.
Proof. induction cs as [|c cs IH]; intros g; cbn; [done|]. by rewrite IH. Qed.

Lemma record_all_next cmd cs : ∀ g,
  next_handle (foldl (λ g c, record cmd c g) g cs) = next_handle g.
Proof. induction cs as [|c cs IH]; intros g; cbn; [done|]. by rewrite IH. Qed.

Lemma copy_region_dom src dst r (bufs : gmap Handle (list Byte.byte)) :
  dom (copy_region src dst r bufs) = dom bufs.
Proof.
  unfold copy_region.
  destruct (bufs !! src) as [s|]; [|done].
  destruct (bufs !! dst) as [d|] eqn:E; [|done].
  case_bool_decide; [|done].
  rewrite dom_insert_L. apply elem_of_dom_2 in E. set_solver.
Qed.

Lemma exec_cmd_dom g c : dom (buffers (exec_cmd g c)) = dom (buffers g).
Proof.
  destruct c as [bs|src dst rs| | |]; cbn; try done.
  - revert g. induction bs as [|b bs IH]; intros g; cbn; [done|].
    by rewrite IH.
  - revert g. induction rs as [|r rs IH]; intros g; cbn; [done|].
    rewrite IH. cbn. apply copy_region_dom.
Qed.

Lemma exec_cmd_next g c : next_handle (exec_cmd g c) = next_handle g.
Proof.
  destruct c as [bs|src dst rs| | |]; cbn; try done.
  - revert g. induction bs as [|b bs IH]; intros g; cbn; [done|].
    by rewrite IH.
  - revert g. induction rs as [|r rs IH]; intros g; cbn; [done|].
    by rewrite IH.
Qed.

Lemma execute_dom cmd g : dom (buffers (execute cmd g)) = dom (buffers g).
Proof.
  unfold execute. cbn. generalize (default [] (command_buffers g !! cmd)).
  intros batch. revert g. induction batch as [|c batch IH]; intros g; cbn; [done|].
  rewrite IH. apply exec_cmd_dom.
Qed.

(** Whatever the driver answers and however it ends, the helper creates and
    destroys no buffer. *)
Lemma submit_single_time_commands_dom drv engine commands g :
  dom (buffers (snd (submit_single_time_commands drv engine commands g)))
  = dom (buffers g).
Proof.
  unfold submit_single_time_commands, begin_single_time_commands,
    end_single_time_commands, fresh_handle. unfold_body.
  destruct (not_null (device engine)); cbn; [|done].
  destruct (not_null (single_time_command_pool engine)); cbn; [|done].
  destruct (failed (allocateCommandBuffers drv)); cbn; [done|].
  destruct (failed (CommandBuffer_begin drv)); cbn; [done|].
  destruct (not_null (next_handle g)) eqn:Hnn; cbn; [|done].
  destruct (failed (CommandBuffer_end drv)); cbn; rewrite ?Hnn; cbn;
    [by rewrite record_all_buffers|].
  destruct (failed (createFence drv)); cbn; [by rewrite record_all_buffers|].
  destruct (failed (Queue_submit drv)); cbn -[execute];
    [by rewrite record_all_buffers|].
  destruct (failed (waitForFences drv)); cbn -[execute];
    by rewrite execute_dom, record_all_buffers.
Qed.

Lemma write_result_returned_pre err_of_ok drv engine self data size offset g r :
  fst (GpuBuffer_write_result err_of_ok drv engine self data size offset g)
    = Returned r →
  write_pre engine self size ∧ is_Some data ∧
  (memory_type self = Staging → offset = 0).
Proof.
  unfold GpuBuffer_write_result, write_pre. unfold_body.
  destruct (not_null (allocator engine)); cbn; [|discriminate].
  destruct (not_null (allocation self)); cbn; [|discriminate].
  destruct (not_null (buffer self)); cbn; [|discriminate].
  case_bool_decide as Hd; cbn; [|discriminate].
  destruct (size =? 0) eqn:Hs; cbn; [discriminate|].
  apply Z.eqb_neq in Hs. intros H. repeat split; try done.
  intros Htier. rewrite Htier in H. revert H. eval_decide. cbn.
  destruct (offset =? 0) eqn:Ho; cbn; [|discriminate].
  intros _. by apply Z.eqb_eq.
Qed.

(** No exit path of [write_result] leaks the temporary staging buffer (or
    any other): whenever the call returns, with success or with an error,
    the live buffers are the ones that were live before. *)
Lemma write_result_releases_staging err_of_ok drv engine self data size offset g r g' :
  gpu_wf g →
  GpuBuffer_write_result err_of_ok drv engine self data size offset g
    = (Returned r, g') →
  dom (buffers g') = dom (buffers g).
Proof.
  intros [Hnext Hwf] H.
  destruct (write_result_returned_pre err_of_ok drv engine self data size offset g r)
    as (Hpre & [bytes ->] & Hoff); [by rewrite H|].
  destruct (decide (memory_type self = DeviceLocal)) as [Htier|Htier].
  - rewrite write_result_device_local in H by assumption.
    assert (Hfresh : next_handle g ∉ dom (buffers g)).
    { intros Hin. apply elem_of_dom in Hin. apply Hwf in Hin. lia. }
    destruct (failed (vmaCreateBuffer drv)); [by inversion H|].
    cbv zeta in H.
    destruct (failed (vmaCopyMemoryToAllocation drv)).
    + destruct err_of_ok; inversion H; subst. cbn.
      rewrite dom_delete_L, dom_insert_L. set_solver.
    + pose proof (submit_single_time_commands_dom drv engine
        (device_local_copy (next_handle g) self size offset)
        (copy_memory_to_allocation bytes (next_handle g) 0 size
           (new_buffer (next_handle g) size (bump g)))) as Hdom.
      destruct (submit_single_time_commands _ _ _ _) as [[[u|e]|] g3];
        inversion H; subst; cbn in *;
        rewrite dom_delete_L, Hdom, dom_alter_L, dom_insert_L; set_solver.
  - rewrite write_result_host_visible in H by assumption.
    destruct (failed (vmaCopyMemoryToAllocation drv)); inversion H; subst;
      [done|]. cbn. by rewrite dom_alter_L.
Qed.

(** *** Bytes written are the bytes read *)

Lemma read_write_bytes offset bytes mem :
  0 ≤ offset → offset + Z.of_nat (length bytes) ≤ Z.of_nat (length mem) →
  read_bytes offset (Z.of_nat (length bytes)) (write_bytes offset bytes mem) = bytes.
Proof.
  intros Hoff Hfit. unfold read_bytes, write_bytes.
  rewrite bool_decide_eq_true_2 by done.
  rewrite Nat2Z.id.
  rewrite drop_app_length' by (rewrite length_take; lia).
  apply take_app_length.
Qed.

Lemma write_bytes_length offset bytes mem :
  length (write_bytes offset bytes mem) = length mem.
Proof.
  unfold write_bytes. case_bool_decide as H; [|done].
  rewrite !length_app, length_take, length_drop. lia.
Qed.

Lemma write_bytes_outside offset bytes mem i :
  (i < Z.to_nat offset ∨ Z.to_nat offset + length bytes ≤ i)%nat →
  write_bytes offset bytes mem !! i = mem !! i.
Proof.
  intros Hi. unfold write_bytes. case_bool_decide as H; [|done].
  destruct Hi as [Hi|Hi].
  - rewrite lookup_app_l by (rewrite length_take; lia).
    by rewrite lookup_take_lt.
  - rewrite lookup_app_r by (rewrite length_take; lia).
    rewrite lookup_app_r by (rewrite length_take; lia).
    rewrite lookup_drop, length_take. f_equal. lia.
Qed.

Lemma read_bytes_all bytes :
  read_bytes 0 (Z.of_nat (length bytes)) bytes = bytes.
Proof. unfold read_bytes. rewrite Nat2Z.id. cbn. by apply take_ge. Qed.

Lemma write_bytes_fill bytes :
  write_bytes 0 bytes (replicate (length bytes) Byte.x00) = bytes.
Proof.
  unfold write_bytes. rewrite bool_decide_eq_true_2
    by (rewrite length_replicate; lia).
  cbn. rewrite drop_ge by (rewrite length_replicate; lia).
  apply app_nil_r.
Qed.

Section RoundTrip.
Variable err_of_ok : option Err.

(** A host-visible buffer holds the bytes written to it, at any offset
    that keeps the write inside the buffer. *)
Lemma host_visible_roundtrip drv engine self bytes offset g old :
  write_pre engine self (Z.of_nat (length bytes)) →
  memory_type self = RandomAccess →
  vmaCopyMemoryToAllocation drv = VK_SUCCESS →
  buffers g !! allocation self = Some old →
  0 ≤ offset → offset + Z.of_nat (length bytes) ≤ Z.of_nat (length old) →
  ∃ g', GpuBuffer_write_result err_of_ok drv engine self (Some bytes)
          (Z.of_nat (length bytes)) offset g = (Returned (ok tt), g') ∧
        read_bytes offset (Z.of_nat (length bytes)) (bytes_of g' (allocation self))
        = bytes.
Proof.
  intros Hpre Htier Hcopy Hold Hoff Hfit.
  rewrite write_result_host_visible; [| done | by rewrite Htier | by rewrite Htier].
  rewrite Hcopy. change (failed VK_SUCCESS) with false. cbv iota.
  eexists. split; [reflexivity|].
  unfold bytes_of, copy_memory_to_allocation. cbn.
  rewrite lookup_alter_eq, Hold. cbn.
  rewrite Nat2Z.id, take_ge by done.
  by apply read_write_bytes.
Qed.

(** A DeviceLocal buffer written at offset 0 holds the bytes written, and
    the staging buffer is gone. *)
Lemma device_local_roundtrip_offset0 drv engine self bytes g old :
  write_pre engine self (Z.of_nat (length bytes)) →
  memory_type self = DeviceLocal →
  not_null (device engine) = true →
  not_null (single_time_command_pool engine) = true →
  resource_driver_ok drv → gpu_wf g →
  buffers g !! buffer self = Some old →
  (length bytes ≤ length old)%nat →
  ∃ g', GpuBuffer_write_result err_of_ok drv engine self (Some bytes)
          (Z.of_nat (length bytes)) 0 g = (Returned (ok tt), g') ∧
        read_bytes 0 (Z.of_nat (length bytes)) (bytes_of g' (buffer self)) = bytes ∧
        dom (buffers g') = dom (buffers g).
Proof.
  intros Hpre Htier Hdev Hpool (Hc & Hm & Ha & Hb & He & Hf & Hs & Hw)
    [Hnext Hwf] Hold Hfit.
  assert (Hne : next_handle g ≠ buffer self).
  { intros Heq. assert (Hlt : (buffer self < next_handle g)%nat)
      by (apply Hwf; eauto). lia. }
  rewrite write_result_device_local by assumption.
  rewrite Hc, Hm. change (failed VK_SUCCESS) with false. cbv iota zeta.
  rewrite submit_single_time_commands_eq; [| done | done | cbn; lia].
  rewrite Ha, Hb, He, Hf, Hs, Hw. change (failed VK_SUCCESS) with false.
  cbv iota zeta.
  eexists. split; [reflexivity|].
  unfold device_local_copy, execute, record, bytes_of. cbn.
  rewrite lookup_alter_eq, lookup_insert_eq. cbn.
  unfold copy_region. cbn.
  rewrite lookup_alter_eq, lookup_insert_eq. cbn.
  rewrite lookup_alter_ne, lookup_insert_ne, Hold by done.
  rewrite !Nat2Z.id, take_ge, write_bytes_fill by done.
  rewrite bool_decide_eq_true_2 by lia.
  cbn. rewrite read_bytes_all.
  split.
  - rewrite lookup_delete_ne, lookup_insert_eq by done. cbn.
    apply read_write_bytes; lia.
  - rewrite dom_delete_L, dom_insert_L, dom_alter_L, dom_insert_L.
    assert (next_handle g ∉ dom (buffers g)).
    { intros Hin. apply elem_of_dom in Hin. apply Hwf in Hin. lia. }
    apply elem_of_dom_2 in Hold. set_solver.
Qed.
End RoundTrip.

(** C5, the code at the failing input.  A DeviceLocal write whose staging
    buffer is created but whose mapped copy into it fails with
    [VK_ERROR_MEMORY_MAP_FAILED] leaves through
    [return staging_buffer.err();] on a [staging_buffer] that holds a value:
    the outcome is whatever [Result::err()] does on a successful result, a
    fatal assertion or a tag that was never set, and not an error of the
    failed copy.  The same failure on a RandomAccess buffer returns
    [CouldNotWriteGpuBuffer].  The staging buffer is released all the
    same when the call returns. *)
Theorem device_local_mapped_copy_failure (err_of_ok : option Err) :
  let drv := resource_driver VK_SUCCESS VK_ERROR_MEMORY_MAP_FAILED VK_SUCCESS in
  let write tier := GpuBuffer_write_result err_of_ok drv engine_up (buffer20 tier)
                      (Some [Byte.xff]) 1 0 (gpu_one_buffer 8) in
  fst (write DeviceLocal)
    = match err_of_ok with
      | Some e => Returned (err e)
      | None => Fatal
      end ∧
  fst (write RandomAccess) = Returned (err CouldNotWriteGpuBuffer) ∧
  (is_Some err_of_ok →
     dom (buffers (snd (write DeviceLocal))) = dom (buffers (gpu_one_buffer 8))).
Proof.
  cbv zeta. split; [|split].
  - rewrite write_result_device_local;
      [| repeat split; try reflexivity; discriminate | reflexivity | cbn; lia].
    cbn. destruct err_of_ok; reflexivity.
  - rewrite write_result_host_visible;
      [| repeat split; try reflexivity; discriminate | discriminate | discriminate].
    reflexivity.
  - intros [e ->]. vm_compute. reflexivity.
Qed.

(** C6, the code at the failing input.  One byte [0xFF] written at offset 4
    into a DeviceLocal buffer of 8 zero bytes, every driver call succeeding:
    the call returns success, but the copy it queued reads the staging
    buffer at offset 4, past its single byte, and writes the destination at
    offset 0; the destination byte at offset 4 is not the byte written.  At
    offset 0 the same write does reach the buffer, and a RandomAccess
    buffer takes it at offset 4. *)
Theorem device_local_write_swaps_offsets (err_of_ok : option Err) :
  let drv := resource_driver VK_SUCCESS VK_SUCCESS VK_SUCCESS in
  let write tier offset :=
    GpuBuffer_write_result err_of_ok drv engine_up (buffer20 tier)
      (Some [Byte.xff]) 1 offset (gpu_one_buffer 8) in
  fst (write DeviceLocal 4) = Returned (ok tt) ∧
  submitted (snd (write DeviceLocal 4))
    = [[copyBuffer 21%nat 20%nat
          [{| srcOffset := 4; dstOffset := 0; copy_size := 1 |}]]] ∧
  read_bytes 4 1 (bytes_of (snd (write DeviceLocal 4)) 20%nat) = [Byte.x00] ∧
  read_bytes 0 1 (bytes_of (snd (write DeviceLocal 0)) 20%nat) = [Byte.xff] ∧
  read_bytes 4 1 (bytes_of (snd (write RandomAccess 4)) 20%nat) = [Byte.xff].
Proof.
  cbv zeta. vm_compute. repeat split; reflexivity.
Qed.

(** ** The fields of the device after each step

    One equation per step and field, so that a proof reads a field of a
    device built by many steps by rewriting, without unfolding the
    steps. *)

Lemma buffers_bump g :
  buffers (bump g) = buffers g.
Proof. reflexivity. Qed.

Lemma images_bump g :
  images (bump g) = images g.
Proof. reflexivity. Qed.

Lemma views_bump g :
  views (bump g) = views g.
Proof. reflexivity. Qed.

Lemma command_buffers_bump g :
  command_buffers (bump g) = command_buffers g.
Proof. reflexivity. Qed.

Lemma submitted_bump g :
  submitted (bump g) = submitted g.
Proof. reflexivity. Qed.

Lemma next_handle_bump g :
  next_handle (bump g) = S (next_handle g).
Proof. reflexivity. Qed.

Lemma buffers_new_buffer h size g :
  buffers (new_buffer h size g) = <[h := replicate (Z.to_nat size) Byte.x00]> (buffers g).
Proof. reflexivity. Qed.

Lemma images_new_buffer h size g :
  images (new_buffer h size g) = images g.
Proof. reflexivity. Qed.

Lemma views_new_buffer h size g :
  views (new_buffer h size g) = views g.
Proof. reflexivity. Qed.

Lemma command_buffers_new_buffer h size g :
  command_buffers (new_buffer h size g) = command_buffers g.
Proof. reflexivity. Qed.

Lemma submitted_new_buffer h size g :
  submitted (new_buffer h size g) = submitted g.
Proof. reflexivity. Qed.

Lemma next_handle_new_buffer h size g :
  next_handle (new_buffer h size g) = next_handle g.
Proof. reflexivity. Qed.

Lemma buffers_vmaDestroyBuffer h g :
  buffers (vmaDestroyBuffer h g) = delete h (buffers g).
Proof. reflexivity. Qed.

Lemma images_vmaDestroyBuffer h g :
  images (vmaDestroyBuffer h g) = images g.
Proof. reflexivity. Qed.

Lemma views_vmaDestroyBuffer h g :
  views (vmaDestroyBuffer h g) = views g.
Proof. reflexivity. Qed.

Lemma command_buffers_vmaDestroyBuffer h g :
  command_buffers (vmaDestroyBuffer h g) = command_buffers g.
Proof. reflexivity. Qed.

Lemma submitted_vmaDestroyBuffer h g :
  submitted (vmaDestroyBuffer h g) = submitted g.
Proof. reflexivity. Qed.

Lemma next_handle_vmaDestroyBuffer h g :
  next_handle (vmaDestroyBuffer h g) = next_handle g.
Proof. reflexivity. Qed.

Lemma buffers_copy_memory_to_allocation data h offset size g :
  buffers (copy_memory_to_allocation data h offset size g) = alter (write_bytes offset (take (Z.to_nat size) data)) h (buffers g).
Proof. reflexivity. Qed.

Lemma images_copy_memory_to_allocation data h offset size g :
  images (copy_memory_to_allocation data h offset size g) = images g.
Proof. reflexivity. Qed.

Lemma views_copy_memory_to_allocation data h offset size g :
  views (copy_memory_to_allocation data h offset size g) = views g.
Proof. reflexivity. Qed.

Lemma command_buffers_copy_memory_to_allocation data h offset size g :
  command_buffers (copy_memory_to_allocation data h offset size g) = command_buffers g.
Proof. reflexivity. Qed.

Lemma submitted_copy_memory_to_allocation data h offset size g :
  submitted (copy_memory_to_allocation data h offset size g) = submitted g.
Proof. reflexivity. Qed.

Lemma next_handle_copy_memory_to_allocation data h offset size g :
  next_handle (copy_memory_to_allocation data h offset size g) = next_handle g.
Proof. reflexivity. Qed.

Lemma buffers_new_image h type extent levels layers cube g :
  buffers (new_image h type extent levels layers cube g) = buffers g.
Proof. reflexivity. Qed.

Lemma images_new_image h type extent levels layers cube g :
  images (new_image h type extent levels layers cube g) = <[h := {| imageType := type; info_extent := extent;
                          mipLevels := levels; arrayLayers := layers;
                          cube_compatible := cube; layouts := ∅ |}]> (images g).
Proof. reflexivity. Qed.

Lemma views_new_image h type extent levels layers cube g :
  views (new_image h type extent levels layers cube g) = views g.
Proof. reflexivity. Qed.

Lemma command_buffers_new_image h type extent levels layers cube g :
  command_buffers (new_image h type extent levels layers cube g) = command_buffers g.
Proof. reflexivity. Qed.

Lemma submitted_new_image h type extent levels layers cube g :
  submitted (new_image h type extent levels layers cube g) = submitted g.
Proof. reflexivity. Qed.

Lemma next_handle_new_image h type extent levels layers cube g :
  next_handle (new_image h type extent levels layers cube g) = next_handle g.
Proof. reflexivity. Qed.

Lemma buffers_new_view h image type range g :
  buffers (new_view h image type range g) = buffers g.
Proof. reflexivity. Qed.

Lemma images_new_view h image type range g :
  images (new_view h image type range g) = images g.
Proof. reflexivity. Qed.

Lemma views_new_view h image type range g :
  views (new_view h image type range g) = <[h := {| view_image := image; viewType := type;
                         view_subresourceRange := range |}]> (views g).
Proof. reflexivity. Qed.

Lemma command_buffers_new_view h image type range g :
  command_buffers (new_view h image type range g) = command_buffers g.
Proof. reflexivity. Qed.

Lemma submitted_new_view h image type range g :
  submitted (new_view h image type range g) = submitted g.
Proof. reflexivity. Qed.

Lemma next_handle_new_view h image type range g :
  next_handle (new_view h image type range g) = next_handle g.
Proof. reflexivity. Qed.

Lemma buffers_StagingGpuImage_destroy self g :
  buffers (StagingGpuImage_destroy self g) = buffers g.
Proof. reflexivity. Qed.

Lemma images_StagingGpuImage_destroy self g :
  images (StagingGpuImage_destroy self g) = delete (staging_image self) (images g).
Proof. reflexivity. Qed.

Lemma views_StagingGpuImage_destroy self g :
  views (StagingGpuImage_destroy self g) = views g.
Proof. reflexivity. Qed.

Lemma command_buffers_StagingGpuImage_destroy self g :
  command_buffers (StagingGpuImage_destroy self g) = command_buffers g.
Proof. reflexivity. Qed.

Lemma submitted_StagingGpuImage_destroy self g :
  submitted (StagingGpuImage_destroy self g) = submitted g.
Proof. reflexivity. Qed.

Lemma next_handle_StagingGpuImage_destroy self g :
  next_handle (StagingGpuImage_destroy self g) = next_handle g.
Proof. reflexivity. Qed.

(** Read the fields of a device through the steps that built it. *)
Ltac gpu_fields :=
  repeat (progress rewrite ?buffers_bump,
    ?images_bump,
    ?views_bump,
    ?command_buffers_bump,
    ?submitted_bump,
    ?next_handle_bump,
    ?buffers_new_buffer,
    ?images_new_buffer,
    ?views_new_buffer,
    ?command_buffers_new_buffer,
    ?submitted_new_buffer,
    ?next_handle_new_buffer,
    ?buffers_vmaDestroyBuffer,
    ?images_vmaDestroyBuffer,
    ?views_vmaDestroyBuffer,
    ?command_buffers_vmaDestroyBuffer,
    ?submitted_vmaDestroyBuffer,
    ?next_handle_vmaDestroyBuffer,
    ?buffers_copy_memory_to_allocation,
    ?images_copy_memory_to_allocation,
    ?views_copy_memory_to_allocation,
    ?command_buffers_copy_memory_to_allocation,
    ?submitted_copy_memory_to_allocation,
    ?next_handle_copy_memory_to_allocation,
    ?buffers_new_image,
    ?images_new_image,
    ?views_new_image,
    ?command_buffers_new_image,
    ?submitted_new_image,
    ?next_handle_new_image,
    ?buffers_new_view,
    ?images_new_view,
    ?views_new_view,
    ?command_buffers_new_view,
    ?submitted_new_view,
    ?next_handle_new_view,
    ?buffers_StagingGpuImage_destroy,
    ?images_StagingGpuImage_destroy,
    ?views_StagingGpuImage_destroy,
    ?command_buffers_StagingGpuImage_destroy,
    ?submitted_StagingGpuImage_destroy,
    ?next_handle_StagingGpuImage_destroy).

(** ** What a successful single-time submission leaves behind *)

Lemma submit_single_time_commands_ok drv engine commands g g' :
  submit_single_time_commands drv engine commands g = (Returned (ok tt), g') →
  g' = after_submit commands g.
Proof.
  unfold submit_single_time_commands, begin_single_time_commands,
    end_single_time_commands, fresh_handle. unfold_body.
  destruct (not_null (device engine)); cbn; [|discriminate].
  destruct (not_null (single_time_command_pool engine)); cbn; [|discriminate].
  destruct (failed (allocateCommandBuffers drv)); cbn; [discriminate|].
  destruct (failed (CommandBuffer_begin drv)); cbn; [discriminate|].
  destruct (not_null (next_handle g)) eqn:Hnn; cbn; [|discriminate].
  rewrite ?Hnn. cbn.
  destruct (failed (CommandBuffer_end drv)); cbn; [discriminate|].
  destruct (failed (createFence drv)); cbn; [discriminate|].
  destruct (failed (Queue_submit drv)); cbn -[execute]; [discriminate|].
  destruct (failed (waitForFences drv)); cbn -[execute]; [discriminate|].
  intros [= <-]. reflexivity.
Qed.

Lemma record_all_command_buffers cmd cs : ∀ g,
  command_buffers (foldl (λ g c, record cmd c g) g cs)
  = alter (λ l, l ++ cs) cmd (command_buffers g).
Proof.
  induction cs as [|c cs IH]; intros g; cbn.
  - symmetry. apply alter_id. intros l _. apply app_nil_r.
  - rewrite IH. cbn. rewrite alter_alter_eq.
    apply alter_ext. intros l _. cbn. by rewrite <- app_assoc.
Qed.

Lemma record_all_images cmd cs : ∀ g,
  images (foldl (λ g c, record cmd c g) g cs) = images g.
Proof. induction cs as [|c cs IH]; intros g; cbn; [done|]. by rewrite IH. Qed.

Lemma record_all_views cmd cs : ∀ g,
  views (foldl (λ g c, record cmd c g) g cs) = views g.
Proof. induction cs as [|c cs IH]; intros g; cbn; [done|]. by rewrite IH. Qed.

Lemma record_all_submitted cmd cs : ∀ g,
  submitted (foldl (λ g c, record cmd c g) g cs) = submitted g.
Proof. induction cs as [|c cs IH]; intros g; cbn; [done|]. by rewrite IH. Qed.

Lemma exec_cmd_submitted g c : submitted (exec_cmd g c) = submitted g.
Proof.
  destruct c as [bs|src dst rs| | |]; cbn; try done.
  - revert g. induction bs as [|b bs IH]; intros g; cbn; [done|]. by rewrite IH.
  - revert g. induction rs as [|r rs IH]; intros g; cbn; [done|]. by rewrite IH.
Qed.

Lemma exec_cmd_views g c : views (exec_cmd g c) = views g.
Proof.
  destruct c as [bs|src dst rs| | |]; cbn; try done.
  - revert g. induction bs as [|b bs IH]; intros g; cbn; [done|]. by rewrite IH.
  - revert g. induction rs as [|r rs IH]; intros g; cbn; [done|]. by rewrite IH.
Qed.

Lemma exec_cmd_images g c :
  images (exec_cmd g c) = apply_barriers (barriers_of [c]) (images g).
Proof.
  destruct c as [bs|src dst rs| | |]; cbn; try done.
  - rewrite app_nil_r. unfold apply_barriers.
    revert g. induction bs as [|b bs IH]; intros g; cbn; [done|]. by rewrite IH.
  - revert g. induction rs as [|r rs IH]; intros g; cbn; [done|]. by rewrite IH.
Qed.

Lemma barriers_of_app cs1 cs2 :
  barriers_of (cs1 ++ cs2) = barriers_of cs1 ++ barriers_of cs2.
Proof. unfold barriers_of. apply bind_app. Qed.

Lemma exec_all_images cs : ∀ g,
  images (foldl exec_cmd g cs) = apply_barriers (barriers_of cs) (images g).
Proof.
  induction cs as [|c cs IH]; intros g; [done|].
  cbn [foldl]. rewrite IH, exec_cmd_images.
  change (c :: cs) with ([c] ++ cs). rewrite barriers_of_app.
  unfold apply_barriers. by rewrite foldl_app.
Qed.

Lemma exec_all_submitted cs : ∀ g, submitted (foldl exec_cmd g cs) = submitted g.
Proof.
  induction cs as [|c cs IH]; intros g; [done|].
  cbn [foldl]. by rewrite IH, exec_cmd_submitted.
Qed.

Lemma exec_all_views cs : ∀ g, views (foldl exec_cmd g cs) = views g.
Proof.
  induction cs as [|c cs IH]; intros g; [done|].
  cbn [foldl]. by rewrite IH, exec_cmd_views.
Qed.

Lemma exec_all_next cs : ∀ g, next_handle (foldl exec_cmd g cs) = next_handle g.
Proof.
  induction cs as [|c cs IH]; intros g; [done|].
  cbn [foldl]. by rewrite IH, exec_cmd_next.
Qed.

(** The batch the queue executes is the list of recorded commands. *)
Lemma recorded_batch commands g :
  let cmd := next_handle g in
  command_buffers
    (foldl (λ g c, record cmd c g)
       (set_command_buffers <[cmd := []]> (bump g)) (commands cmd)) !! cmd
  = Some (commands cmd).
Proof.
  cbv zeta. rewrite record_all_command_buffers. cbn.
  by rewrite lookup_alter_eq, lookup_insert_eq.
Qed.

Lemma after_submit_submitted commands g :
  submitted (after_submit commands g) = submitted g ++ [commands (next_handle g)].
Proof.
  unfold after_submit, execute. cbn. rewrite recorded_batch. cbn.
  by rewrite exec_all_submitted, record_all_submitted.
Qed.

Lemma after_submit_images commands g :
  images (after_submit commands g)
  = apply_barriers (barriers_of (commands (next_handle g))) (images g).
Proof.
  unfold after_submit, execute. cbn. rewrite recorded_batch. cbn.
  by rewrite exec_all_images, record_all_images.
Qed.

Lemma after_submit_views commands g : views (after_submit commands g) = views g.
Proof.
  unfold after_submit, execute. cbn.
  by rewrite exec_all_views, record_all_views.
Qed.


Lemma after_submit_buffers_dom commands g :
  dom (buffers (after_submit commands g)) = dom (buffers g).
Proof.
  unfold after_submit. cbn -[execute].
  by rewrite execute_dom, record_all_buffers.
Qed.

(** ** Successful calls, statement by statement *)

Lemma GpuBuffer_create_result_ok drv engine config g b g' :
  GpuBuffer_create_result drv engine config g = (Returned (ok b), g') →
  b = {| allocation := next_handle g; buffer := next_handle g;
         memory_type := cfg_memory_type config |} ∧
  g' = new_buffer (next_handle g) (cfg_size config) (bump g).
Proof.
  unfold GpuBuffer_create_result, fresh_handle. unfold_body.
  destruct (not_null (allocator engine)); cbn; [|discriminate].
  destruct (negb (cfg_size config =? 0)); cbn; [|discriminate].
  destruct (negb (cfg_usage config =? 0)); cbn; [|discriminate].
  destruct (failed (vmaCreateBuffer drv)); cbn; [discriminate|].
  destruct (not_null (next_handle g)); cbn; [|discriminate].
  intros [= <- <-]. done.
Qed.

Lemma StagingGpuImage_create_ok drv engine config g s g' :
  StagingGpuImage_create drv engine config g = (Returned (ok s), g') →
  s = {| staging_allocation := next_handle g; staging_image := next_handle g |} ∧
  ∃ type, g' = new_image (next_handle g) type (staging_extent config)
                 (staging_mip_levels config) 1 false (bump g).
Proof.
  unfold StagingGpuImage_create, fresh_handle. unfold_body.
  destruct (not_null (device engine)); cbn; [|discriminate].
  destruct (not_null (allocator engine)); cbn; [|discriminate].
  destruct (0 <? width (staging_extent config)); cbn; [|discriminate].
  destruct (0 <? height (staging_extent config)); cbn; [|discriminate].
  destruct (0 <? depth (staging_extent config)); cbn; [|discriminate].
  destruct (bool_decide (staging_format config ≠ FormatUndefined)); cbn;
    [|discriminate].
  destruct (negb (staging_usage config =? 0)); cbn; [|discriminate].
  destruct (negb (staging_sample_count config =? 0)); cbn; [|discriminate].
  destruct (0 <? staging_mip_levels config); cbn; [|discriminate].
  destruct (failed (vmaCreateImage drv)); cbn; [discriminate|].
  destruct (not_null (next_handle g)); cbn; [|discriminate].
  intros [= <- <-]. split; [done|]. eexists. reflexivity.
Qed.

Lemma write_result_staging_ok err_of_ok drv engine self data size g g' :
  memory_type self = Staging →
  GpuBuffer_write_result err_of_ok drv engine self data size 0 g
    = (Returned (ok tt), g') →
  ∃ bytes, data = Some bytes ∧
           g' = copy_memory_to_allocation bytes (allocation self) 0 size g.
Proof.
  intros Htier H.
  destruct (write_result_returned_pre err_of_ok drv engine self data size 0 g (ok tt))
    as (Hpre & [bytes ->] & _); [by rewrite H|].
  exists bytes. split; [done|].
  rewrite write_result_host_visible in H; [| done | by rewrite Htier | done].
  destruct (failed (vmaCopyMemoryToAllocation drv)); by inversion H.
Qed.

Lemma apply_barriers_dom bs : ∀ imgs, dom (apply_barriers bs imgs) = dom imgs.
Proof.
  unfold apply_barriers. induction bs as [|b bs IH]; intros m; [done|].
  cbn [foldl]. by rewrite IH, dom_alter_L.
Qed.



(** The device after a successful [StagingGpuImage::write]. *)
Lemma StagingGpuImage_write_ok_state err_of_ok drv engine self data final_layout
    subresource g g' :
  StagingGpuImage_write err_of_ok drv engine self data final_layout subresource g
    = (Returned (ok tt), g') →
  let staging := {| allocation := next_handle g; buffer := next_handle g;
                    memory_type := Staging |} in
  ∃ bytes size,
    g' = vmaDestroyBuffer (next_handle g)
           (after_submit
              (staging_write_commands self staging data final_layout subresource)
              (copy_memory_to_allocation bytes (next_handle g) 0 size
                 (new_buffer (next_handle g) size (bump g)))).
Proof.
  unfold StagingGpuImage_write. unfold_body.
  destruct (not_null (allocator engine)); cbn -[GpuBuffer_create_result
    GpuBuffer_write_result submit_single_time_commands]; [|discriminate].
  destruct (not_null (staging_allocation self)); cbn -[GpuBuffer_create_result
    GpuBuffer_write_result submit_single_time_commands]; [|discriminate].
  destruct (not_null (staging_image self)); cbn -[GpuBuffer_create_result
    GpuBuffer_write_result submit_single_time_commands]; [|discriminate].
  destruct (bool_decide (is_Some (ptr data))); cbn -[GpuBuffer_create_result
    GpuBuffer_write_result submit_single_time_commands]; [|discriminate].
  destruct (0 <? alignment data); cbn -[GpuBuffer_create_result
    GpuBuffer_write_result submit_single_time_commands]; [|discriminate].
  destruct (0 <? width (data_extent data)); cbn -[GpuBuffer_create_result
    GpuBuffer_write_result submit_single_time_commands]; [|discriminate].
  destruct (0 <? height (data_extent data)); cbn -[GpuBuffer_create_result
    GpuBuffer_write_result submit_single_time_commands]; [|discriminate].
  destruct (0 <? depth (data_extent data)); cbn -[GpuBuffer_create_result
    GpuBuffer_write_result submit_single_time_commands]; [|discriminate].
  destruct (GpuBuffer_create_result _ _ _ _) as [[[b|e]|] g1] eqn:Hb;
    cbn -[GpuBuffer_write_result submit_single_time_commands];
    [| unfold Return_err, Return; cbn; discriminate | discriminate].
  apply GpuBuffer_create_result_ok in Hb as [-> ->]. cbn [buffer allocation].
  destruct (GpuBuffer_write_result _ _ _ _ _ _ _ _) as [[[[]|e]|] g2] eqn:Hw;
    cbn -[submit_single_time_commands];
    [| unfold Return_err, Return; cbn; discriminate | discriminate].
  apply write_result_staging_ok in Hw as (bytes & _ & ->); [|done].
  destruct (submit_single_time_commands _ _ _ _) as [[[[]|e]|] g3] eqn:Hs;
    cbn; try discriminate.
  apply submit_single_time_commands_ok in Hs. subst g3.
  intros [= <-]. eexists _, _. reflexivity.
Qed.


(** ** Mip chains *)

Lemma halve_floor v : 1 ≤ v → halve v = Z.max 1 (v / 2) ∧ 1 ≤ halve v.
Proof.
  intros Hv. unfold halve. destruct (1 <? v) eqn:E.
  - apply Z.ltb_lt in E. rewrite Z.quot_div_nonneg by lia.
    assert (1 ≤ v / 2) by (apply Z.div_le_lower_bound; lia). lia.
  - apply Z.ltb_ge in E. assert (v = 1) as -> by lia. by compute.
Qed.

Lemma mip_dimension_pos v i : 1 ≤ v → 1 ≤ mip_dimension v i.
Proof. intros Hv. destruct i; cbn; lia. Qed.

Lemma iter_halve v i :
  1 ≤ v → Nat.iter i halve v = mip_dimension v i.
Proof.
  intros Hv. induction i as [|i IH]; [done|].
  rewrite Nat.iter_succ, IH. cbn [mip_dimension].
  apply halve_floor. by apply mip_dimension_pos.
Qed.

Lemma iter_halve_offset o i :
  Nat.iter i halve_offset o
  = {| off_x := Nat.iter i halve (off_x o); off_y := Nat.iter i halve (off_y o);
       off_z := Nat.iter i halve (off_z o) |}.
Proof.
  induction i as [|i IH]; [by destruct o|].
  rewrite !Nat.iter_succ, IH. reflexivity.
Qed.

Lemma blits_of_app cs1 cs2 : blits_of (cs1 ++ cs2) = blits_of cs1 ++ blits_of cs2.
Proof. unfold blits_of. apply bind_app. Qed.

Lemma blits_of_barrier image range src dst : blits_of (barrier image range src dst) = [].
Proof. reflexivity. Qed.

(** The loop records one blit per iteration, from the current offset to
    the halved one. *)
Lemma blits_of_mip_loop image n : ∀ level o,
  blits_of (mip_loop image n level o)
  = (λ i : nat,
       {| blit_srcSubresource :=
            {| layers_aspectMask := eColor; mipLevel := level + Z.of_nat i;
               layers_baseArrayLayer := 0; layers_layerCount := 1 |};
          srcOffsets1 := Nat.iter i halve_offset o;
          blit_dstSubresource :=
            {| layers_aspectMask := eColor; mipLevel := level + Z.of_nat i + 1;
               layers_baseArrayLayer := 0; layers_layerCount := 1 |};
          dstOffsets1 := Nat.iter (S i) halve_offset o |}) <$> seq 0 n.
Proof.
  induction n as [|n IH]; intros level o; [reflexivity|].
  cbn [mip_loop]. rewrite !blits_of_app, !blits_of_barrier, IH.
  cbn [app seq fmap list_fmap]. rewrite Z.add_0_r. f_equal.
  rewrite <- fmap_S_seq, <- list_fmap_compose.
  apply list_fmap_ext. intros _ i _. unfold compose.
  rewrite !Nat.iter_succ_r.
  replace (level + Z.of_nat (S i)) with (level + 1 + Z.of_nat i) by lia.
  reflexivity.
Qed.

Lemma generate_mipmaps_result_ok to_i32 drv engine self levels extent format
    final_layout g g' :
  GpuImage_generate_mipmaps_result to_i32 drv engine self levels extent format
    final_layout g = (Returned (ok tt), g') →
  g' = after_submit (generate_mipmaps_commands to_i32 self levels extent final_layout) g.
Proof.
  unfold GpuImage_generate_mipmaps_result. unfold_body.
  repeat match goal with
  | |- context [if ?c then Next () else Abort] =>
      destruct c; cbn -[submit_single_time_commands]; [|discriminate]
  end.
  destruct (filter_linear_supported drv); cbn -[submit_single_time_commands];
    [|discriminate].
  destruct (submit_single_time_commands _ _ _ _) as [[[[]|e]|] g1] eqn:Hs;
    cbn; try discriminate.
  intros [= <-]. by apply submit_single_time_commands_ok in Hs.
Qed.

(** On a device that filters the format linearly the call goes through. *)
Example generate_mipmaps_scenario :
  fst (GpuImage_generate_mipmaps_result (λ v, v) driver_all_ok
         (engine_on gpu_compute_first) image50 7 extent_17_5_1 eR8G8B8A8Srgb
         eShaderReadOnlyOptimal gpu_fresh)
  = Returned (ok tt).
Proof. vm_compute. reflexivity. Qed.

Lemma generate_mipmaps_result_runs to_i32 drv engine self levels extent format
    final_layout g :
  1 < levels → 0 < width extent → 0 < height extent → 0 < depth extent →
  mipmaps_pre engine self format final_layout →
  filter_linear_supported drv = true → submit_driver_ok drv →
  (0 < next_handle g)%nat →
  GpuImage_generate_mipmaps_result to_i32 drv engine self levels extent format
    final_layout g
  = (Returned (ok tt),
     after_submit (generate_mipmaps_commands to_i32 self levels extent final_layout) g).
Proof.
  intros Hl Hw Hh Hd (Hgpu & Hdev & Hpool & Himg & Hfmt & Hlay) Hfilter
    (Ha & Hb & He & Hf & Hs & Hwait) Hnext.
  unfold GpuImage_generate_mipmaps_result. unfold_body.
  rewrite (bool_decide_eq_true_2 _ Hgpu), Himg.
  rewrite (proj2 (Z.ltb_lt 1 levels) Hl), (proj2 (Z.ltb_lt 0 _) Hw),
    (proj2 (Z.ltb_lt 0 _) Hh), (proj2 (Z.ltb_lt 0 _) Hd).
  rewrite (bool_decide_eq_true_2 _ Hfmt), (bool_decide_eq_true_2 _ Hlay), Hfilter.
  cbn -[submit_single_time_commands].
  rewrite submit_single_time_commands_eq by done.
  rewrite Ha, Hb, He, Hf, Hs, Hwait.
  change (failed VK_SUCCESS) with false. cbn -[execute]. reflexivity.
Qed.

Lemma blit_on_barrier image image' range src dst :
  Forall (blit_on image) (barrier image' range src dst).
Proof. destruct src; repeat constructor. Qed.

Lemma blit_on_mip_loop image n : ∀ level o,
  Forall (blit_on image) (mip_loop image n level o).
Proof.
  induction n as [|n IH]; intros level o; [constructor|].
  cbn [mip_loop]. rewrite !Forall_app.
  split; [apply blit_on_barrier|]. split; [by repeat constructor|].
  split; [apply blit_on_barrier|apply IH].
Qed.

Lemma blits_of_generate_mipmaps to_i32 self levels extent final_layout cmd :
  keeps_i32 to_i32 →
  0 < width extent ≤ INT32_MAX → 0 < height extent ≤ INT32_MAX →
  0 < depth extent ≤ INT32_MAX →
  blits_of (generate_mipmaps_commands to_i32 self levels extent final_layout cmd)
  = (λ i : nat,
       {| blit_srcSubresource :=
            {| layers_aspectMask := eColor; mipLevel := 0 + Z.of_nat i;
               layers_baseArrayLayer := 0; layers_layerCount := 1 |};
          srcOffsets1 := mip_extent extent i;
          blit_dstSubresource :=
            {| layers_aspectMask := eColor; mipLevel := 0 + Z.of_nat i + 1;
               layers_baseArrayLayer := 0; layers_layerCount := 1 |};
          dstOffsets1 := mip_extent extent (S i) |})
    <$> seq 0 (Z.to_nat (levels - 1)).
Proof.
  intros Hi32 Hw Hh Hd. unfold generate_mipmaps_commands.
  rewrite !blits_of_app, !blits_of_barrier, blits_of_mip_loop.
  rewrite app_nil_r. cbn [app].
  apply list_fmap_ext. intros _ i _.
  rewrite !iter_halve_offset. cbn [off_x off_y off_z].
  rewrite !Hi32 by lia. rewrite !iter_halve by lia. reflexivity.
Qed.

(** From width 17 the levels are 17, 8, 4, 2 and then 1 for good; from
    height 5 they are 5, 2 and then 1. *)
Lemma mip_dimension_one i : mip_dimension 1 i = 1.
Proof. induction i as [|i IH]; [done|]. cbn [mip_dimension]. by rewrite IH. Qed.

Lemma mip_dimension_add v i j :
  mip_dimension v (i + j) = mip_dimension (mip_dimension v i) j.
Proof.
  induction j as [|j IH]; [by rewrite Nat.add_0_r|].
  rewrite Nat.add_succ_r. cbn [mip_dimension]. by rewrite IH.
Qed.

Lemma mip_dimension_17 i : mip_dimension 17 i = nth i [17; 8; 4; 2] 1.
Proof.
  do 4 (destruct i as [|i]; [reflexivity|]).
  change (S (S (S (S i)))) with (4 + i)%nat.
  rewrite mip_dimension_add. change (mip_dimension 17 4) with 1.
  rewrite mip_dimension_one. by destruct i.
Qed.

Lemma mip_dimension_5 i : mip_dimension 5 i = nth i [5; 2] 1.
Proof.
  do 2 (destruct i as [|i]; [reflexivity|]).
  change (S (S i)) with (2 + i)%nat.
  rewrite mip_dimension_add. change (mip_dimension 5 2) with 1.
  rewrite mip_dimension_one. by destruct i.
Qed.

(** C7, the claim at an extent beyond the signed range.  A width of
    [2 ^ 31] is a positive [u32], and level 1 of it would be [2 ^ 30] wide.
    The corners of a blit are signed 32-bit offsets: with the conversion of
    a [static_cast] the call goes through and the one blit it submits has
    the corner [- 2 ^ 31] at both levels, and whatever [to_i32] is, as long
    as it gives values of its type, the source corner is not the width and
    the destination corner is not its half. *)
Lemma generate_mipmaps_extent_beyond_i32 :
  (0 < width extent_wide ≤ UINT32_MAX ∧
   mip_dimension (width extent_wide) 1 = 1073741824) ∧
  (∃ g', GpuImage_generate_mipmaps_result wrap_i32 driver_all_ok
           (engine_on gpu_compute_first) image50 2 extent_wide eR8G8B8A8Srgb
           eShaderReadOnlyOptimal (gpu_one_image 2) = (Returned (ok tt), g') ∧
         (λ b, (off_x (srcOffsets1 b), off_x (dstOffsets1 b)))
           <$> (submitted g' ≫= blits_of)
         = [(-2147483648, -2147483648)]) ∧
  (∀ to_i32 : Z → Z, (∀ v, to_i32 v ≤ INT32_MAX) →
   ∀ self final_layout cmd,
     Forall (λ b, off_x (srcOffsets1 b) ≠ width extent_wide ∧
                  off_x (dstOffsets1 b) ≠ mip_dimension (width extent_wide) 1)
       (blits_of (generate_mipmaps_commands to_i32 self 2 extent_wide
                    final_layout cmd))).
Proof.
  split; [|split].
  - split; [split; [reflexivity|discriminate]|reflexivity].
  - eexists. split; vm_compute; reflexivity.
  - intros to_i32 Hrange self final_layout cmd.
    unfold generate_mipmaps_commands.
    rewrite !blits_of_app, !blits_of_barrier, blits_of_mip_loop.
    rewrite app_nil_r. cbn [app]. change (Z.to_nat (2 - 1)) with 1%nat.
    cbn [seq fmap list_fmap]. apply Forall_singleton.
    cbn [srcOffsets1 dstOffsets1 off_x Nat.iter nat_rect halve_offset].
    change (mip_dimension (width extent_wide) 1) with 1073741824.
    cbn [width extent_wide].
    specialize (Hrange 2147483648). unfold INT32_MAX in Hrange.
    split; [lia|]. unfold halve.
    destruct (1 <? to_i32 2147483648) eqn:E.
    + apply Z.ltb_lt in E.
      assert (to_i32 2147483648 `quot` 2 < 1073741824).
      { rewrite Z.quot_div_nonneg by lia.
        apply Z.div_lt_upper_bound; lia. }
      lia.
    + lia.
Qed.

(** C7.  On an engine and an image that pass the assertions of
    [generate_mipmaps_result], with linear filtering of the format and every
    driver call succeeding, for [levels > 1] mip levels of an extent whose
    dimensions are positive and at most [INT32_MAX], the call returns
    success and has submitted one batch.  Every blit of the batch reads and
    writes the image, and the batch holds one blit per level [i] below
    [levels - 1], from level [i] to level [i + 1]: its source corner is the
    extent of level [i] and its destination corner the extent of level
    [i + 1], each axis halved by integer division on its own with a floor of
    1, so no dimension is ever zero.  For the extent (17, 5, 1) the widths
    run 17, 8, 4, 2, 1, 1, ... and the heights 5, 2, 1, 1, ... *)
Theorem generate_mipmaps_halves_each_axis
    (to_i32 : Z → Z) (drv : Driver) (engine : Engine) (self : GpuImage)
    (levels : Z) (extent : Extent3D) (format : Format)
    (final_layout : ImageLayout) (g : Gpu) :
  keeps_i32 to_i32 →
  1 < levels →
  0 < width extent ≤ INT32_MAX → 0 < height extent ≤ INT32_MAX →
  0 < depth extent ≤ INT32_MAX →
  mipmaps_pre engine self format final_layout →
  filter_linear_supported drv = true → submit_driver_ok drv →
  (0 < next_handle g)%nat →
  ∃ g' batch,
    GpuImage_generate_mipmaps_result to_i32 drv engine self levels extent format
      final_layout g = (Returned (ok tt), g') ∧
    submitted g' = submitted g ++ [batch] ∧
    Forall (blit_on (image self)) batch ∧
    length (blits_of batch) = Z.to_nat (levels - 1) ∧
    (∀ i, (i < Z.to_nat (levels - 1))%nat →
       ∃ b, blits_of batch !! i = Some b ∧
         mipLevel (blit_srcSubresource b) = Z.of_nat i ∧
         mipLevel (blit_dstSubresource b) = Z.of_nat i + 1 ∧
         srcOffsets1 b = mip_extent extent i ∧
         dstOffsets1 b = mip_extent extent (S i) ∧
         1 ≤ off_x (dstOffsets1 b) ∧ 1 ≤ off_y (dstOffsets1 b) ∧
         1 ≤ off_z (dstOffsets1 b)) ∧
    (extent = extent_17_5_1 →
     ∀ (i : nat) b, blits_of batch !! i = Some b →
       off_x (srcOffsets1 b) = nth i [17; 8; 4; 2] 1 ∧
       off_x (dstOffsets1 b) = nth (S i) [17; 8; 4; 2] 1 ∧
       off_y (srcOffsets1 b) = nth i [5; 2] 1 ∧
       off_y (dstOffsets1 b) = nth (S i) [5; 2] 1).
Proof.
  intros Hi32 Hlevels Hw Hh Hd Hpre Hfilter Hdrv Hnext.
  eexists _, _. split.
  { apply generate_mipmaps_result_runs; try done; lia. }
  split; [apply after_submit_submitted|].
  rewrite blits_of_generate_mipmaps by assumption.
  split; [|split; [|split]].
  - unfold generate_mipmaps_commands. rewrite !Forall_app.
    split; [apply blit_on_barrier|].
    split; [apply blit_on_mip_loop|apply blit_on_barrier].
  - by rewrite length_fmap, length_seq.
  - intros i Hi. eexists. split.
    { rewrite list_lookup_fmap, lookup_seq_lt by done. reflexivity. }
    cbn. repeat split; try lia; apply Z.le_max_l.
  - intros -> i b Hb. rewrite list_lookup_fmap in Hb.
    destruct (seq 0 (Z.to_nat (levels - 1)) !! i) as [k|] eqn:Hk; [|discriminate].
    apply lookup_seq in Hk as [-> _]. cbn in Hb. injection Hb as <-.
    cbn [srcOffsets1 dstOffsets1 mip_extent off_x off_y extent_17_5_1 width height].
    change (Z.max 1 (mip_dimension 17 i / 2)) with (mip_dimension 17 (S i)).
    change (Z.max 1 (mip_dimension 5 i / 2)) with (mip_dimension 5 (S i)).
    by rewrite !mip_dimension_17, !mip_dimension_5.
Qed.

(** C7, witness: the extent (17, 5, 1) with seven levels on the image of
    handle 50, the identity as conversion and every call succeeding. *)
Lemma generate_mipmaps_halves_each_axis_witness :
  ∃ g' batch,
    GpuImage_generate_mipmaps_result (λ v, v) driver_all_ok
      (engine_on gpu_compute_first) image50 7 extent_17_5_1 eR8G8B8A8Srgb
      eShaderReadOnlyOptimal (gpu_one_image 7) = (Returned (ok tt), g') ∧
    submitted g' = submitted (gpu_one_image 7) ++ [batch] ∧
    Forall (blit_on (image image50)) batch ∧
    length (blits_of batch) = Z.to_nat (7 - 1) ∧
    (∀ i, (i < Z.to_nat (7 - 1))%nat →
       ∃ b, blits_of batch !! i = Some b ∧
         mipLevel (blit_srcSubresource b) = Z.of_nat i ∧
         mipLevel (blit_dstSubresource b) = Z.of_nat i + 1 ∧
         srcOffsets1 b = mip_extent extent_17_5_1 i ∧
         dstOffsets1 b = mip_extent extent_17_5_1 (S i) ∧
         1 ≤ off_x (dstOffsets1 b) ∧ 1 ≤ off_y (dstOffsets1 b) ∧
         1 ≤ off_z (dstOffsets1 b)) ∧
    (extent_17_5_1 = extent_17_5_1 →
     ∀ (i : nat) b, blits_of batch !! i = Some b →
       off_x (srcOffsets1 b) = nth i [17; 8; 4; 2] 1 ∧
       off_x (dstOffsets1 b) = nth (S i) [17; 8; 4; 2] 1 ∧
       off_y (srcOffsets1 b) = nth i [5; 2] 1 ∧
       off_y (dstOffsets1 b) = nth (S i) [5; 2] 1).
Proof.
  apply (generate_mipmaps_halves_each_axis (λ v, v) driver_all_ok
           (engine_on gpu_compute_first) image50 7 extent_17_5_1 eR8G8B8A8Srgb
           eShaderReadOnlyOptimal (gpu_one_image 7)).
  - intros v _. reflexivity.
  - lia.
  - split; [reflexivity|discriminate].
  - split; [reflexivity|discriminate].
  - split; [reflexivity|discriminate].
  - repeat split; try done; cbn; eauto.
  - reflexivity.
  - repeat split.
  - cbn. lia.
Defined.

(** ** Image creation *)

(** C10.  When [GpuImage::create_result] is asked for an initial layout
    other than undefined and for more than one mip level and returns
    success, the one batch it submitted holds a single image barrier, on
    the colour aspect, mip level 0 (base level 0, level count 1) and array
    layer 0 of the new image, to the layout asked for; the image view it
    created spans all [mip_levels] levels; and afterwards level 0 is in the
    layout asked for while the levels 1 to [mip_levels - 1] are still in
    the undefined layout. *)
Theorem create_result_transitions_level_zero_only
    (drv : Driver) (engine : Engine) (config : ImageConfig) (g g' : Gpu)
    (img : GpuImage) :
  image_layout config ≠ eUndefined →
  1 < mip_levels config →
  GpuImage_create_result drv engine config g = (Returned (ok img), g') →
  (∃ batch, submitted g' = submitted g ++ [batch] ∧
     barriers_of batch
     = [initial_layout_barrier (image img) (image_layout config)]) ∧
  (∃ v, views g' !! view img = Some v ∧ view_image v = image img ∧
     view_subresourceRange v
     = {| aspectMask := aspect_flags config; baseMipLevel := 0;
          levelCount := mip_levels config; baseArrayLayer := 0;
          layerCount := 1 |}) ∧
  (∃ info, images g' !! image img = Some info ∧
     mipLevels info = mip_levels config ∧
     layout_of info 0 0 = image_layout config ∧
     ∀ level : nat, (1 ≤ level)%nat → Z.of_nat level < mip_levels config →
       layout_of info level 0 = eUndefined).
Proof.
  intros Hlayout Hlevels. unfold GpuImage_create_result, fresh_handle. unfold_body.
  repeat match goal with
  | |- context [if ?c then Next () else Abort] =>
      lazymatch c with
      | context [next_handle] => fail
      | _ => destruct c eqn:?
      end;
      cbn -[StagingGpuImage_create submit_single_time_commands];
      [|discriminate]
  end.
  destruct (StagingGpuImage_create _ _ _ _) as [[[s|e]|] g1] eqn:Hs;
    cbn -[submit_single_time_commands]; [| discriminate | discriminate].
  apply StagingGpuImage_create_ok in Hs as [-> (type & ->)].
  cbn -[submit_single_time_commands].
  destruct (failed (createImageView drv)); cbn -[submit_single_time_commands];
    [discriminate|].
  rewrite bool_decide_eq_true_2 by done.
  destruct (submit_single_time_commands _ _ _ _) as [[[[]|e]|] g3] eqn:Hsub;
    cbn; try discriminate.
  apply submit_single_time_commands_ok in Hsub. subst g3.
  destruct (not_null (next_handle g)); cbn -[after_submit]; [|discriminate].
  intros [= <- <-]. cbn [image view].
  split; [|split].
  - rewrite after_submit_submitted. eexists. split; reflexivity.
  - rewrite after_submit_views. cbn. rewrite lookup_insert_eq.
    eexists. split; [reflexivity|]. done.
  - rewrite after_submit_images. cbn. rewrite lookup_alter_eq, lookup_insert_eq.
    cbn. eexists. split; [reflexivity|]. cbn. split; [done|].
    unfold layout_of. cbn.
    change (subresources _) with [(0%nat, 0%nat)]. cbn [foldr]. split.
    + by rewrite lookup_insert_eq.
    + intros level Hl _. rewrite lookup_insert_ne; [done|].
      intros [= Heq]. lia.
Qed.

(** C10, witness: a texture with four mip levels asked for in the
    shader-read layout, on a fresh device. *)
Lemma create_result_transitions_level_zero_only_witness :
  let r := GpuImage_create_result driver_all_ok engine_up texture_config gpu_fresh in
  ∃ img, fst r = Returned (ok img) ∧
    ∃ info, images (snd r) !! image img = Some info ∧
      layout_of info 0 0 = eShaderReadOnlyOptimal ∧
      layout_of info 1 0 = eUndefined ∧ layout_of info 2 0 = eUndefined ∧
      layout_of info 3 0 = eUndefined.
Proof.
  cbv zeta.
  assert (Hrun : GpuImage_create_result driver_all_ok engine_up texture_config
                   gpu_fresh
                 = (Returned (ok {| image_allocation := 40%nat; image := 40%nat;
                                    view := 41%nat |}),
                    snd (GpuImage_create_result driver_all_ok engine_up
                           texture_config gpu_fresh)))
    by (vm_compute; reflexivity).
  assert (Hlayout : image_layout texture_config ≠ eUndefined) by discriminate.
  assert (Hlevels : 1 < mip_levels texture_config) by reflexivity.
  destruct (create_result_transitions_level_zero_only driver_all_ok engine_up
              texture_config gpu_fresh _ _ Hlayout Hlevels Hrun)
    as (_ & _ & info & Hinfo & _ & H0 & Hrest).
  eexists. split; [rewrite Hrun; reflexivity|].
  exists info. split; [exact Hinfo|]. split; [exact H0|].
  split; [|split]; apply Hrest; cbn; lia.
Defined.

(** ** Cube maps *)

Lemma apply_barriers_lookup bs : ∀ (imgs : gmap Handle ImageInfo) h info,
  imgs !! h = Some info →
  ∃ info', apply_barriers bs imgs !! h = Some info' ∧
    imageType info' = imageType info ∧ info_extent info' = info_extent info ∧
    mipLevels info' = mipLevels info ∧ arrayLayers info' = arrayLayers info ∧
    cube_compatible info' = cube_compatible info.
Proof.
  unfold apply_barriers. induction bs as [|b bs IH]; intros imgs h info Hh.
  - exists info. done.
  - cbn [foldl].
    destruct (decide (barrier_image b = h)) as [->|Hne].
    + destruct (IH (alter (transition b) h imgs) h (transition b info))
        as (info' & Hl & Hrest); [by rewrite lookup_alter_eq, Hh|].
      exists info'. done.
    + destruct (IH (alter (transition b) (barrier_image b) imgs) h info)
        as (info' & Hl & Hrest); [by rewrite lookup_alter_ne|].
      exists info'. done.
Qed.

Lemma image_copies_of_app cs1 cs2 :
  image_copies_of (cs1 ++ cs2) = image_copies_of cs1 ++ image_copies_of cs2.
Proof. unfold image_copies_of. apply bind_app. Qed.




(** * Further properties *)

(** ** The recording flag of the frame loop *)

Lemma begin_frame_state drv engine w :
  let r := begin_frame drv engine w in
  m_current_frame_index (snd r) = m_current_frame_index w ∧
  m_swapchain (snd r) = m_swapchain w ∧
  m_command_buffers (snd r) = m_command_buffers w ∧
  m_frame_finished_fences (snd r) = m_frame_finished_fences w ∧
  m_image_available_semaphores (snd r) = m_image_available_semaphores w ∧
  m_ready_to_present_semaphores (snd r) = m_ready_to_present_semaphores w ∧
  (m_recording (snd r) = true ↔
     m_recording w = true ∨ ∃ cmd, fst r = Returned (ok cmd)).
Proof.
  cbv zeta. unfold begin_frame. unfold_body.
  destruct (m_recording w) eqn:Hrec; cbn.
  { repeat split; try done. all: by left. }
  assert (Hno : ∀ e : Err, ¬ (false = true ∨
            ∃ cmd : Handle, Returned (T := Handle) (err e) = Returned (ok cmd))).
  { intros e [?|[? ?]]; discriminate. }
  assert (Hfatal : ¬ (false = true ∨
            ∃ cmd : Handle, @Fatal Handle = Returned (ok cmd))).
  { intros [?|[? ?]]; discriminate. }
  destruct (not_null (current_cmd w)); cbn;
    [|rewrite Hrec; repeat split; try done; by intros ?%Hfatal].
  destruct (not_null (is_frame_finished w)); cbn;
    [|rewrite Hrec; repeat split; try done; by intros ?%Hfatal].
  destruct (not_null (is_image_available w)); cbn;
    [|rewrite Hrec; repeat split; try done; by intros ?%Hfatal].
  destruct (not_null (device engine)); cbn;
    [|rewrite Hrec; repeat split; try done; by intros ?%Hfatal].
  destruct (failed (waitForFences drv)); cbn;
    [rewrite Hrec; repeat split; try done; by intros ?%Hno|].
  destruct (failed (resetFences drv)); cbn;
    [rewrite Hrec; repeat split; try done; by intros ?%Hno|].
  destruct (failed (fst (acquireNextImageKHR drv))); cbn;
    [rewrite Hrec; repeat split; try done; by intros ?%Hno|].
  destruct (failed (CommandBuffer_begin drv)); cbn;
    [rewrite Hrec; repeat split; try done; by intros ?%Hno|].
  repeat split; try done. intros _. right. eauto.
Qed.

(** X1.  [begin_frame] never moves the frame slot: whatever the driver
    answers and however the call ends, the slot index, the swapchain and the
    per-slot objects of the window are the ones it started with.  And it
    leaves the window recording exactly when it returns a command buffer:
    a [begin_frame] that fails on a window that was not recording leaves it
    not recording. *)
Theorem begin_frame_keeps_slot
    (drv : Driver) (engine : Engine) (w : Window) :
  let r := begin_frame drv engine w in
  m_current_frame_index (snd r) = m_current_frame_index w ∧
  m_swapchain (snd r) = m_swapchain w ∧
  m_command_buffers (snd r) = m_command_buffers w ∧
  m_frame_finished_fences (snd r) = m_frame_finished_fences w ∧
  m_image_available_semaphores (snd r) = m_image_available_semaphores w ∧
  m_ready_to_present_semaphores (snd r) = m_ready_to_present_semaphores w ∧
  (m_recording w = false →
     (m_recording (snd r) = true ↔ ∃ cmd, fst r = Returned (ok cmd))).
Proof.
  cbv zeta.
  destruct (begin_frame_state drv engine w) as (H1 & H2 & H3 & H4 & H5 & H6 & H7).
  repeat split; try done.
  - intros Hr. apply H7 in Hr as [Hr|Hr]; [congruence|done].
  - intros Hr. apply H7. by right.
Qed.

(** X2.  A frame that has begun must be ended before the next one begins:
    after a [begin_frame] that returned a command buffer, a second
    [begin_frame] ends in the fatal assertion on the recording flag,
    whatever the driver would answer. *)
Theorem begin_frame_twice_is_fatal
    (drv drv' : Driver) (engine engine' : Engine) (w w' : Window) (cmd : Handle) :
  begin_frame drv engine w = (Returned (ok cmd), w') →
  begin_frame drv' engine' w' = (Fatal, w').
Proof.
  intros Hbegin.
  destruct (begin_frame_state drv engine w) as (_ & _ & _ & _ & _ & _ & Hrec).
  rewrite Hbegin in Hrec. cbn in Hrec.
  assert (Hw' : m_recording w' = true).
  { destruct (m_recording w) eqn:E; apply Hrec; [by left | right; eauto]. }
  unfold begin_frame. unfold_body. rewrite Hw'. reflexivity.
Qed.

(** X2, witness: the second [begin_frame] on the two-slot window. *)
Lemma begin_frame_twice_is_fatal_witness :
  ∃ w', begin_frame driver_all_ok engine_up (window2 0 false)
          = (Returned (ok 11%nat), w') ∧
        begin_frame driver_all_ok engine_up w' = (Fatal, w').
Proof.
  eexists. split; [vm_compute; reflexivity|].
  apply (begin_frame_twice_is_fatal driver_all_ok driver_all_ok engine_up
           engine_up (window2 0 false) _ 11%nat).
  vm_compute. reflexivity.
Defined.

Ltac finish_state :=
  repeat split; try done; try congruence;
  try (intros [?|?]; discriminate).

Lemma end_frame_state N drv engine w :
  let r := end_frame N drv engine w in
  m_swapchain (snd r) = m_swapchain w ∧
  m_command_buffers (snd r) = m_command_buffers w ∧
  m_frame_finished_fences (snd r) = m_frame_finished_fences w ∧
  m_image_available_semaphores (snd r) = m_image_available_semaphores w ∧
  m_ready_to_present_semaphores (snd r) = m_ready_to_present_semaphores w ∧
  (fst r = Returned (ok tt) →
     m_current_frame_index (snd r) = (m_current_frame_index w + 1) `rem` N) ∧
  (fst r ≠ Returned (ok tt) →
     m_current_frame_index (snd r) = m_current_frame_index w) ∧
  (fst r = Fatal ∨ fst r = Returned (err CouldNotEndVkCommandBuffer) →
     snd r = w) ∧
  (∀ res, fst r = Returned res → res ≠ err CouldNotEndVkCommandBuffer →
     m_recording w = true ∧ m_recording (snd r) = false).
Proof.
  cbv zeta. unfold end_frame. unfold_body.
  destruct (m_recording w) eqn:Hrec; cbn; [|finish_state].
  destruct (not_null (m_swapchain w)); cbn; [|finish_state].
  destruct (not_null (current_cmd w)); cbn; [|finish_state].
  destruct (not_null (is_image_available w)); cbn; [|finish_state].
  destruct (not_null (is_ready_to_present w)); cbn; [|finish_state].
  destruct (not_null (device engine)); cbn; [|finish_state].
  destruct (failed (CommandBuffer_end drv)); cbn; [finish_state|].
  destruct (failed (Queue_submit drv)); cbn; [finish_state|].
  destruct (bool_decide (presentKHR drv = VK_ERROR_OUT_OF_DATE_KHR)); cbn;
    [finish_state|].
  destruct (failed (presentKHR drv)); cbn; finish_state.
Qed.

(** X3.  How [end_frame] leaves the recording flag.  When the call returns
    with any result other than [CouldNotEndVkCommandBuffer], the window was
    recording and is not recording afterwards, also when the submission or
    the presentation failed.  When ending the command buffer fails, the
    window is left exactly as it was, still recording, so that the next
    [begin_frame] ends in the fatal assertion on the recording flag. *)
Theorem end_frame_recording_flag
    (N : Z) (drv drv' : Driver) (engine engine' : Engine) (w w' : Window)
    (res : Result unit) :
  end_frame N drv engine w = (Returned res, w') →
  (res ≠ err CouldNotEndVkCommandBuffer →
     m_recording w = true ∧ m_recording w' = false ∧
     fst (end_frame N drv' engine' w') = Fatal) ∧
  (res = err CouldNotEndVkCommandBuffer →
     w' = w ∧ fst (begin_frame drv' engine' w') = Fatal).
Proof.
  intros Hend.
  destruct (end_frame_state N drv engine w)
    as (_ & _ & _ & _ & _ & _ & _ & Hsame & Hclear).
  rewrite Hend in Hsame, Hclear. cbn in Hsame, Hclear.
  split.
  - intros Hres. destruct (Hclear res eq_refl Hres) as [Hrec Hrec'].
    split; [done|]. split; [done|].
    unfold end_frame. unfold_body. rewrite Hrec'. reflexivity.
  - intros ->. rewrite Hsame by (by right). split; [done|].
    assert (Hrec : m_recording w = true).
    { revert Hend. unfold end_frame. unfold_body.
      destruct (m_recording w); [done|discriminate]. }
    unfold begin_frame. unfold_body. rewrite Hrec. reflexivity.
Qed.

(** X3, witness: a submission that fails on the recording two-slot window. *)
Lemma end_frame_recording_flag_witness :
  m_recording (window2 1 true) = true ∧
  m_recording (window2 1 false) = false ∧
  fst (end_frame 2 (frame_driver VK_SUCCESS VK_SUCCESS VK_SUCCESS VK_SUCCESS
                      VK_SUCCESS VK_ERROR_DEVICE_LOST VK_SUCCESS)
         engine_up (window2 1 false)) = Fatal.
Proof.
  apply (proj1 (end_frame_recording_flag 2
           (frame_driver VK_SUCCESS VK_SUCCESS VK_SUCCESS VK_SUCCESS
              VK_SUCCESS VK_ERROR_DEVICE_LOST VK_SUCCESS)
           (frame_driver VK_SUCCESS VK_SUCCESS VK_SUCCESS VK_SUCCESS
              VK_SUCCESS VK_ERROR_DEVICE_LOST VK_SUCCESS)
           engine_up engine_up (window2 1 true) (window2 1 false)
           (err CouldNotSubmitVkCommandBuffer) eq_refl)).
  discriminate.
Defined.

(** X4.  The frame loop keeps the window well formed.  On a window whose
    slots all have their objects and whose slot index is below the number
    of frames in flight, [begin_frame] and [end_frame] leave a window of
    that kind, whatever the driver answers and however the call ends; in
    particular the slot index never leaves the range of the per-slot
    arrays. *)
Theorem frame_calls_keep_window_ok
    (N : Z) (drv : Driver) (engine : Engine) (w : Window) :
  window_ok N w →
  window_ok N (snd (begin_frame drv engine w)) ∧
  window_ok N (snd (end_frame N drv engine w)).
Proof.
  intros Hok. pose proof (ok_index N w Hok) as Hidx.
  destruct Hok as [H1 H2 H3 H4 H5 H6 H7 H8 H9 H10].
  split.
  - destruct (begin_frame_state drv engine w) as (E1 & E2 & E3 & E4 & E5 & E6 & _).
    cbv zeta in *. split; rewrite ?E1, ?E2, ?E3, ?E4, ?E5, ?E6; assumption.
  - destruct (end_frame_state N drv engine w)
      as (E2 & E3 & E4 & E5 & E6 & Hadv & Hkeep & _).
    cbv zeta in *. split; rewrite ?E2, ?E3, ?E4, ?E5, ?E6; try assumption.
    destruct (fst (end_frame N drv engine w)) as [[[]|e]|].
    + rewrite (Hadv eq_refl). rewrite Z.rem_mod_nonneg by lia.
      apply Z.mod_pos_bound. lia.
    + by rewrite Hkeep.
    + by rewrite Hkeep.
Qed.

(** X4, witness: the two-slot window at its last slot. *)
Lemma frame_calls_keep_window_ok_witness :
  window_ok 2 (snd (end_frame 2 driver_all_ok engine_up (window2 1 true))).
Proof.
  apply (frame_calls_keep_window_ok 2 driver_all_ok engine_up (window2 1 true)).
  apply window2_ok. lia.
Defined.

(** ** Buffer writes *)






(** X6.  A RandomAccess buffer holds what was written to it.  A write of
    [bytes] at an offset that keeps it inside the buffer, with the mapped
    copy succeeding, returns success; reading the written range back gives
    [bytes], the buffer keeps its length, and every byte outside the range
    is the byte that was there. *)
Theorem random_access_write_reads_back
    (err_of_ok : option Err) (drv : Driver) (engine : Engine) (self : GpuBuffer)
    (bytes old : list Byte.byte) (offset : Z) (g : Gpu) :
  write_pre engine self (Z.of_nat (length bytes)) →
  memory_type self = RandomAccess →
  vmaCopyMemoryToAllocation drv = VK_SUCCESS →
  buffers g !! allocation self = Some old →
  0 ≤ offset → offset + Z.of_nat (length bytes) ≤ Z.of_nat (length old) →
  ∃ g', GpuBuffer_write_result err_of_ok drv engine self (Some bytes)
          (Z.of_nat (length bytes)) offset g = (Returned (ok tt), g') ∧
    let new := bytes_of g' (allocation self) in
    read_bytes offset (Z.of_nat (length bytes)) new = bytes ∧
    length new = length old ∧
    ∀ i : nat, (i < Z.to_nat offset ∨ Z.to_nat offset + length bytes ≤ i)%nat →
      new !! i = old !! i.
Proof.
  intros Hpre Htier Hcopy Hold Hoff Hfit.
  rewrite write_result_host_visible; [| done | by rewrite Htier | by rewrite Htier].
  rewrite Hcopy. change (failed VK_SUCCESS) with false. cbv iota.
  eexists. split; [reflexivity|]. cbv zeta.
  unfold bytes_of, copy_memory_to_allocation. cbn.
  rewrite lookup_alter_eq, Hold. cbn.
  rewrite Nat2Z.id, take_ge by done.
  split; [by apply read_write_bytes|].
  split; [apply write_bytes_length|].
  intros i Hi. by apply write_bytes_outside.
Qed.

(** X6, witness: two bytes written at offset 3 of the 8-byte buffer. *)
Lemma random_access_write_reads_back_witness :
  ∃ g', GpuBuffer_write_result None
          (resource_driver VK_SUCCESS VK_SUCCESS VK_SUCCESS) engine_up
          (buffer20 RandomAccess) (Some [Byte.xff; Byte.x01]) 2 3
          (gpu_one_buffer 8) = (Returned (ok tt), g') ∧
        read_bytes 3 2 (bytes_of g' 20%nat) = [Byte.xff; Byte.x01].
Proof.
  destruct (random_access_write_reads_back None
              (resource_driver VK_SUCCESS VK_SUCCESS VK_SUCCESS) engine_up
              (buffer20 RandomAccess) [Byte.xff; Byte.x01]
              (replicate 8 Byte.x00) 3 (gpu_one_buffer 8))
    as (g' & Hrun & Hread & _).
  - repeat split; try reflexivity. discriminate.
  - reflexivity.
  - reflexivity.
  - reflexivity.
  - lia.
  - cbn. lia.
  - exists g'. split; [exact Hrun | exact Hread].
Defined.

(** X7.  A DeviceLocal buffer written at offset 0 holds what was written.
    With every driver call succeeding, the write of [bytes] at offset 0
    into a live buffer that is long enough returns success; the first
    [length bytes] bytes of the buffer are [bytes], the bytes behind them
    are the ones that were there, and the staging buffer is released. *)
Theorem device_local_write_at_zero_reads_back
    (err_of_ok : option Err) (drv : Driver) (engine : Engine) (self : GpuBuffer)
    (bytes old : list Byte.byte) (g : Gpu) :
  write_pre engine self (Z.of_nat (length bytes)) →
  memory_type self = DeviceLocal →
  not_null (device engine) = true →
  not_null (single_time_command_pool engine) = true →
  resource_driver_ok drv → gpu_wf g →
  buffers g !! buffer self = Some old →
  (length bytes ≤ length old)%nat →
  ∃ g', GpuBuffer_write_result err_of_ok drv engine self (Some bytes)
          (Z.of_nat (length bytes)) 0 g = (Returned (ok tt), g') ∧
    let new := bytes_of g' (buffer self) in
    read_bytes 0 (Z.of_nat (length bytes)) new = bytes ∧
    length new = length old ∧
    (∀ i : nat, (length bytes ≤ i)%nat → new !! i = old !! i) ∧
    dom (buffers g') = dom (buffers g).
Proof.
  intros Hpre Htier Hdev Hpool (Hc & Hm & Ha & Hb & He & Hf & Hs & Hw)
    [Hnext Hwf] Hold Hfit.
  assert (Hne : next_handle g ≠ buffer self).
  { intros Heq. assert (Hlt : (buffer self < next_handle g)%nat)
      by (apply Hwf; eauto). lia. }
  rewrite write_result_device_local by assumption.
  rewrite Hc, Hm. change (failed VK_SUCCESS) with false. cbv iota zeta.
  rewrite submit_single_time_commands_eq; [| done | done | cbn; lia].
  rewrite Ha, Hb, He, Hf, Hs, Hw. change (failed VK_SUCCESS) with false.
  cbv iota zeta.
  eexists. split; [reflexivity|].
  unfold device_local_copy, execute, record, bytes_of. cbn.
  rewrite lookup_alter_eq, lookup_insert_eq. cbn.
  unfold copy_region. cbn.
  rewrite lookup_alter_eq, lookup_insert_eq. cbn.
  rewrite lookup_alter_ne, lookup_insert_ne, Hold by done.
  rewrite !Nat2Z.id, take_ge, write_bytes_fill by done.
  rewrite bool_decide_eq_true_2 by lia.
  cbn. rewrite read_bytes_all.
  rewrite lookup_delete_ne, lookup_insert_eq by done. cbn.
  split; [apply read_write_bytes; lia|].
  split; [apply write_bytes_length|].
  split.
  - intros i Hi. apply write_bytes_outside. right. cbn. lia.
  - rewrite dom_delete_L, dom_insert_L, dom_alter_L, dom_insert_L.
    assert (next_handle g ∉ dom (buffers g)).
    { intros Hin. apply elem_of_dom in Hin. apply Hwf in Hin. lia. }
    apply elem_of_dom_2 in Hold. set_solver.
Qed.

(** X7, witness: two bytes written at offset 0 of the 8-byte buffer. *)
Lemma device_local_write_at_zero_reads_back_witness :
  ∃ g', GpuBuffer_write_result None
          (resource_driver VK_SUCCESS VK_SUCCESS VK_SUCCESS) engine_up
          (buffer20 DeviceLocal) (Some [Byte.xff; Byte.x01]) 2 0
          (gpu_one_buffer 8) = (Returned (ok tt), g') ∧
        read_bytes 0 2 (bytes_of g' 20%nat) = [Byte.xff; Byte.x01].
Proof.
  destruct (device_local_write_at_zero_reads_back None
              (resource_driver VK_SUCCESS VK_SUCCESS VK_SUCCESS) engine_up
              (buffer20 DeviceLocal) [Byte.xff; Byte.x01]
              (replicate 8 Byte.x00) (gpu_one_buffer 8))
    as (g' & Hrun & Hread & _).
  - repeat split; try reflexivity. discriminate.
  - reflexivity.
  - reflexivity.
  - reflexivity.
  - repeat split; reflexivity.
  - split; [cbn; lia|]. intros h [bs Hh]. cbn in Hh.
    apply lookup_singleton_Some in Hh as [<- _]. cbn. lia.
  - reflexivity.
  - cbn. lia.
  - exists g'. split; [exact Hrun | exact Hread].
Defined.

(** ** Single-time command buffers *)

Lemma begin_single_time_commands_ok drv engine g cmd g1 :
  begin_single_time_commands drv engine g = (Returned (ok cmd), g1) →
  cmd = next_handle g ∧
  g1 = set_command_buffers <[cmd := []]> (bump g).
Proof.
  unfold begin_single_time_commands, fresh_handle. unfold_body.
  destruct (not_null (device engine)); cbn; [|discriminate].
  destruct (not_null (single_time_command_pool engine)); cbn; [|discriminate].
  destruct (failed (allocateCommandBuffers drv)); cbn; [discriminate|].
  destruct (failed (CommandBuffer_begin drv)); cbn; [discriminate|].
  destruct (not_null (next_handle g)); cbn; [|discriminate].
  intros [= <- <-]. done.
Qed.

Lemma end_single_time_commands_eq drv engine cmd g :
  not_null (device engine) = true →
  not_null (single_time_command_pool engine) = true →
  not_null cmd = true →
  end_single_time_commands drv engine cmd g =
    if failed (CommandBuffer_end drv)
    then (Returned (err CouldNotEndVkCommandBuffer), g)
    else if failed (createFence drv)
    then (Returned (err CouldNotCreateVkFence), g)
    else if failed (Queue_submit drv)
    then (Returned (err CouldNotSubmitVkCommandBuffer), g)
    else if failed (waitForFences drv)
    then (Returned (err CouldNotWaitForVkFence), execute cmd g)
    else (Returned (ok tt), set_command_buffers (delete cmd) (execute cmd g)).
Proof.
  intros Hdev Hpool Hcmd. unfold end_single_time_commands. unfold_body.
  rewrite Hdev, Hpool, Hcmd. cbn -[execute].
  destruct (failed (CommandBuffer_end drv)); cbn -[execute]; [done|].
  destruct (failed (createFence drv)); cbn -[execute]; [done|].
  destruct (failed (Queue_submit drv)); cbn -[execute]; [done|].
  destruct (failed (waitForFences drv)); cbn -[execute]; done.
Qed.

Lemma execute_command_buffers cmd g :
  command_buffers (execute cmd g) = command_buffers g.
Proof.
  unfold execute. cbn. generalize (default [] (command_buffers g !! cmd)).
  intros batch. revert g.
  induction batch as [|c batch IH]; intros g; cbn; [done|].
  rewrite IH. destruct c as [bs|src dst rs| | |]; cbn; try done.
  - revert g. induction bs as [|b bs IHb]; intros g; cbn; [done|]. by rewrite IHb.
  - revert g. induction rs as [|r rs IHr]; intros g; cbn; [done|]. by rewrite IHr.
Qed.

Lemma execute_submitted cmd g :
  submitted (execute cmd g)
  = submitted g ++ [default [] (command_buffers g !! cmd)].
Proof. unfold execute. cbn. by rewrite exec_all_submitted. Qed.

(** X8.  [end_single_time_commands] frees the command buffer on success
    only.  On an engine and a command buffer that pass its assertions the
    call returns success exactly when ending the recording, creating the
    fence, the submission and the fence wait all succeed, and then the
    command buffer is no longer allocated and what it had recorded has been
    handed to the queue once.  On every error return the command buffer is
    still allocated; when it is the fence wait that failed, its commands
    have been handed to the queue all the same. *)
Theorem end_single_time_commands_frees_on_success_only
    (drv : Driver) (engine : Engine) (cmd : Handle) (g : Gpu)
    (recorded : list Cmd) :
  not_null (device engine) = true →
  not_null (single_time_command_pool engine) = true →
  not_null cmd = true →
  command_buffers g !! cmd = Some recorded →
  ∃ res g', end_single_time_commands drv engine cmd g = (Returned res, g') ∧
    (res = ok tt ↔
       CommandBuffer_end drv = VK_SUCCESS ∧ createFence drv = VK_SUCCESS ∧
       Queue_submit drv = VK_SUCCESS ∧ waitForFences drv = VK_SUCCESS) ∧
    (res = ok tt →
       command_buffers g' !! cmd = None ∧
       submitted g' = submitted g ++ [recorded]) ∧
    (res ≠ ok tt → command_buffers g' !! cmd = Some recorded) ∧
    (res = err CouldNotWaitForVkFence →
       submitted g' = submitted g ++ [recorded]) ∧
    (res ≠ ok tt → res ≠ err CouldNotWaitForVkFence →
       submitted g' = submitted g).
Proof.
  intros Hdev Hpool Hcmd Hrec.
  rewrite end_single_time_commands_eq by assumption.
  destruct (failed (CommandBuffer_end drv)) eqn:He.
  { apply failed_true in He. eexists _, _. split; [reflexivity|].
    repeat split; try done. by intros (? & _). }
  destruct (failed (createFence drv)) eqn:Hf.
  { apply failed_true in Hf. eexists _, _. split; [reflexivity|].
    repeat split; try done. by intros (_ & ? & _). }
  destruct (failed (Queue_submit drv)) eqn:Hs.
  { apply failed_true in Hs. eexists _, _. split; [reflexivity|].
    repeat split; try done. by intros (_ & _ & ? & _). }
  destruct (failed (waitForFences drv)) eqn:Hw.
  { apply failed_true in Hw. eexists _, _. split; [reflexivity|].
    repeat split; try done.
    - by intros (_ & _ & _ & ?).
    - intros _. by rewrite execute_command_buffers.
    - intros _. by rewrite execute_submitted, Hrec. }
  apply failed_false in He, Hf, Hs, Hw.
  eexists _, _. split; [reflexivity|].
  repeat split; try done.
  - cbn. by rewrite lookup_delete_eq.
  - cbn -[execute]. by rewrite execute_submitted, Hrec.
Qed.

(** X8, witness: a fence wait that fails after the submission. *)
Lemma end_single_time_commands_frees_on_success_only_witness :
  let g := set_command_buffers <[60%nat := [copyBuffer 20%nat 20%nat []]]>
             (gpu_one_buffer 8) in
  let drv := frame_driver VK_ERROR_DEVICE_LOST VK_SUCCESS VK_SUCCESS VK_SUCCESS
               VK_SUCCESS VK_SUCCESS VK_SUCCESS in
  ∃ res g', end_single_time_commands drv engine_up 60%nat g = (Returned res, g') ∧
    (res ≠ ok tt → command_buffers g' !! 60%nat
                   = Some [copyBuffer 20%nat 20%nat []]).
Proof.
  cbv zeta.
  destruct (end_single_time_commands_frees_on_success_only
              (frame_driver VK_ERROR_DEVICE_LOST VK_SUCCESS VK_SUCCESS VK_SUCCESS
                 VK_SUCCESS VK_SUCCESS VK_SUCCESS)
              engine_up 60%nat
              (set_command_buffers <[60%nat := [copyBuffer 20%nat 20%nat []]]>
                 (gpu_one_buffer 8))
              [copyBuffer 20%nat 20%nat []])
    as (res & g' & Hrun & _ & _ & Hkept & _).
  - reflexivity.
  - reflexivity.
  - reflexivity.
  - reflexivity.
  - exists res, g'. split; [exact Hrun | exact Hkept].
Defined.

(** X9.  A single-time command buffer from begin to end.  When
    [begin_single_time_commands] returns a command buffer, commands are
    recorded into it and [end_single_time_commands] returns success, the
    queue has been handed exactly the recorded commands, in the order of
    recording, as one batch, and the command buffers allocated afterwards
    are the ones allocated before: the transient buffer is gone. *)
Theorem single_time_commands_run_once
    (drv drv' : Driver) (engine : Engine) (g g1 g2 : Gpu) (cmd : Handle)
    (commands : list Cmd) :
  command_buffers g !! next_handle g = None →
  begin_single_time_commands drv engine g = (Returned (ok cmd), g1) →
  end_single_time_commands drv' engine cmd
    (foldl (λ g c, record cmd c g) g1 commands) = (Returned (ok tt), g2) →
  submitted g2 = submitted g ++ [commands] ∧
  command_buffers g2 = command_buffers g ∧
  next_handle g2 = S (next_handle g).
Proof.
  intros Hfree Hbegin Hend.
  apply begin_single_time_commands_ok in Hbegin as [-> ->].
  assert (Hpre : not_null (device engine) = true ∧
                 not_null (single_time_command_pool engine) = true ∧
                 not_null (next_handle g) = true).
  { revert Hend. unfold end_single_time_commands. unfold_body.
    destruct (not_null (device engine)); cbn; [|discriminate].
    destruct (not_null (single_time_command_pool engine)); cbn; [|discriminate].
    destruct (not_null (next_handle g)); cbn; [|discriminate]. done. }
  destruct Hpre as (Hdev & Hpool & Hnn).
  rewrite end_single_time_commands_eq in Hend by assumption.
  destruct (failed (CommandBuffer_end drv')); [discriminate|].
  destruct (failed (createFence drv')); [discriminate|].
  destruct (failed (Queue_submit drv')); [discriminate|].
  destruct (failed (waitForFences drv')); [discriminate|].
  injection Hend as <-. cbn -[execute].
  rewrite execute_submitted, execute_command_buffers.
  rewrite record_all_submitted, record_all_command_buffers. cbn.
  rewrite lookup_alter_eq, lookup_insert_eq. cbn.
  split; [done|]. split.
  - apply map_eq. intros h. destruct (decide (h = next_handle g)) as [->|Hne].
    + by rewrite lookup_delete_eq, Hfree.
    + by rewrite lookup_delete_ne, lookup_alter_ne, lookup_insert_ne.
  - unfold execute. cbn. by rewrite exec_all_next, record_all_next.
Qed.

(** X9, witness: one copy command recorded on the fresh device. *)
Lemma single_time_commands_run_once_witness :
  ∃ g2, end_single_time_commands driver_all_ok engine_up 40%nat
          (record 40%nat (copyBuffer 1%nat 2%nat [])
             (snd (begin_single_time_commands driver_all_ok engine_up gpu_fresh)))
        = (Returned (ok tt), g2) ∧
        submitted g2 = [[copyBuffer 1%nat 2%nat []]].
Proof.
  eexists. split; [vm_compute; reflexivity|].
  refine (proj1 (single_time_commands_run_once driver_all_ok driver_all_ok
                   engine_up gpu_fresh _ _ 40%nat [copyBuffer 1%nat 2%nat []]
                   _ _ _)).
  - reflexivity.
  - vm_compute. reflexivity.
  - vm_compute. reflexivity.
Defined.

(** ** Image layouts *)

Lemma images_after_app cs1 cs2 imgs :
  images_after (cs1 ++ cs2) imgs = images_after cs2 (images_after cs1 imgs).
Proof.
  unfold images_after, apply_barriers. by rewrite barriers_of_app, foldl_app.
Qed.

Lemma layouts_sound_app cs1 : ∀ imgs cs2,
  layouts_sound imgs (cs1 ++ cs2) ↔
  layouts_sound imgs cs1 ∧ layouts_sound (images_after cs1 imgs) cs2.
Proof.
  induction cs1 as [|c cs1 IH]; intros imgs cs2.
  - cbn. unfold images_after. cbn. tauto.
  - cbn [app layouts_sound]. rewrite IH.
    change (c :: cs1) with ([c] ++ cs1). rewrite images_after_app. tauto.
Qed.

Lemma elem_of_subresources r m l :
  (m, l) ∈ subresources r ↔
  (Z.to_nat (baseMipLevel r) ≤ m < Z.to_nat (baseMipLevel r) + Z.to_nat (levelCount r))%nat ∧
  (Z.to_nat (baseArrayLayer r) ≤ l
   < Z.to_nat (baseArrayLayer r) + Z.to_nat (layerCount r))%nat.
Proof.
  unfold subresources. rewrite list_elem_of_bind. split.
  - intros (m' & Hin & Hm). apply list_elem_of_bind in Hin as (l' & Hin & Hl).
    apply list_elem_of_singleton in Hin. injection Hin as -> ->.
    apply elem_of_seq in Hm, Hl. lia.
  - intros [Hm Hl]. exists m. split; [|apply elem_of_seq; lia].
    apply list_elem_of_bind. exists l. split; [by apply list_elem_of_singleton|].
    apply elem_of_seq. lia.
Qed.

Lemma lookup_foldr_insert (keys : list (nat * nat)) (v : ImageLayout)
    (m0 : gmap (nat * nat) ImageLayout) k :
  foldr (λ k m, <[k := v]> m) m0 keys !! k
  = if decide (k ∈ keys) then Some v else m0 !! k.
Proof.
  induction keys as [|k' keys IH]; cbn.
  - rewrite decide_False; [done|]. apply not_elem_of_nil.
  - destruct (decide (k = k')) as [->|Hne].
    + rewrite lookup_insert_eq, decide_True; [done|]. left.
    + rewrite lookup_insert_ne, IH by done.
      destruct (decide (k ∈ keys)) as [Hin|Hin].
      * rewrite decide_True; [done|]. by right.
      * rewrite decide_False; [done|]. intros [?|?]%elem_of_cons; done.
Qed.

Lemma layout_of_transition b info m l :
  layout_of (transition b info) m l
  = if decide ((m, l) ∈ subresources (subresourceRange b))
    then layout (barrier_dst b) else layout_of info m l.
Proof.
  unfold layout_of, transition. cbn. rewrite lookup_foldr_insert.
  by destruct (decide _).
Qed.

(** The layouts after one barrier: the subresources of its range, on its
    image, are in the destination layout; every other one is as before. *)
Lemma layout_at_barrier imgs b image level layer :
  is_Some (imgs !! barrier_image b) →
  layout_at (alter (transition b) (barrier_image b) imgs) image level layer
  = if decide (image = barrier_image b ∧
               (Z.to_nat level, Z.to_nat layer) ∈ subresources (subresourceRange b))
    then layout (barrier_dst b)
    else layout_at imgs image level layer.
Proof.
  intros [info Hinfo]. unfold layout_at.
  destruct (decide (image = barrier_image b)) as [->|Hne].
  - rewrite lookup_alter_eq, Hinfo. cbn. rewrite layout_of_transition.
    destruct (decide (_ ∈ _)) as [Hin|Hin].
    + by rewrite decide_True.
    + rewrite decide_False; [done|]. by intros [_ ?].
  - rewrite lookup_alter_ne by done. rewrite decide_False; [done|]. by intros [? _].
Qed.

Lemma images_after_barrier image range src dst imgs :
  ∃ b, images_after (barrier image range src dst) imgs
       = alter (transition b) image imgs ∧
       barrier image range src dst = [pipelineBarrier2 [b]] ∧
       barrier_image b = image ∧ subresourceRange b = range ∧
       layout (barrier_dst b) = layout dst ∧
       layout (barrier_src b) = layout (default no_scope src).
Proof. destruct src; eexists; repeat split. Qed.

(** A barrier on one mip level of array layer 0. *)
Lemma one_level_barrier imgs image level src dst :
  0 ≤ level → is_Some (imgs !! image) →
  let range := {| aspectMask := eColor; baseMipLevel := level; levelCount := 1;
                  baseArrayLayer := 0; layerCount := 1 |} in
  let imgs' := images_after (barrier image range src dst) imgs in
  is_Some (imgs' !! image) ∧
  layout_at imgs' image level 0 = layout dst ∧
  (∀ m, 0 ≤ m → m ≠ level → layout_at imgs' image m 0 = layout_at imgs image m 0) ∧
  (layouts_sound imgs (barrier image range src dst) ↔
     layout (default no_scope src) = eUndefined ∨
     layout_at imgs image level 0 = layout (default no_scope src)).
Proof.
  intros Hlevel Hlive. cbv zeta.
  destruct (images_after_barrier image
              {| aspectMask := eColor; baseMipLevel := level; levelCount := 1;
                 baseArrayLayer := 0; layerCount := 1 |} src dst imgs)
    as (b & -> & Hbs & Hi & Hr & Hd & Hs).
  assert (Hlive' : is_Some (imgs !! barrier_image b)) by (by rewrite Hi).
  split; [|split; [|split]].
  - rewrite lookup_alter_eq. destruct Hlive as [info ->]. cbn. eauto.
  - rewrite <- Hi at 1. rewrite layout_at_barrier by done.
    rewrite decide_True, Hd; [done|]. split; [done|].
    rewrite Hr. apply elem_of_subresources. cbn. lia.
  - intros m Hm Hne. rewrite <- Hi at 1. rewrite layout_at_barrier by done.
    rewrite decide_False; [done|]. intros [_ Hin].
    rewrite Hr in Hin. apply elem_of_subresources in Hin. cbn in Hin. lia.
  - rewrite Hbs. cbn [layouts_sound cmd_sound].
    rewrite Forall_singleton. unfold barrier_sound.
    rewrite Hs, Hr, Hi. split.
    + intros [[Hu|Hall] _]; [by left|]. right.
      specialize (Hall (Z.to_nat level) 0%nat).
      rewrite Z2Nat.id in Hall by done. apply Hall.
      apply elem_of_subresources. cbn. lia.
    + intros H. split; [|done]. destruct H as [Hu|Heq]; [by left|].
      right. intros m l Hin.
      apply elem_of_subresources in Hin. cbn in Hin.
      assert (m = Z.to_nat level) as -> by lia. assert (l = 0%nat) as -> by lia.
      by rewrite Z2Nat.id.
Qed.

(** The loop of the mip chain keeps the layouts in step with its blits: on
    entry the levels up to [level] are transfer sources, each iteration
    finds its source level as transfer source and has made its destination
    level a transfer destination, and on exit all levels up to [level + n]
    are transfer sources. *)
Lemma mip_loop_layouts image n : ∀ level o imgs,
  0 ≤ level → is_Some (imgs !! image) →
  (∀ m, 0 ≤ m ≤ level → layout_at imgs image m 0 = eTransferSrcOptimal) →
  layouts_sound imgs (mip_loop image n level o) ∧
  is_Some (images_after (mip_loop image n level o) imgs !! image) ∧
  (∀ m, 0 ≤ m ≤ level + Z.of_nat n →
     layout_at (images_after (mip_loop image n level o) imgs) image m 0
     = eTransferSrcOptimal).
Proof.
  induction n as [|n IH]; intros level o imgs Hlevel Hlive Hsrc.
  - cbn. split; [done|]. split; [done|]. intros m Hm. apply Hsrc. lia.
  - cbn [mip_loop].
    destruct (one_level_barrier imgs image (level + 1) None
                {| stage := StageTransfer; access := AccessTransferWrite;
                   layout := eTransferDstOptimal |})
      as (Hlive1 & Hdst1 & Hrest1 & Hsound1); [lia | done |].
    cbv zeta in Hlive1, Hdst1, Hrest1, Hsound1.
    set (B1 := barrier image _ None _) in *.
    set (imgs1 := images_after B1 imgs) in *.
    destruct (one_level_barrier imgs1 image (level + 1)
                (Some {| stage := StageTransfer; access := AccessTransferWrite;
                         layout := eTransferDstOptimal |})
                {| stage := StageTransfer; access := AccessTransferRead;
                   layout := eTransferSrcOptimal |})
      as (Hlive2 & Hdst2 & Hrest2 & Hsound2); [lia | done |].
    cbv zeta in Hlive2, Hdst2, Hrest2, Hsound2.
    set (B2 := barrier image _ (Some _) _) in *.
    set (imgs2 := images_after B2 imgs1) in *.
    destruct (IH (level + 1) (halve_offset o) imgs2) as (Hs & Hl & Hall).
    { lia. }
    { done. }
    { intros m Hm. destruct (decide (m = level + 1)) as [->|Hne].
      - exact Hdst2.
      - rewrite Hrest2, Hrest1 by lia. apply Hsrc. lia. }
    rewrite !layouts_sound_app, !images_after_app.
    change (images_after [blitImage2 _ _ _ _ _ _] imgs1) with imgs1.
    fold imgs2. split; [|split].
    + split; [apply Hsound1; by left|]. split.
      * cbn. split; [|done]. apply Forall_singleton. split; cbn.
        -- rewrite Hrest1 by lia. apply Hsrc. lia.
        -- exact Hdst1.
      * split; [apply Hsound2; by right|]. exact Hs.
    + exact Hl.
    + intros m Hm. apply Hall. lia.
Qed.

Lemma generate_mipmaps_layouts to_i32 self levels extent final_layout cmd imgs :
  1 < levels → is_Some (imgs !! image self) →
  let cmds := generate_mipmaps_commands to_i32 self levels extent final_layout cmd in
  layouts_sound imgs cmds ∧
  ∀ m, 0 ≤ m < levels →
    layout_at (images_after cmds imgs) (image self) m 0 = final_layout.
Proof.
  intros Hlevels Hlive. cbv zeta. unfold generate_mipmaps_commands.
  destruct (one_level_barrier imgs (image self) 0 None
              {| stage := StageTransfer; access := AccessTransferRead;
                 layout := eTransferSrcOptimal |})
    as (Hlive0 & Hdst0 & _ & Hsound0); [lia | done |].
  cbv zeta in Hlive0, Hdst0, Hsound0.
  set (B0 := barrier (image self) _ None _) in *.
  set (imgs0 := images_after B0 imgs) in *.
  set (o := {| off_x := _; off_y := _; off_z := _ |}).
  destruct (mip_loop_layouts (image self) (Z.to_nat (levels - 1)) 0 o imgs0)
    as (Hs & Hl & Hall); [lia | done | |].
  { intros m Hm. assert (m = 0) as -> by lia. exact Hdst0. }
  set (L := mip_loop _ _ _ _) in *.
  set (imgsL := images_after L imgs0) in *.
  destruct (images_after_barrier (image self)
              {| aspectMask := eColor; baseMipLevel := 0; levelCount := levels;
                 baseArrayLayer := 0; layerCount := 1 |}
              (Some {| stage := StageTransfer; access := AccessTransferRead;
                       layout := eTransferSrcOptimal |})
              {| stage := StageNone; access := AccessNone;
                 layout := final_layout |} imgsL)
    as (b & Hafter & Hbs & Hi & Hr & Hd & Hsrc).
  set (BF := barrier (image self) _ (Some _) _) in *.
  rename Hbs into HBF.
  rewrite !layouts_sound_app, !images_after_app.
  fold imgs0. fold imgsL. split.
  - split; [apply Hsound0; by left|]. split; [exact Hs|].
    rewrite HBF. cbn [layouts_sound cmd_sound]. split; [|done].
    apply Forall_singleton. right. intros m l Hin.
    rewrite Hr in Hin. apply elem_of_subresources in Hin. cbn in Hin.
    rewrite Hi, Hsrc. cbn.
    assert (l = 0%nat) as -> by lia. apply Hall. lia.
  - intros m Hm. rewrite Hafter. rewrite <- Hi at 1.
    rewrite layout_at_barrier by (by rewrite Hi).
    rewrite decide_True, Hd; [done|]. split; [done|].
    rewrite Hr. apply elem_of_subresources. cbn. lia.
Qed.

(** X10.  The mip chain is generated with every image in the layout its
    commands name.  On a live image and for more than one level, the
    commands [generate_mipmaps_result] records are sound on the layouts
    they meet when executed in order: every blit reads a level that is in
    the transfer-source layout and writes a level that is in the
    transfer-destination layout, and every barrier names as its source
    layout the undefined one or the layout its levels are in.  When the
    call returns success, all [levels] mip levels of the image are in the
    final layout asked for. *)
Theorem generate_mipmaps_layouts_sound
    (to_i32 : Z → Z) (drv : Driver) (engine : Engine) (self : GpuImage)
    (levels : Z) (extent : Extent3D) (format : Format)
    (final_layout : ImageLayout) (g g' : Gpu) :
  is_Some (images g !! image self) →
  GpuImage_generate_mipmaps_result to_i32 drv engine self levels extent format
    final_layout g = (Returned (ok tt), g') →
  (∃ batch, submitted g' = submitted g ++ [batch] ∧
            layouts_sound (images g) batch) ∧
  ∀ m, 0 ≤ m < levels → layout_at (images g') (image self) m 0 = final_layout.
Proof.
  intros Hlive Hrun.
  assert (Hlevels : 1 < levels).
  { revert Hrun. unfold GpuImage_generate_mipmaps_result. unfold_body.
    destruct (bool_decide (is_Some (gpu engine))); cbn; [|discriminate].
    destruct (not_null (image self)); cbn; [|discriminate].
    destruct (1 <? levels) eqn:E; cbn; [|discriminate].
    intros _. by apply Z.ltb_lt. }
  apply generate_mipmaps_result_ok in Hrun. subst g'.
  rewrite after_submit_submitted, after_submit_images.
  destruct (generate_mipmaps_layouts to_i32 self levels extent final_layout
              (next_handle g) (images g) Hlevels Hlive) as [Hsound Hfinal].
  split; [eauto|]. exact Hfinal.
Qed.

(** X10, witness: seven levels on the image of handle 50. *)
Lemma generate_mipmaps_layouts_sound_witness :
  ∃ g', GpuImage_generate_mipmaps_result (λ v, v) driver_all_ok
          (engine_on gpu_compute_first) image50 7 extent_17_5_1 eR8G8B8A8Srgb
          eShaderReadOnlyOptimal (gpu_one_image 7) = (Returned (ok tt), g') ∧
        layout_at (images g') 50%nat 6 0 = eShaderReadOnlyOptimal.
Proof.
  eexists. split; [vm_compute; reflexivity|].
  refine (proj2 (generate_mipmaps_layouts_sound (λ v, v) driver_all_ok
                   (engine_on gpu_compute_first) image50 7 extent_17_5_1
                   eR8G8B8A8Srgb eShaderReadOnlyOptimal (gpu_one_image 7) _
                   _ _) 6 _).
  - cbn. eauto.
  - vm_compute. reflexivity.
  - lia.
Defined.

(** ** Image uploads and image creation *)

(** X11.  What a successful [StagingGpuImage::write] leaves behind.  The
    temporary staging buffer is released, so the live buffers are the ones
    that were live before; the one batch submitted holds one
    buffer-to-image copy, into mip level 0 and array layer 0 of the image
    with the extent of the data, whatever subresource range was passed;
    every subresource of the range passed ends in the final layout asked
    for; and when the range covers level 0 of layer 0, every command of
    the batch finds the image in the layout it names. *)
Theorem staging_image_write_effects
    (err_of_ok : option Err) (drv : Driver) (engine : Engine)
    (self : StagingGpuImage) (data : Data) (final_layout : ImageLayout)
    (subresource : ImageSubresourceRange) (g g' : Gpu) :
  gpu_wf g →
  is_Some (images g !! staging_image self) →
  StagingGpuImage_write err_of_ok drv engine self data final_layout subresource g
    = (Returned (ok tt), g') →
  dom (buffers g') = dom (buffers g) ∧
  (∃ batch, submitted g' = submitted g ++ [batch] ∧
     (∃ region, buffer_image_copies_of batch = [(staging_image self, region)] ∧
        mipLevel (imageSubresource region) = 0 ∧
        layers_baseArrayLayer (imageSubresource region) = 0 ∧
        layers_layerCount (imageSubresource region) = 1 ∧
        imageExtent region = data_extent data) ∧
     ((0%nat, 0%nat) ∈ subresources subresource →
        layouts_sound (images g) batch)) ∧
  (∀ level layer : nat, (level, layer) ∈ subresources subresource →
     layout_at (images g') (staging_image self) (Z.of_nat level) (Z.of_nat layer)
     = final_layout).
Proof.
  intros [Hnext Hwf] Hlive Hrun.
  apply StagingGpuImage_write_ok_state in Hrun as (bytes & size & ->).
  set (staging := {| allocation := next_handle g; buffer := next_handle g;
                     memory_type := Staging |}).
  set (cmds := staging_write_commands self staging data final_layout subresource).
  assert (Himgs : images (vmaDestroyBuffer (next_handle g)
             (after_submit cmds
                (copy_memory_to_allocation bytes (next_handle g) 0 size
                   (new_buffer (next_handle g) size (bump g)))))
           = images_after (cmds (S (next_handle g))) (images g)).
  { gpu_fields. rewrite after_submit_images. gpu_fields. reflexivity. }
  destruct (images_after_barrier (staging_image self) subresource None
              {| stage := StageTransfer; access := AccessTransferWrite;
                 layout := eTransferDstOptimal |} (images g))
    as (b1 & Ha1 & Hb1 & Hi1 & Hr1 & Hd1 & Hs1).
  set (imgs1 := images_after (barrier (staging_image self) subresource None _)
                  (images g)) in *.
  assert (Hlive1 : is_Some (imgs1 !! staging_image self)).
  { rewrite Ha1, lookup_alter_eq. destruct Hlive as [info ->]. cbn. eauto. }
  destruct (images_after_barrier (staging_image self) subresource
              (Some {| stage := StageTransfer; access := AccessTransferWrite;
                       layout := eTransferDstOptimal |})
              {| stage := StageNone; access := AccessNone;
                 layout := final_layout |} imgs1)
    as (b2 & Ha2 & Hb2 & Hi2 & Hr2 & Hd2 & Hs2).
  assert (Hafter : images_after (cmds (S (next_handle g))) (images g)
                   = alter (transition b2) (staging_image self) imgs1).
  { unfold cmds, staging_write_commands.
    rewrite !images_after_app. fold imgs1.
    change (images_after [copyBufferToImage2 _ _ _ _] imgs1) with imgs1.
    exact Ha2. }
  split; [|split].
  - gpu_fields. rewrite dom_delete_L, after_submit_buffers_dom. gpu_fields.
    rewrite dom_alter_L, dom_insert_L.
    assert (next_handle g ∉ dom (buffers g)).
    { intros Hin. apply elem_of_dom in Hin. apply Hwf in Hin. lia. }
    set_solver.
  - exists (cmds (S (next_handle g))). split.
    { gpu_fields. rewrite after_submit_submitted. gpu_fields. reflexivity. }
    split.
    { eexists. split; [reflexivity|]. done. }
    intros H00. unfold cmds, staging_write_commands.
    rewrite !layouts_sound_app. fold imgs1.
    change (images_after [copyBufferToImage2 _ _ _ _] imgs1) with imgs1.
    split; [|split].
    + rewrite Hb1. cbn [layouts_sound cmd_sound]. split; [|done].
      apply Forall_singleton. left. by rewrite Hs1.
    + cbn [layouts_sound cmd_sound]. split; [|done].
      apply Forall_singleton. cbn -[imgs1 layout_at].
      rewrite Ha1. rewrite <- Hi1 at 1.
      rewrite layout_at_barrier by (by rewrite Hi1).
      rewrite decide_True, Hd1; [done|]. split; [done|]. by rewrite Hr1.
    + rewrite Hb2. cbn [layouts_sound cmd_sound]. split; [|done].
      apply Forall_singleton. right. intros m l Hin.
      rewrite Hs2, Hi2. cbn -[imgs1 layout_at]. rewrite Hr2 in Hin.
      rewrite Ha1. rewrite <- Hi1 at 1.
      rewrite layout_at_barrier by (by rewrite Hi1).
      rewrite decide_True, Hd1; [done|]. split; [done|].
      by rewrite Hr1, !Nat2Z.id.
  - intros m l Hin. rewrite Himgs, Hafter. rewrite <- Hi2 at 1.
    rewrite layout_at_barrier by (by rewrite Hi2).
    rewrite decide_True, Hd2; [done|]. split; [done|].
    by rewrite Hr2, !Nat2Z.id.
Qed.

(** X11, witness: four texels written to level 0 of the image of handle
    50. *)
Lemma staging_image_write_effects_witness :
  let g' := snd (StagingGpuImage_write None driver_all_ok engine_up staging50
                   four_texels eTransferSrcOptimal whole_colour_image
                   (gpu_one_image 1)) in
  dom (buffers g') = dom (buffers (gpu_one_image 1)) ∧
  layout_at (images g') 50%nat 0 0 = eTransferSrcOptimal.
Proof.
  intros g'.
  destruct (staging_image_write_effects None driver_all_ok engine_up staging50
              four_texels eTransferSrcOptimal whole_colour_image
              (gpu_one_image 1) g')
    as (Hdom & _ & Hlayout).
  - split; [cbn; lia|]. intros h [bs Hh]. cbn in Hh.
    by rewrite lookup_empty in Hh.
  - cbn. eauto.
  - vm_compute. reflexivity.
  - split; [exact Hdom|]. apply (Hlayout 0%nat 0%nat).
    apply elem_of_subresources. cbn. lia.
Defined.

(** ** Image creation *)

Lemma StagingGpuImage_create_returned drv engine config g r g' :
  StagingGpuImage_create drv engine config g = (Returned r, g') →
  match r with
  | ok s =>
      vmaCreateImage drv = VK_SUCCESS ∧
      s = {| staging_allocation := next_handle g; staging_image := next_handle g |} ∧
      g' = new_image (next_handle g) (fst (dimensionality (staging_extent config)))
             (staging_extent config) (staging_mip_levels config) 1 false (bump g)
  | err e => e = CouldNotCreateGpuImage ∧ vmaCreateImage drv ≠ VK_SUCCESS ∧ g' = g
  end.
Proof.
  unfold StagingGpuImage_create, fresh_handle, dimensionality. unfold_body.
  destruct (not_null (device engine)); cbn; [|discriminate].
  destruct (not_null (allocator engine)); cbn; [|discriminate].
  destruct (0 <? width (staging_extent config)); cbn; [|discriminate].
  destruct (0 <? height (staging_extent config)); cbn; [|discriminate].
  destruct (0 <? depth (staging_extent config)); cbn; [|discriminate].
  destruct (bool_decide (staging_format config ≠ FormatUndefined)); cbn;
    [|discriminate].
  destruct (negb (staging_usage config =? 0)); cbn; [|discriminate].
  destruct (negb (staging_sample_count config =? 0)); cbn; [|discriminate].
  destruct (0 <? staging_mip_levels config); cbn; [|discriminate].
  destruct (failed (vmaCreateImage drv)) eqn:Hf; cbn.
  { intros [= <- <-]. by apply failed_true in Hf. }
  destruct (not_null (next_handle g)); cbn; [|discriminate].
  intros [= <- <-]. apply failed_false in Hf. split; [done|]. split; [done|].
  destruct (depth (staging_extent config) =? 1),
    (height (staging_extent config) =? 1); reflexivity.
Qed.

(** Whatever the driver answers and however it ends, the single-time
    helper creates and destroys no image and no view. *)
Lemma execute_images_dom cmd g : dom (images (execute cmd g)) = dom (images g).
Proof.
  unfold execute. gpu_fields. cbn [images set_submitted].
  by rewrite exec_all_images, apply_barriers_dom.
Qed.

Lemma execute_views cmd g : views (execute cmd g) = views g.
Proof. unfold execute. cbn [views set_submitted]. apply exec_all_views. Qed.

Lemma submit_single_time_commands_images drv engine commands g :
  dom (images (snd (submit_single_time_commands drv engine commands g)))
  = dom (images g) ∧
  views (snd (submit_single_time_commands drv engine commands g)) = views g.
Proof.
  unfold submit_single_time_commands, begin_single_time_commands,
    end_single_time_commands, fresh_handle. unfold_body.
  destruct (not_null (device engine)); cbn; [|done].
  destruct (not_null (single_time_command_pool engine)); cbn; [|done].
  destruct (failed (allocateCommandBuffers drv)); cbn; [done|].
  destruct (failed (CommandBuffer_begin drv)); cbn; [done|].
  destruct (not_null (next_handle g)) eqn:Hnn; cbn; [|done].
  destruct (failed (CommandBuffer_end drv)); cbn; rewrite ?Hnn; cbn;
    [by rewrite record_all_images, record_all_views|].
  destruct (failed (createFence drv)); cbn;
    [by rewrite record_all_images, record_all_views|].
  destruct (failed (Queue_submit drv)); cbn -[execute];
    [by rewrite record_all_images, record_all_views|].
  destruct (failed (waitForFences drv)); cbn -[execute];
    by rewrite execute_images_dom, execute_views, record_all_images,
      record_all_views.
Qed.

(** [create_result], return by return. *)
Lemma GpuImage_create_result_returned drv engine config g r g' :
  GpuImage_create_result drv engine config g = (Returned r, g') →
  let g1 := new_image (next_handle g) (fst (dimensionality (image_extent config)))
              (image_extent config) (mip_levels config) 1 false (bump g) in
  let view_ := S (next_handle g) in
  let g2 := new_view view_ (next_handle g)
              (snd (dimensionality (image_extent config)))
              {| aspectMask := aspect_flags config; baseMipLevel := 0;
                 levelCount := mip_levels config; baseArrayLayer := 0;
                 layerCount := 1 |} (bump g1) in
  let commands := λ cmd : Handle,
    barrier (next_handle g)
      {| aspectMask := eColor; baseMipLevel := 0; levelCount := 1;
         baseArrayLayer := 0; layerCount := 1 |}
      None
      {| stage := StageNone; access := AccessNone;
         layout := image_layout config |} in
  (vmaCreateImage drv ≠ VK_SUCCESS ∧ r = err CouldNotCreateGpuImage ∧ g' = g) ∨
  (vmaCreateImage drv = VK_SUCCESS ∧ createImageView drv ≠ VK_SUCCESS ∧
   r = err CouldNotCreateGpuImageView ∧ g' = g1) ∨
  (vmaCreateImage drv = VK_SUCCESS ∧ createImageView drv = VK_SUCCESS ∧
   image_layout config = eUndefined ∧
   r = ok {| image_allocation := next_handle g; image := next_handle g;
             view := view_ |} ∧ g' = g2) ∨
  (vmaCreateImage drv = VK_SUCCESS ∧ createImageView drv = VK_SUCCESS ∧
   image_layout config ≠ eUndefined ∧
   g' = snd (submit_single_time_commands drv engine commands g2) ∧
   (r = err CouldNotCreateGpuImage ∨
    r = ok {| image_allocation := next_handle g; image := next_handle g;
              view := view_ |} ∧ g' = after_submit commands g2)).
Proof.
  unfold GpuImage_create_result, fresh_handle. unfold_body.
  repeat match goal with
  | |- context [if ?c then Next () else Abort] =>
      lazymatch c with
      | context [next_handle] => fail
      | _ => destruct c eqn:?
      end;
      cbn -[StagingGpuImage_create submit_single_time_commands];
      [|discriminate]
  end.
  destruct (StagingGpuImage_create _ _ _ _) as [[[s|e]|] g1] eqn:Hs;
    cbn -[submit_single_time_commands]; [| | discriminate].
  2:{ apply StagingGpuImage_create_returned in Hs as (_ & Hf & ->).
      intros [= <- <-]. cbv zeta. left. done. }
  apply StagingGpuImage_create_returned in Hs as (Hcreate & -> & ->).
  cbn [staging_extent staging_mip_levels staging_image staging_allocation].
  destruct (failed (createImageView drv)) eqn:Hv;
    cbn -[submit_single_time_commands].
  { intros [= <- <-]. cbv zeta. right. left. apply failed_true in Hv. done. }
  apply failed_false in Hv.
  destruct (decide (image_layout config = eUndefined)) as [Hu|Hu].
  - rewrite bool_decide_eq_false_2 by (by intros H; apply H).
    cbn. destruct (not_null (next_handle g)); cbn; [|discriminate].
    intros [= <- <-]. cbv zeta. right. right. left.
    destruct (dimensionality (image_extent config)) eqn:Hd.
    unfold infer_view_type, dimensionality in *.
    destruct (depth (image_extent config) =? 1),
      (height (image_extent config) =? 1); inversion Hd; subst; done.
  - rewrite bool_decide_eq_true_2 by done.
    assert (Hview : infer_view_type (image_extent config)
                    = snd (dimensionality (image_extent config))).
    { unfold infer_view_type, dimensionality.
      by destruct (depth (image_extent config) =? 1),
        (height (image_extent config) =? 1). }
    rewrite Hview.
    destruct (submit_single_time_commands _ _ _ _) as [[[[]|e]|] g3] eqn:Hsub;
      cbn; try discriminate.
    + destruct (not_null (next_handle g)); cbn; [|discriminate].
      intros [= <- <-]. cbv zeta. right. right. right.
      do 3 (split; [done|]).
      split; [done|]. right. split; [done|].
      by apply submit_single_time_commands_ok in Hsub.
    + intros [= <- <-]. cbv zeta. right. right. right.
      do 3 (split; [done|]).
      split; [done|]. by left.
Qed.

(** X20.  The image [create_result] returns and its view.  On success the
    image is a new one, the one image the call adds to the device, with the
    extent and the mip levels of the configuration and one array layer; its
    view is a view of this image, and the view type agrees with the image
    type, both taken from the extent: one-dimensional when height and depth
    are 1, two-dimensional when the depth is 1, three-dimensional
    otherwise.  When the configuration asks for the undefined layout, the
    call submits nothing and every subresource of the image is in the
    undefined layout. *)
Theorem create_result_view_matches_image
    (drv : Driver) (engine : Engine) (config : ImageConfig) (g g' : Gpu)
    (img : GpuImage) :
  images_wf g →
  GpuImage_create_result drv engine config g = (Returned (ok img), g') →
  images g !! image img = None ∧
  dom (images g') = dom (images g) ∪ {[image img]} ∧
  (∃ info v,
     images g' !! image img = Some info ∧ views g' !! view img = Some v ∧
     view_image v = image img ∧
     (imageType info, viewType v) = dimensionality (image_extent config) ∧
     info_extent info = image_extent config ∧
     mipLevels info = mip_levels config ∧
     arrayLayers info = 1 ∧ cube_compatible info = false) ∧
  (image_layout config = eUndefined →
     submitted g' = submitted g ∧
     ∀ level layer, layout_at (images g') (image img) level layer = eUndefined).
Proof.
  intros Hwf Hrun.
  assert (Hfresh : images g !! next_handle g = None).
  { destruct (images g !! next_handle g) eqn:E; [|done].
    assert (next_handle g < next_handle g)%nat by (apply Hwf; eauto). lia. }
  apply GpuImage_create_result_returned in Hrun. cbv zeta in Hrun.
  destruct Hrun as [(_ & [=] & _)|[(_ & _ & [=] & _)|
    [(_ & _ & Hu & [= ->] & ->)|(_ & _ & Hu & _ & [[=]|[[= ->] ->]])]]];
    cbn [image view].
  - split; [done|]. split.
    { gpu_fields. rewrite dom_insert_L. set_solver. }
    split.
    { eexists _, _. gpu_fields. rewrite !lookup_insert_eq.
      split; [reflexivity|]. split; [reflexivity|]. cbn.
      by destruct (dimensionality (image_extent config)). }
    intros _. gpu_fields. split; [done|]. intros level layer.
    unfold layout_at. by rewrite lookup_insert_eq.
  - split; [done|]. split.
    { rewrite after_submit_images, apply_barriers_dom. gpu_fields.
      rewrite dom_insert_L. set_solver. }
    split; [|done].
    rewrite after_submit_images, after_submit_views. gpu_fields.
    match goal with
    | |- context [apply_barriers ?bs (<[?h := ?info]> ?imgs)] =>
        destruct (apply_barriers_lookup bs (<[h := info]> imgs) h info)
          as (info' & Hl & Ht & He & Hm & Ha & Hc);
          [by rewrite lookup_insert_eq|]
    end.
    exists info'. eexists. rewrite lookup_insert_eq.
    split; [exact Hl|]. split; [reflexivity|]. cbn in *.
    rewrite Ht. by destruct (dimensionality (image_extent config)).
Qed.

(** X20, witness: the texture of 256 by 256 texels on a fresh device. *)
Lemma create_result_view_matches_image_witness :
  let r := GpuImage_create_result driver_all_ok engine_up texture_config
             gpu_fresh in
  ∃ info v,
    images (snd r) !! 40%nat = Some info ∧ views (snd r) !! 41%nat = Some v ∧
    view_image v = 40%nat ∧
    (imageType info, viewType v) = (VK_IMAGE_TYPE_2D, e2D).
Proof.
  cbv zeta.
  destruct (create_result_view_matches_image driver_all_ok engine_up
              texture_config gpu_fresh
              (snd (GpuImage_create_result driver_all_ok engine_up
                      texture_config gpu_fresh))
              {| image_allocation := 40%nat; image := 40%nat; view := 41%nat |})
    as (_ & _ & (info & v & Hi & Hv & Hvi & Hd & _) & _).
  - intros h [info Hh]. cbn in Hh. by rewrite lookup_empty in Hh.
  - vm_compute. reflexivity.
  - exists info, v. done.
Defined.

(** X21.  [create_result] destroys nothing when it fails.  An error return
    is [CouldNotCreateGpuImage] or [CouldNotCreateGpuImageView].  When the
    image could not be allocated the device is as it was.  On every error
    return after the allocation, that is when the view could not be created
    or the layout transition could not be submitted, the new image is still
    allocated, and so is its view when it was created, although the caller
    is handed neither. *)
Theorem create_result_failure_keeps_image
    (drv : Driver) (engine : Engine) (config : ImageConfig) (g g' : Gpu)
    (e : Err) :
  images_wf g →
  GpuImage_create_result drv engine config g = (Returned (err e), g') →
  (e = CouldNotCreateGpuImage ∨ e = CouldNotCreateGpuImageView) ∧
  (vmaCreateImage drv ≠ VK_SUCCESS → g' = g) ∧
  (vmaCreateImage drv = VK_SUCCESS →
     (next_handle g ∉ dom (images g)) ∧
     dom (images g') = dom (images g) ∪ {[next_handle g]} ∧
     (e = CouldNotCreateGpuImageView → views g' = views g) ∧
     (e = CouldNotCreateGpuImage →
        ∃ v, views g' !! S (next_handle g) = Some v ∧
             view_image v = next_handle g)).
Proof.
  intros Hwf Hrun.
  assert (Hfresh : next_handle g ∉ dom (images g)).
  { intros Hin. apply elem_of_dom in Hin.
    assert (next_handle g < next_handle g)%nat by (by apply Hwf). lia. }
  apply GpuImage_create_result_returned in Hrun. cbv zeta in Hrun.
  destruct Hrun as [(Hc & [= ->] & ->)|[(Hc & _ & [= ->] & ->)|
    [(_ & _ & _ & [=] & _)|(Hc & _ & _ & -> & [[= ->]|[[=] _]])]]].
  - split; [by left|]. split; [done|]. intros Hok. by rewrite Hok in Hc.
  - split; [by right|]. split; [by intros Hf|]. intros _.
    split; [done|]. split.
    { gpu_fields. rewrite dom_insert_L. set_solver. }
    split; [by intros _; gpu_fields|]. discriminate.
  - split; [by left|]. split; [by intros Hf|]. intros _.
    split; [done|]. split.
    { rewrite (proj1 (submit_single_time_commands_images _ _ _ _)).
      gpu_fields. rewrite dom_insert_L. set_solver. }
    split; [discriminate|]. intros _.
    rewrite (proj2 (submit_single_time_commands_images _ _ _ _)).
    gpu_fields. rewrite lookup_insert_eq. eexists. split; [reflexivity|]. done.
Qed.

(** X21, witness: the view of the texture cannot be created. *)
Lemma create_result_failure_keeps_image_witness :
  let r := GpuImage_create_result driver_no_views engine_up texture_config
             gpu_fresh in
  dom (images (snd r)) = dom (images gpu_fresh) ∪ {[next_handle gpu_fresh]} ∧
  views (snd r) = views gpu_fresh.
Proof.
  cbv zeta.
  destruct (create_result_failure_keeps_image driver_no_views engine_up
              texture_config gpu_fresh
              (snd (GpuImage_create_result driver_no_views engine_up
                      texture_config gpu_fresh))
              CouldNotCreateGpuImageView)
    as (_ & _ & Hkeep).
  - intros h [info Hh]. cbn in Hh. by rewrite lookup_empty in Hh.
  - vm_compute. reflexivity.
  - destruct (Hkeep eq_refl) as (_ & Hdom & Hviews & _).
    split; [exact Hdom|]. by apply Hviews.
Defined.

(** ** Instance extensions, device selection and engine creation *)

(** X12.  The test of the instance extensions is exact.  For a non-empty
    list of required names and a successful enumeration, with names that
    hold no NUL byte, [check_instance_extension_availability] returns a
    value, and the value is true exactly when every required name is among
    the enumerated ones. *)
Theorem instance_extension_check_is_exact
    (enumerated : VkResult * list string) (required : list string) :
  required ≠ [] →
  fst enumerated = VK_SUCCESS →
  Forall nul_free required → Forall nul_free (snd enumerated) →
  ∃ available,
    check_instance_extension_availability enumerated required
      = Returned (ok available) ∧
    (available = true ↔ ∀ name, name ∈ required → name ∈ snd enumerated).
Proof.
  intros Hne Hok Hreq Henum. unfold check_instance_extension_availability.
  rewrite bool_decide_eq_false_2 by done.
  rewrite Hok. change (failed VK_SUCCESS) with false. cbn [negb].
  eexists. split; [reflexivity|].
  rewrite forallb_forall. rewrite Forall_forall in Hreq, Henum.
  split.
  - intros H name Hin. apply list_elem_of_In in Hin as Hin'.
    apply H, existsb_exists in Hin' as (e & He & Hcmp).
    apply Z.eqb_eq in Hcmp. apply list_elem_of_In in He.
    apply strcmp_zero_iff in Hcmp; [by subst e | by apply Hreq | by apply Henum].
  - intros H name Hin. apply list_elem_of_In in Hin.
    apply existsb_exists. exists name. split.
    + apply list_elem_of_In. by apply H.
    + apply Z.eqb_eq. apply strcmp_zero_iff; try done; by apply Hreq.
Qed.

(** X12, witness: the three device extension names, required of a list
    that holds them and one more. *)
Lemma instance_extension_check_is_exact_witness :
  ∃ available,
    check_instance_extension_availability
      (VK_SUCCESS, "VK_KHR_surface"%string :: DeviceExtensions) DeviceExtensions
      = Returned (ok available) ∧
    (available = true ↔
       ∀ name, name ∈ DeviceExtensions →
         name ∈ "VK_KHR_surface"%string :: DeviceExtensions).
Proof.
  apply (instance_extension_check_is_exact
           (VK_SUCCESS, "VK_KHR_surface"%string :: DeviceExtensions)
           DeviceExtensions).
  - discriminate.
  - reflexivity.
  - repeat constructor; discriminate.
  - repeat constructor; discriminate.
Defined.

Lemma find_queue_family_ok_not_null gpu q :
  find_queue_family gpu = Returned (ok q) → not_null (gpu_handle gpu) = true.
Proof.
  unfold find_queue_family. by destruct (not_null (gpu_handle gpu)).
Qed.

(** One turn of the loop of [find_gpu]. *)
Lemma find_gpu_loop_step gpu rest :
  find_gpu_loop (gpu :: rest) =
    if passed_over gpu then find_gpu_loop rest
    else if taken gpu then Returned (ok gpu)
    else if enumeration_fails gpu then Returned (err VulkanFailure)
    else Fatal.
Proof.
  cbn [find_gpu_loop]. unfold passed_over, taken, enumeration_fails,
    has_required_features.
  destruct (find_queue_family gpu) as [[q|e]|] eqn:Hq;
    try rewrite (find_queue_family_ok_not_null gpu q Hq);
    destruct (sampleRateShading (getFeatures gpu)),
      (samplerAnisotropy (getFeatures gpu)),
      (failed (fst (enumerateDeviceExtensionProperties gpu))),
      (extensions_pass (snd (enumerateDeviceExtensionProperties gpu)));
    reflexivity.
Qed.

Lemma taken_not_passed_over gpu : taken gpu = true → passed_over gpu = false.
Proof.
  unfold taken, passed_over.
  destruct (has_required_features gpu), (failed _), (extensions_pass _),
    (find_queue_family gpu) as [[|]|]; cbn; congruence.
Qed.

Lemma enumeration_fails_not_passed_over gpu :
  enumeration_fails gpu = true → passed_over gpu = false.
Proof.
  unfold enumeration_fails, passed_over.
  destruct (has_required_features gpu), (failed _); cbn; congruence.
Qed.

Lemma enumeration_fails_not_taken gpu :
  enumeration_fails gpu = true → taken gpu = false.
Proof.
  unfold enumeration_fails, taken.
  destruct (has_required_features gpu), (failed _); cbn; congruence.
Qed.

(** The first device the loop does not pass over decides its result. *)
Lemma find_gpu_loop_first (gpus : list PhysicalDevice) : ∀ i gpu,
  gpus !! i = Some gpu → passed_over gpu = false →
  (∀ j other, (j < i)%nat → gpus !! j = Some other → passed_over other = true) →
  find_gpu_loop gpus = find_gpu_loop [gpu].
Proof.
  induction gpus as [|g gpus IH]; intros i gpu Hi Hgpu Hmin; [done|].
  destruct i as [|i].
  - cbn in Hi. inversion Hi; subst g.
    rewrite !find_gpu_loop_step, Hgpu. reflexivity.
  - rewrite find_gpu_loop_step, (Hmin 0%nat g) by (lia || done).
    apply (IH i); [done..|].
    intros j other Hj Hother. apply (Hmin (S j)); [lia|done].
Qed.

Lemma find_gpu_loop_none (gpus : list PhysicalDevice) :
  (∀ gpu, gpu ∈ gpus → passed_over gpu = true) →
  find_gpu_loop gpus = Returned (err VkPhysicalDevicesUnsuitable).
Proof.
  induction gpus as [|g gpus IH]; intros Hall; [done|].
  rewrite find_gpu_loop_step, Hall by left. apply IH.
  intros gpu Hin. apply Hall. by right.
Qed.

(** Every list of devices has a first one that is not passed over, or
    none. *)
Lemma first_not_passed_over (gpus : list PhysicalDevice) :
  (∀ gpu, gpu ∈ gpus → passed_over gpu = true) ∨
  ∃ i gpu, gpus !! i = Some gpu ∧ passed_over gpu = false ∧
    ∀ j other, (j < i)%nat → gpus !! j = Some other → passed_over other = true.
Proof.
  induction gpus as [|g gpus IH].
  - left. intros gpu Hin. by apply elem_of_nil in Hin.
  - destruct (passed_over g) eqn:Hg.
    + destruct IH as [Hall|(i & gpu & Hi & Hgpu & Hmin)].
      * left. intros gpu Hin. apply elem_of_cons in Hin as [->|Hin]; auto.
      * right. exists (S i), gpu. split; [done|]. split; [done|].
        intros [|j] other Hj Hother; cbn in Hother.
        -- by inversion Hother; subst.
        -- apply (Hmin j); [lia|done].
    + right. exists 0%nat, g. split; [done|]. split; [done|].
      intros j other Hj. lia.
Qed.

Lemma find_gpu_loop_one gpu :
  find_gpu_loop [gpu] =
    if passed_over gpu then Returned (err VkPhysicalDevicesUnsuitable)
    else if taken gpu then Returned (ok gpu)
    else if enumeration_fails gpu then Returned (err VulkanFailure)
    else Fatal.
Proof. by rewrite find_gpu_loop_step. Qed.

Lemma find_gpu_eq instance enumerated :
  not_null instance = true → fst enumerated = VK_SUCCESS →
  find_gpu instance enumerated = find_gpu_loop (snd enumerated).
Proof.
  intros Hi He. unfold find_gpu. rewrite Hi, He. reflexivity.
Qed.

(** What a device that [find_gpu] returned is like. *)
Lemma find_gpu_ok instance enumerated gpu :
  find_gpu instance enumerated = Returned (ok gpu) →
  gpu ∈ snd enumerated ∧ taken gpu = true.
Proof.
  unfold find_gpu. destruct (not_null instance); [|discriminate]. cbn.
  destruct (failed (fst enumerated)); [discriminate|].
  destruct (first_not_passed_over (snd enumerated))
    as [Hall|(i & g & Hi & Hg & Hmin)].
  - by rewrite find_gpu_loop_none.
  - rewrite (find_gpu_loop_first _ i g Hi Hg Hmin), find_gpu_loop_one, Hg.
    destruct (taken g) eqn:Ht.
    + intros [= <-]. split; [by eapply list_elem_of_lookup_2|done].
    + by destruct (enumeration_fails g).
Qed.

(** X13.  [find_gpu] returns the first device it can take.  With a live
    instance and a successful enumeration of the devices, [find_gpu]
    returns a device exactly when that device is taken, that is, it has
    the two features, its extensions are enumerated and pass the extension
    test and [find_queue_family] finds a family on it, and every device
    enumerated before it is passed over. *)
Theorem find_gpu_returns_first_taken
    (instance : Handle) (enumerated : VkResult * list PhysicalDevice)
    (gpu : PhysicalDevice) :
  not_null instance = true →
  fst enumerated = VK_SUCCESS →
  find_gpu instance enumerated = Returned (ok gpu) ↔
  ∃ i : nat, snd enumerated !! i = Some gpu ∧ taken gpu = true ∧
    ∀ (j : nat) other, (j < i)%nat → snd enumerated !! j = Some other →
      passed_over other = true.
Proof.
  intros Hinst Henum. rewrite find_gpu_eq by done. split.
  - intros Hrun.
    destruct (first_not_passed_over (snd enumerated))
      as [Hall|(i & g & Hi & Hg & Hmin)].
    + by rewrite find_gpu_loop_none in Hrun.
    + rewrite (find_gpu_loop_first _ i g Hi Hg Hmin), find_gpu_loop_one, Hg
        in Hrun.
      destruct (taken g) eqn:Ht.
      * inversion Hrun; subst g. by exists i.
      * by destruct (enumeration_fails g).
  - intros (i & Hi & Ht & Hmin).
    rewrite (find_gpu_loop_first _ i gpu Hi (taken_not_passed_over _ Ht) Hmin).
    by rewrite find_gpu_loop_one, (taken_not_passed_over _ Ht), Ht.
Qed.

(** X13, witness: a device without sample-rate shading is passed over and
    the device after it is returned. *)
Lemma find_gpu_returns_first_taken_witness :
  find_gpu 1%nat (VK_SUCCESS, [gpu_no_shading; gpu_compute_first; gpu_bare])
    = Returned (ok gpu_compute_first) ↔
  ∃ i : nat,
    [gpu_no_shading; gpu_compute_first; gpu_bare] !! i = Some gpu_compute_first ∧
    taken gpu_compute_first = true ∧
    ∀ (j : nat) other, (j < i)%nat →
      [gpu_no_shading; gpu_compute_first; gpu_bare] !! j = Some other →
      passed_over other = true.
Proof.
  apply (find_gpu_returns_first_taken 1%nat
           (VK_SUCCESS, [gpu_no_shading; gpu_compute_first; gpu_bare])
           gpu_compute_first); reflexivity.
Defined.

(** X14.  The errors of [find_gpu].  With a live instance and a successful
    enumeration of the devices, [find_gpu] reports that no device is
    suitable exactly when it passes over every device, and it returns
    [VulkanFailure] exactly when the first device it does not pass over
    has the two features and fails to enumerate its extensions: the
    devices after that one are not looked at, whatever they are. *)
Theorem find_gpu_errors
    (instance : Handle) (enumerated : VkResult * list PhysicalDevice) :
  not_null instance = true →
  fst enumerated = VK_SUCCESS →
  (find_gpu instance enumerated = Returned (err VkPhysicalDevicesUnsuitable) ↔
     ∀ gpu, gpu ∈ snd enumerated → passed_over gpu = true) ∧
  (find_gpu instance enumerated = Returned (err VulkanFailure) ↔
     ∃ (i : nat) gpu, snd enumerated !! i = Some gpu ∧
       enumeration_fails gpu = true ∧
       ∀ (j : nat) other, (j < i)%nat → snd enumerated !! j = Some other →
         passed_over other = true).
Proof.
  intros Hinst Henum. rewrite find_gpu_eq by done.
  destruct (first_not_passed_over (snd enumerated))
    as [Hall|(i & g & Hi & Hg & Hmin)].
  - rewrite find_gpu_loop_none by done. split; [done|].
    split; [discriminate|]. intros (k & gpu & Hk & Hf & _).
    apply enumeration_fails_not_passed_over in Hf.
    rewrite Hall in Hf; [discriminate|]. by eapply list_elem_of_lookup_2.
  - rewrite (find_gpu_loop_first _ i g Hi Hg Hmin), find_gpu_loop_one, Hg.
    assert (Hfirst : ∀ (k : nat) gpu, snd enumerated !! k = Some gpu →
              passed_over gpu = false →
              (∀ (j : nat) other, (j < k)%nat →
                 snd enumerated !! j = Some other → passed_over other = true) →
              k = i ∧ gpu = g).
    { intros k gpu Hk Hgpu Hkmin.
      destruct (Nat.lt_trichotomy k i) as [Hlt|[->|Hgt]].
      - rewrite (Hmin k gpu Hlt Hk) in Hgpu. discriminate.
      - split; [done|]. congruence.
      - rewrite (Hkmin i g Hgt Hi) in Hg. discriminate. }
    split.
    + split.
      * intros Hrun Hfalse. exfalso.
        destruct (taken g); [discriminate|].
        by destruct (enumeration_fails g).
      * intros Hall. rewrite Hall in Hg; [discriminate|].
        by eapply list_elem_of_lookup_2.
    + split.
      * intros Hrun. exists i, g. split; [done|]. split; [|done].
        destruct (taken g); [discriminate|].
        by destruct (enumeration_fails g).
      * intros (k & gpu & Hk & Hf & Hkmin).
        destruct (Hfirst k gpu Hk (enumeration_fails_not_passed_over _ Hf) Hkmin)
          as [-> ->].
        by rewrite (enumeration_fails_not_taken _ Hf), Hf.
Qed.

(** X14, witness: a device that cannot enumerate its extensions stops the
    search although the device after it could be taken. *)
Lemma find_gpu_errors_witness :
  find_gpu 1%nat (VK_SUCCESS, [gpu_no_shading; gpu_lost; gpu_compute_first])
    = Returned (err VulkanFailure) ∧
  taken gpu_compute_first = true.
Proof.
  split; [|reflexivity].
  apply (find_gpu_errors 1%nat
           (VK_SUCCESS, [gpu_no_shading; gpu_lost; gpu_compute_first]));
    [reflexivity..|].
  exists 1%nat, gpu_lost. split; [reflexivity|]. split; [reflexivity|].
  intros [|j] other Hj Hother; [|lia].
  inversion Hother; subst other. reflexivity.
Defined.

(** What [Engine::create] returns, step by step. *)
Lemma Engine_create_returned drv flag r flag' :
  Engine_create drv flag = (Returned r, flag') →
  flag = false ∧
  match r with
  | err e => flag' = false ∧ (init_instance drv = err e ∨ e ∈ Engine_create_errors)
  | ok engine =>
      flag' = true ∧
      init_instance drv = ok (instance engine) ∧
      debug_messenger engine = snd (createDebugUtilsMessengerEXT drv) ∧
      (∃ gpu_, gpu engine = Some gpu_ ∧
         find_gpu (instance engine) (enumeratePhysicalDevices drv)
           = Returned (ok gpu_) ∧
         find_queue_family gpu_ = Returned (ok (queue_family_index engine))) ∧
      device engine = snd (createDevice drv) ∧
      queue engine = getQueue drv ∧
      allocator engine = snd (vmaCreateAllocator drv) ∧
      command_pool engine = snd (createCommandPool drv 0%nat) ∧
      single_time_command_pool engine = snd (createCommandPool drv 1%nat) ∧
      not_null (instance engine) = true ∧
      not_null (debug_messenger engine) = true ∧
      not_null (device engine) = true ∧
      not_null (allocator engine) = true ∧
      not_null (queue engine) = true ∧
      not_null (command_pool engine) = true ∧
      not_null (single_time_command_pool engine) = true ∧
      queue_family_index engine ≠ UINT32_MAX
  end.
Proof.
  unfold Engine_create, Engine_create_errors. unfold_body.
  destruct flag; cbn -[find_gpu find_queue_family init_device init_allocator];
    [discriminate|].
  destruct (glfwInit drv); cbn -[find_gpu find_queue_family init_device init_allocator].
  2:{ intros [= <- <-]. repeat split. right. set_solver. }
  destruct (init_instance drv) as [inst|e0]; cbn -[find_gpu find_queue_family init_device init_allocator].
  2:{ intros [= <- <-]. repeat split. by left. }
  destruct (failed (fst (createDebugUtilsMessengerEXT drv)));
    cbn -[find_gpu find_queue_family init_device init_allocator].
  { intros [= <- <-]. repeat split. right. set_solver. }
  destruct (find_gpu inst (enumeratePhysicalDevices drv)) as [[g|e1]|] eqn:Hgpu;
    cbn -[find_gpu find_queue_family init_device init_allocator]; [| |discriminate].
  2:{ intros [= <- <-]. repeat split. right.
      unfold find_gpu in Hgpu. destruct (negb (not_null inst)); [discriminate|].
      destruct (failed (fst (enumeratePhysicalDevices drv))).
      { inversion Hgpu. set_solver. }
      destruct (first_not_passed_over (snd (enumeratePhysicalDevices drv)))
        as [Hall|(i & g & Hi & Hg & Hmin)].
      - rewrite find_gpu_loop_none in Hgpu by done. inversion Hgpu. set_solver.
      - rewrite (find_gpu_loop_first _ i g Hi Hg Hmin), find_gpu_loop_one, Hg in Hgpu.
        destruct (taken g); [discriminate|].
        destruct (enumeration_fails g); [|discriminate].
        inversion Hgpu. set_solver. }
  pose proof (find_gpu_ok _ _ _ Hgpu) as [Hin Htaken].
  destruct (find_queue_family g) as [[q|e2]|] eqn:Hq;
    cbn -[find_gpu find_queue_family init_device init_allocator].
  2:{ unfold taken in Htaken. rewrite Hq in Htaken.
      rewrite andb_false_r in Htaken. discriminate. }
  2:{ discriminate. }
  unfold init_device, init_allocator. cbn.
  destruct (q =? UINT32_MAX) eqn:Hmax; cbn; [discriminate|].
  destruct (failed (fst (createDevice drv))); cbn.
  { intros [= <- <-]. repeat split. right. set_solver. }
  destruct (not_null (snd (createDevice drv))) eqn:Hdev; cbn; [|discriminate].
  destruct (not_null (getQueue drv)) eqn:Hqueue; cbn.
  2:{ intros [= <- <-]. repeat split. right. set_solver. }
  destruct (not_null inst) eqn:Hinst; cbn; [|discriminate].
  rewrite ?Hdev; cbn.
  destruct (failed (fst (vmaCreateAllocator drv))); cbn.
  { intros [= <- <-]. repeat split. right. set_solver. }
  destruct (failed (fst (createCommandPool drv 0%nat))); cbn.
  { intros [= <- <-]. repeat split. right. set_solver. }
  destruct (failed (fst (createCommandPool drv 1%nat))); cbn.
  { intros [= <- <-]. repeat split. right. set_solver. }
  destruct (not_null (snd (createDebugUtilsMessengerEXT drv))) eqn:Hmess; cbn;
    [|discriminate].
  destruct (not_null (gpu_handle g)) eqn:Hg; cbn; [|discriminate].
  destruct (not_null (snd (vmaCreateAllocator drv))) eqn:Halloc; cbn;
    [|discriminate].
  destruct (not_null (snd (createCommandPool drv 0%nat))) eqn:Hp0; cbn;
    [|discriminate].
  destruct (not_null (snd (createCommandPool drv 1%nat))) eqn:Hp1; cbn;
    [|discriminate].
  intros [= <- <-]. cbn. repeat split; try done.
  - exists g. done.
  - intros ->. discriminate.
Qed.

(** X15.  What a successful [Engine::create] returns.  The call can only
    succeed when no engine was initialized; it sets the flag, so that a
    second [create] is fatal; the device of the engine is one the platform
    enumerates and [find_gpu] takes; the queue family index is the index
    of a family of that device that has the graphics bit or the compute
    bit, no earlier family having either; and every handle of the engine
    is set. *)
Theorem Engine_create_success
    (drv drv' : Driver) (flag flag' : bool) (engine : Engine) :
  Engine_create drv flag = (Returned (ok engine), flag') →
  flag = false ∧ flag' = true ∧
  Engine_create drv' flag' = (Fatal, flag') ∧
  (∃ gpu_ family,
     gpu engine = Some gpu_ ∧
     gpu_ ∈ snd (enumeratePhysicalDevices drv) ∧ taken gpu_ = true ∧
     0 ≤ queue_family_index engine ∧
     getQueueFamilyProperties gpu_ !! Z.to_nat (queue_family_index engine)
       = Some family ∧
     (has_graphics family = true ∨ has_compute family = true) ∧
     ∀ (j : nat) earlier, (Z.of_nat j < queue_family_index engine) →
       getQueueFamilyProperties gpu_ !! j = Some earlier →
       has_graphics earlier = false ∧ has_compute earlier = false) ∧
  not_null (instance engine) = true ∧
  not_null (debug_messenger engine) = true ∧
  not_null (device engine) = true ∧
  not_null (allocator engine) = true ∧
  not_null (queue engine) = true ∧
  not_null (command_pool engine) = true ∧
  not_null (single_time_command_pool engine) = true.
Proof.
  intros Hrun. apply Engine_create_returned in Hrun
    as (-> & -> & _ & _ & (g & Hg & Hfind & Hq) & _ & _ & _ & _ & _ &
        H1 & H2 & H3 & H4 & H5 & H6 & H7 & _).
  split; [done|]. split; [done|]. split; [reflexivity|].
  split; [|done].
  apply find_gpu_ok in Hfind as [Hin Htaken].
  pose proof (find_queue_family_ok_not_null _ _ Hq) as Hnn.
  assert (Hnat : ∃ i : nat, queue_family_index engine = Z.of_nat i).
  { revert Hq. unfold find_queue_family. rewrite Hnn. cbn.
    destruct (find_if _ _) as [i|]; [|discriminate].
    intros [= <-]. by exists i. }
  destruct Hnat as [i Hi]. rewrite Hi in *.
  apply (find_queue_family_spec g Hnn) in Hq as [(family & Hf & Hbits) Hmin].
  exists g, family. rewrite Nat2Z.id.
  do 3 (split; [done|]). split; [lia|]. do 2 (split; [done|]).
  intros j earlier Hj. apply Hmin. lia.
Qed.

(** X15, witness: the platform that enumerates [gpu_compute_first]. *)
Lemma Engine_create_success_witness :
  Engine_create (device_driver [gpu_compute_first]) true = (Fatal, true) ∧
  gpu_compute_first ∈ snd (enumeratePhysicalDevices
                             (device_driver [gpu_compute_first])).
Proof.
  destruct (Engine_create_success (device_driver [gpu_compute_first])
              (device_driver [gpu_compute_first]) false true
              (engine_on gpu_compute_first))
    as (_ & _ & Hfatal & (g & family & Hg & Hin & _) & _).
  - vm_compute. reflexivity.
  - split; [exact Hfatal|].
    cbn in Hg. inversion Hg; subst g. exact Hin.
Defined.

(** X16.  What a failed [Engine::create] leaves and reports.  When the call
    returns an error, no engine was initialized before and none is
    afterwards: the flag is still clear and [create] can be called again.
    The error is the one [init_instance] returned or one of nine tags, and
    [VkQueueFamilyUnavailable] is not among them: the device [find_gpu]
    returned has passed [find_queue_family] already, so the second look
    for a queue family in [create] cannot fail. *)
Theorem Engine_create_failure
    (drv : Driver) (flag flag' : bool) (e : Err) :
  Engine_create drv flag = (Returned (err e), flag') →
  flag = false ∧ flag' = false ∧
  (init_instance drv = err e ∨ e ∈ Engine_create_errors) ∧
  (init_instance drv ≠ err VkQueueFamilyUnavailable →
   e ≠ VkQueueFamilyUnavailable).
Proof.
  intros Hrun. apply Engine_create_returned in Hrun as (-> & -> & Herr).
  do 3 (split; [done|]). intros Hinit ->.
  destruct Herr as [Herr|Herr]; [done|].
  unfold Engine_create_errors in Herr.
  repeat (apply elem_of_cons in Herr as [Herr|Herr]; [discriminate|]).
  by apply elem_of_nil in Herr.
Qed.

(** X16, witness: a platform that enumerates no device. *)
Lemma Engine_create_failure_witness :
  VkPhysicalDevicesUnsuitable ∈ Engine_create_errors ∧
  snd (Engine_create (device_driver []) false) = false.
Proof.
  destruct (Engine_create_failure (device_driver []) false false
              VkPhysicalDevicesUnsuitable) as (_ & _ & [Herr|Herr] & _).
  - vm_compute. reflexivity.
  - discriminate.
  - split; [exact Herr|]. vm_compute. reflexivity.
Defined.

(** ** The instance and the end of the engine *)

Lemma init_instance_returned NDEBUG platform asked r asked' :
  InstanceSetup.init_instance NDEBUG platform asked = (Returned r, asked') →
  match r with
  | ok instance_ =>
      ∃ glfw_extensions,
        InstanceSetup.glfwGetRequiredInstanceExtensions platform
          = Some glfw_extensions ∧
        check_instance_extension_availability
          (InstanceSetup.enumerateInstanceExtensionProperties platform)
          (glfw_extensions
           ++ (if NDEBUG then []
               else [InstanceSetup.VK_EXT_DEBUG_UTILS_EXTENSION_NAME]))
          = Returned (ok true) ∧
        asked' = asked ++
          [{| InstanceSetup.ppEnabledLayerNames :=
                InstanceSetup.ValidationLayers NDEBUG;
              InstanceSetup.ppEnabledExtensionNames :=
                glfw_extensions
                ++ (if NDEBUG then []
                    else [InstanceSetup.VK_EXT_DEBUG_UTILS_EXTENSION_NAME]) |}] ∧
        InstanceSetup.createInstance platform = (VK_SUCCESS, instance_) ∧
        not_null instance_ = true
  | err e =>
      (e = CouldNotCreateVkInstance ∧ length asked' = S (length asked)) ∨
      (e ∈ [GlfwFailure; VulkanFailure; VulkanExtensionsUnavailable] ∧
       asked' = asked)
  end.
Proof.
  unfold InstanceSetup.init_instance,
    InstanceSetup.get_required_instance_extensions. unfold_body.
  destruct (InstanceSetup.glfwGetRequiredInstanceExtensions platform)
    as [glfw|]; cbn -[check_instance_extension_availability].
  2:{ intros [= <- <-]. right. split; [set_solver|done]. }
  destruct (check_instance_extension_availability _ _) as [[[]|e]|] eqn:Hcheck;
    cbn; try discriminate.
  - destruct (InstanceSetup.createInstance platform) as [res h] eqn:Hcreate.
    cbn. destruct (failed res) eqn:Hres; cbn.
    { intros [= <- <-]. left. split; [done|]. rewrite length_app. cbn. lia. }
    destruct (not_null h) eqn:Hh; cbn; [|discriminate].
    intros [= <- <-]. exists glfw. apply failed_false in Hres. subst res.
    done.
  - intros [= <- <-]. right. split; [set_solver|done].
  - intros [= <- <-]. right. split; [|done].
    unfold check_instance_extension_availability in Hcheck.
    destruct (bool_decide _); [discriminate|].
    destruct (failed _); [|discriminate]. inversion Hcheck. set_solver.
Qed.

(** X17.  [init_instance] asks for an instance only after the check of the
    extensions.  When it returns an instance, GLFW gave its list of names,
    every name of that list, and the debug utilities in a debug build, is
    among the instance extensions the loader enumerates, and exactly one
    instance was asked of the loader, with those names as its extensions
    and the validation layer in a debug build.  When it returns an error
    other than [CouldNotCreateVkInstance], no instance was asked for. *)
Theorem init_instance_checks_before_creating
    (NDEBUG : bool) (platform : InstanceSetup.Platform)
    (asked asked' : list InstanceSetup.InstanceCreateInfo) (r : Result Handle) :
  Forall nul_free
    (snd (InstanceSetup.enumerateInstanceExtensionProperties platform)) →
  (∀ glfw_extensions,
     InstanceSetup.glfwGetRequiredInstanceExtensions platform
       = Some glfw_extensions → Forall nul_free glfw_extensions) →
  InstanceSetup.init_instance NDEBUG platform asked = (Returned r, asked') →
  (∀ instance_, r = ok instance_ →
     not_null instance_ = true ∧
     ∃ glfw_extensions required,
       InstanceSetup.glfwGetRequiredInstanceExtensions platform
         = Some glfw_extensions ∧
       required = glfw_extensions
                  ++ (if NDEBUG then [] else ["VK_EXT_debug_utils"%string]) ∧
       (∀ name, name ∈ required →
          name ∈ snd (InstanceSetup.enumerateInstanceExtensionProperties
                        platform)) ∧
       asked' = asked ++
         [{| InstanceSetup.ppEnabledLayerNames :=
               if NDEBUG then [] else ["VK_LAYER_KHRONOS_validation"%string];
             InstanceSetup.ppEnabledExtensionNames := required |}]) ∧
  (∀ e, r = err e → e ≠ CouldNotCreateVkInstance → asked' = asked).
Proof.
  intros Henum Hglfw Hrun. apply init_instance_returned in Hrun. split.
  - intros instance_ ->.
    destruct Hrun as (glfw & Hg & Hcheck & -> & Hcreate & Hnn).
    split; [done|]. eexists glfw, _. split; [done|]. split; [reflexivity|].
    split; [|reflexivity].
    assert (Hne : glfw ++ (if NDEBUG then []
                           else [InstanceSetup.VK_EXT_DEBUG_UTILS_EXTENSION_NAME])
                  ≠ []).
    { intros Hnil. unfold check_instance_extension_availability in Hcheck.
      rewrite Hnil in Hcheck. discriminate. }
    assert (Hok : fst (InstanceSetup.enumerateInstanceExtensionProperties platform)
                  = VK_SUCCESS).
    { unfold check_instance_extension_availability in Hcheck.
      destruct (bool_decide _); [discriminate|].
      destruct (failed _) eqn:Hf; [discriminate|]. by apply failed_false. }
    assert (Hreq : Forall nul_free
              (glfw ++ (if NDEBUG then []
                        else [InstanceSetup.VK_EXT_DEBUG_UTILS_EXTENSION_NAME]))).
    { apply Forall_app. split; [by apply Hglfw|].
      destruct NDEBUG; repeat constructor; discriminate. }
    unfold check_instance_extension_availability in Hcheck.
    rewrite bool_decide_eq_false_2, Hok in Hcheck by done.
    change (failed VK_SUCCESS) with false in Hcheck. cbn [negb] in Hcheck.
    injection Hcheck as Hall. rewrite forallb_forall in Hall.
    rewrite Forall_forall in Hreq, Henum.
    intros name Hin. apply list_elem_of_In in Hin as Hin'.
    apply Hall, existsb_exists in Hin' as (e & He & Hcmp).
    apply Z.eqb_eq in Hcmp. apply list_elem_of_In in He.
    apply strcmp_zero_iff in Hcmp; [by subst e | by apply Hreq | by apply Henum].
  - intros e -> Hne. destruct Hrun as [[-> _]|[_ ->]]; done.
Qed.

(** X17, witness: the debug build on [desktop]. *)
Lemma init_instance_checks_before_creating_witness :
  not_null 1%nat = true ∧
  ∃ glfw_extensions required,
    InstanceSetup.glfwGetRequiredInstanceExtensions InstanceSetup.desktop
      = Some glfw_extensions ∧
    required = glfw_extensions ++ ["VK_EXT_debug_utils"%string] ∧
    (∀ name, name ∈ required →
       name ∈ snd (InstanceSetup.enumerateInstanceExtensionProperties
                     InstanceSetup.desktop)) ∧
    snd (InstanceSetup.init_instance false InstanceSetup.desktop []) =
      [] ++ [{| InstanceSetup.ppEnabledLayerNames :=
                  ["VK_LAYER_KHRONOS_validation"%string];
                InstanceSetup.ppEnabledExtensionNames := required |}].
Proof.
  refine (proj1 (init_instance_checks_before_creating false
            InstanceSetup.desktop []
            (snd (InstanceSetup.init_instance false InstanceSetup.desktop []))
            (ok 1%nat) _ _ _) 1%nat eq_refl).
  - repeat constructor; discriminate.
  - intros glfw [= <-]. repeat constructor; discriminate.
  - vm_compute. reflexivity.
Defined.


(** X19.  Create, destroy, create.  After a successful [Engine::create],
    [Engine::destroy] on the engine it returned fails no assertion; it
    releases the transient command pool, the command pool, the allocator,
    the device, the debug messenger and the instance, in this order, and
    clears the flag, so that a second [destroy] is fatal and a second
    [create], on the same answers of the platform, returns the engine
    again. *)
Theorem Engine_destroy_after_create
    (drv : Driver) (engine : Engine) (p p1 : Process) :
  Engine_create_in drv p = (Returned (ok engine), p1) →
  ∃ p2,
    Engine_destroy engine p1 = (Returned (ok tt), p2) ∧
    s_engine_initialized p2 = false ∧
    released p2 = released p ++
      [destroyCommandPool (single_time_command_pool engine);
       destroyCommandPool (command_pool engine);
       vmaDestroyAllocator (allocator engine);
       Device_destroy (device engine);
       destroyDebugUtilsMessengerEXT (debug_messenger engine);
       Instance_destroy (instance engine)] ∧
    fst (Engine_destroy engine p2) = Fatal ∧
    Engine_create_in drv p2
      = (Returned (ok engine), set_engine_initialized true p2).
Proof.
  unfold Engine_create_in. intros Hrun.
  destruct (Engine_create drv (s_engine_initialized p)) as [o flag'] eqn:Hcreate.
  cbn in Hrun. injection Hrun as -> <-.
  pose proof (Engine_create_returned _ _ _ _ Hcreate)
    as (Hflag & -> & _ & _ & _ & _ & _ & _ & _ & _ &
        H1 & H2 & H3 & H4 & H5 & H6 & H7 & _).
  eexists. split; [|split; [|split; [|split]]].
  - unfold Engine_destroy. unfold_body. cbn.
    rewrite H1, H2, H3, H4, H6, H7. cbn. reflexivity.
  - reflexivity.
  - cbn. rewrite <- !app_assoc. reflexivity.
  - reflexivity.
  - cbn. rewrite <- Hflag, Hcreate. reflexivity.
Qed.

(** X19, witness: the engine on [gpu_compute_first]. *)
Lemma Engine_destroy_after_create_witness :
  ∃ p2,
    Engine_destroy (engine_on gpu_compute_first)
      {| s_engine_initialized := true; released := [] |}
      = (Returned (ok tt), p2) ∧
    released p2 =
      [destroyCommandPool 7%nat; destroyCommandPool 6%nat;
       vmaDestroyAllocator 5%nat; Device_destroy 3%nat;
       destroyDebugUtilsMessengerEXT 2%nat; Instance_destroy 1%nat].
Proof.
  destruct (Engine_destroy_after_create (device_driver [gpu_compute_first])
              (engine_on gpu_compute_first)
              {| s_engine_initialized := false; released := [] |}
              {| s_engine_initialized := true; released := [] |})
    as (p2 & Hrun & _ & Hreleased & _).
  - vm_compute. reflexivity.
  - exists p2. split; [exact Hrun|exact Hreleased].
Defined.
